(** * Baileys REST API: session lifecycle and webhook delivery

    A shallow embedding of the two services at the core of the REST wrapper,
    [WebhookService] (signing, delivery, retry bookkeeping) and
    [WhatsAppService] (the live session registry and its connection state
    machine), together with the slice of [DatabaseService] they call, and the
    properties of the specification checked against them.

    Conventions of the embedding.
    - A JavaScript string is a Rocq [string]: the sequence of its UTF-8 bytes,
      which is what [Buffer.from(s)] and [Hmac.update(s)] consume.
    - An [async] method is a state transformer that runs to completion: a
      call is not interleaved with other calls.  A rejected promise is a
      result [inl e]; a fulfilled one is [inr v].
    - [setTimeout] callbacks are records in a list of pending timers; firing
      one is a separate step of the model.
    - Prisma tables are lists of rows (newest row first) or maps keyed by the
      column the code looks rows up with.  The store itself is reliable: a
      query fails only for the reason its own arguments give (a missing row,
      a duplicate key).
    - The protocol library, the QR encoder and the network are the
      environment: what they answer is an argument of the operation that
      asks them. *)

From Stdlib Require Import ZArith String Ascii List Lia Finite Sorted.
From stdpp Require Import base option gmap strings list pretty.
Import ListNotations.
Local Open Scope Z_scope.

(** ** JavaScript exceptions *)

Inductive Exn : Type :=
| JsError (message : string)            (* new Error(message) *)
| JsTypeError (message : string)
| JsRangeError (message : string)
| PrismaError (code : string)           (* PrismaClientKnownRequestError *)
| AxiosError (message : string).

Definition exn_message (e : Exn) : string :=
  match e with
  | JsError m | JsTypeError m | JsRangeError m | AxiosError m => m
  | PrismaError c => c
  end.

(** ** SHA-256 (FIPS 180-4) on 32-bit words held in [Z] *)

Module Sha256.

Definition w32 (x : Z) : Z := Z.land x 0xffffffff.
Definition add32 (x y : Z) : Z := w32 (x + y).
Definition rotr (n x : Z) : Z :=
  Z.lor (Z.shiftr x n) (w32 (Z.shiftl x (32 - n))).
Definition shr (n x : Z) : Z := Z.shiftr x n.
Definition not32 (x : Z) : Z := Z.lxor x 0xffffffff.

Definition Ch (x y z : Z) : Z := Z.lxor (Z.land x y) (Z.land (not32 x) z).
Definition Maj (x y z : Z) : Z :=
  Z.lxor (Z.lxor (Z.land x y) (Z.land x z)) (Z.land y z).
Definition Sigma0 (x : Z) : Z :=
  Z.lxor (Z.lxor (rotr 2 x) (rotr 13 x)) (rotr 22 x).
Definition Sigma1 (x : Z) : Z :=
  Z.lxor (Z.lxor (rotr 6 x) (rotr 11 x)) (rotr 25 x).
Definition sigma0 (x : Z) : Z :=
  Z.lxor (Z.lxor (rotr 7 x) (rotr 18 x)) (shr 3 x).
Definition sigma1 (x : Z) : Z :=
  Z.lxor (Z.lxor (rotr 17 x) (rotr 19 x)) (shr 10 x).

(** The constants are defined the way the standard defines them: the first
    32 bits of the fractional parts of the cube roots (round constants) and
    square roots (initial hash value) of the first primes. *)

Definition is_prime (p : Z) : bool :=
  (1 <? p) &&
  forallb (fun d => negb (p mod d =? 0))
          (map Z.of_nat (seq 2 (Z.to_nat (Z.sqrt p) - 1))).

Definition primes64 : list Z :=
  firstn 64 (List.filter is_prime (map Z.of_nat (seq 2 320))).

Fixpoint cbrt_bits (bits : nat) (n r : Z) : Z :=
  match bits with
  | O => r
  | S b =>
      let c := r + Z.shiftl 1 (Z.of_nat b) in
      cbrt_bits b n (if c * c * c <=? n then c else r)
  end.

Definition icbrt (n : Z) : Z := cbrt_bits 40 n 0.

Definition K : list Z :=
  Eval vm_compute in map (fun p => w32 (icbrt (p * 2 ^ 96))) primes64.

Definition H0 : list Z :=
  Eval vm_compute in map (fun p => w32 (Z.sqrt (p * 2 ^ 64))) (firstn 8 primes64).

(** Big-endian conversions between bytes and words. *)

Definition be32 (b : list Z) : Z :=
  fold_left (fun acc x => Z.lor (Z.shiftl acc 8) x) (firstn 4 b) 0.

Definition bytes_of_word (nbytes : nat) (x : Z) : list Z :=
  map (fun i => Z.land (Z.shiftr x (8 * Z.of_nat i)) 0xff) (rev (seq 0 nbytes)).

Fixpoint words (n : nat) (b : list Z) : list Z :=
  match n with
  | O => []
  | S n' => be32 b :: words n' (skipn 4 b)
  end.

(** Padding: a one bit, zeros up to 56 mod 64, the bit length on 8 bytes. *)

Definition pad (msg : list Z) : list Z :=
  let len := Z.of_nat (length msg) in
  msg ++ [0x80] ++ repeat 0 (Z.to_nat ((55 - len) mod 64))
      ++ bytes_of_word 8 (8 * len).

Definition nthw (l : list Z) (i : nat) : Z := nth i l 0.

Definition round (s : list Z) (kw : Z * Z) : list Z :=
  let a := nthw s 0 in let b := nthw s 1 in
  let c := nthw s 2 in let d := nthw s 3 in
  let e := nthw s 4 in let f := nthw s 5 in
  let g := nthw s 6 in let h := nthw s 7 in
  let T1 := add32 (add32 (add32 (add32 h (Sigma1 e)) (Ch e f g)) (fst kw)) (snd kw) in
  let T2 := add32 (Sigma0 a) (Maj a b c) in
  [add32 T1 T2; a; b; c; add32 d T1; e; f; g].

(** The message schedule, produced from a sliding window of sixteen words. *)

Fixpoint schedule (n : nat) (win : list Z) : list Z :=
  match n with
  | O => []
  | S n' =>
      let next :=
        add32 (add32 (add32 (sigma1 (nthw win 14)) (nthw win 9))
                     (sigma0 (nthw win 1))) (nthw win 0) in
      nthw win 0 :: schedule n' (skipn 1 win ++ [next])
  end.

Definition compress (H block : list Z) : list Z :=
  let W := schedule 64 (words 16 block) in
  let s := fold_left round (combine K W) H in
  map (fun p => add32 (fst p) (snd p)) (combine H s).

Fixpoint blocks (n : nat) (b H : list Z) : list Z :=
  match n with
  | O => H
  | S n' => blocks n' (skipn 64 b) (compress H (firstn 64 b))
  end.

Definition sha256 (msg : list Z) : list Z :=
  let p := pad msg in
  flat_map (bytes_of_word 4) (blocks (length p / 64) p H0).

End Sha256.

(** ** Node's [crypto] and [Buffer] *)

Module Crypto.

(** [Buffer.from(s)]: the bytes of the string. *)
Definition Buffer_from (s : string) : list Z :=
  map (fun c => Z.of_N (N_of_ascii c)) (list_ascii_of_string s).

Definition hex_alphabet : list ascii := list_ascii_of_string "0123456789abcdef".

Definition hex_digit (n : Z) : ascii := nth (Z.to_nat n) hex_alphabet "0"%char.

(** [buf.toString('hex')] / [digest('hex')]: two lowercase digits a byte. *)
Definition hex_of_bytes (b : list Z) : string :=
  string_of_list_ascii
    (flat_map (fun x => [hex_digit (Z.shiftr x 4); hex_digit (Z.land x 15)]) b).

(** HMAC (RFC 2104) with SHA-256: block size 64, a longer key is hashed. *)
Definition hmac_sha256 (key msg : list Z) : list Z :=
  let k0 := if (64 <? length key)%nat then Sha256.sha256 key else key in
  let k := k0 ++ repeat 0 (64 - length k0) in
  Sha256.sha256
    (map (Z.lxor 0x5c) k ++ Sha256.sha256 (map (Z.lxor 0x36) k ++ msg)).

(** [crypto.createHmac('sha256', secret).update(payload).digest('hex')] *)
Definition createHmac_sha256_hex (secret payload : string) : string :=
  hex_of_bytes (hmac_sha256 (Buffer_from secret) (Buffer_from payload)).

(** The comparison under [crypto.timingSafeEqual]: every byte pair is
    visited and the differences are or-ed together, whatever the data. *)
Definition CRYPTO_memcmp (a b : list Z) : Z :=
  fold_left (fun acc p => Z.lor acc (Z.lxor (fst p) (snd p))) (combine a b) 0.

(** [crypto.timingSafeEqual(a, b)] throws a RangeError when the two buffers
    differ in byte length. *)
Definition timingSafeEqual (a b : list Z) : Exn + bool :=
  if (length a =? length b)%nat
  then inr (CRYPTO_memcmp a b =? 0)
  else inl (JsRangeError "Input buffers must have the same byte length").

End Crypto.

(** ** DatabaseService: the Prisma tables the two services use *)

Inductive SessionStatus : Type :=
| CONNECTING | CONNECTED | DISCONNECTED | QR_REQUIRED | PAIRING_REQUIRED | ERROR.

Inductive DeliveryStatus : Type := PENDING | RETRYING | SUCCESS | FAILED.

Definition SessionStatus_eqb (a b : SessionStatus) : bool :=
  match a, b with
  | CONNECTING, CONNECTING | CONNECTED, CONNECTED
  | DISCONNECTED, DISCONNECTED | QR_REQUIRED, QR_REQUIRED
  | PAIRING_REQUIRED, PAIRING_REQUIRED | ERROR, ERROR => true
  | _, _ => false
  end.

Definition DeliveryStatus_eqb (a b : DeliveryStatus) : bool :=
  match a, b with
  | PENDING, PENDING | RETRYING, RETRYING
  | SUCCESS, SUCCESS | FAILED, FAILED => true
  | _, _ => false
  end.

Module DatabaseService.

(** Modelled from the spec: the Prisma schema that declares the tables is
    missing.  A row of [session] has the columns the services read and
    write.  [sessionId] is unique (the identity of a session, and the key of
    the [findUnique] calls); a fresh row is active, and [row_status = None]
    stands for the default of its status column. *)
Record SessionRow : Type := mkSessionRow {
  row_sessionId : string;
  row_userId : string;
  row_status : option SessionStatus;
  row_qrCode : option string;
  row_pairingCode : option string;
  row_phoneNumber : option string;
  row_name : option string;
  row_lastSeen : option Z;
  row_isActive : bool
}.

(** Modelled from the spec: a row of [webhook], with its owner, its set of
    event types, its optional secret, the consecutive-failure counter
    [retries] and its bound [maxRetries]; [isActive] is the soft delete. *)
Record Webhook : Type := mkWebhook {
  wh_id : string;
  wh_userId : string;
  wh_url : string;
  wh_events : list string;
  wh_secret : option string;
  wh_isActive : bool;
  wh_retries : Z;
  wh_maxRetries : Z;
  wh_lastError : option string
}.

(** What is stored in the [response] column of a delivery. *)
Inductive DeliveryResponse : Type :=
| HttpOutcome (status : Z) (body : string)
| ErrorOutcome (message : string).

(** Modelled from the spec: a row of [webhookDelivery]; the id is the rank
    of creation. *)
Record WebhookDelivery : Type := mkDelivery {
  wd_id : nat;
  wd_webhookId : string;
  wd_event : string;
  wd_payload : string;
  wd_status : DeliveryStatus;
  wd_attempts : Z;
  wd_nextRetry : option Z;
  wd_response : option DeliveryResponse
}.

(** [deliveries] is kept newest first, so that [orderBy: createdAt desc]
    is the order of the list; [next_delivery] is the next fresh id. *)
Record Database : Type := mkDatabase {
  sessions : gmap string SessionRow;
  webhooks : list Webhook;
  deliveries : list WebhookDelivery;
  next_delivery : nat
}.

Definition with_sessions (m : gmap string SessionRow) (d : Database) : Database :=
  mkDatabase m (webhooks d) (deliveries d) (next_delivery d).
Definition with_webhooks (l : list Webhook) (d : Database) : Database :=
  mkDatabase (sessions d) l (deliveries d) (next_delivery d).
Definition with_deliveries (l : list WebhookDelivery) (d : Database) : Database :=
  mkDatabase (sessions d) (webhooks d) l (next_delivery d).

(** [prisma.session.create({ data: { sessionId, userId } })] *)
Definition createSession (sessionId userId : string) (d : Database)
  : Exn + Database :=
  match sessions d !! sessionId with
  | Some _ => inl (PrismaError "P2002")
  | None =>
      inr (with_sessions
             (<[sessionId :=
                  mkSessionRow sessionId userId None None None None None None true]>
                (sessions d)) d)
  end.

(** [prisma.session.update({ where: { sessionId }, data })] *)
Definition updateSession (sessionId : string) (data : SessionRow -> SessionRow)
    (d : Database) : Exn + Database :=
  match sessions d !! sessionId with
  | None => inl (PrismaError "P2025")
  | Some r => inr (with_sessions (<[sessionId := data r]> (sessions d)) d)
  end.

(** [prisma.session.findUnique({ where: { sessionId } })] *)
Definition getSession (sessionId : string) (d : Database) : option SessionRow :=
  sessions d !! sessionId.

Definition set_inactive (r : SessionRow) : SessionRow :=
  mkSessionRow (row_sessionId r) (row_userId r) (row_status r) (row_qrCode r)
    (row_pairingCode r) (row_phoneNumber r) (row_name r) (row_lastSeen r) false.

(** [deleteSession]: a soft delete, [data: { isActive: false }]. *)
Definition deleteSession (sessionId : string) (d : Database) : Exn + Database :=
  updateSession sessionId set_inactive d.

(** [prisma.webhook.findMany({ where: { userId, isActive: true } })] *)
Definition getUserWebhooks (userId : string) (d : Database) : list Webhook :=
  List.filter (fun w => String.eqb (wh_userId w) userId && wh_isActive w) (webhooks d).

(** [prisma.webhook.findUnique({ where: { id } })] *)
Definition webhook_findUnique (id : string) (d : Database) : option Webhook :=
  find (fun w => String.eqb (wh_id w) id) (webhooks d).

(** [prisma.webhook.update({ where: { id }, data })] *)
Definition webhook_update (id : string) (data : Webhook -> Webhook)
    (d : Database) : Database :=
  with_webhooks
    (map (fun w => if String.eqb (wh_id w) id then data w else w) (webhooks d)) d.

(** [prisma.webhookDelivery.create]: [attempts] starts at zero. *)
Definition webhookDelivery_create (webhookId event payload : string)
    (status : DeliveryStatus) (d : Database) : WebhookDelivery * Database :=
  let row := mkDelivery (next_delivery d) webhookId event payload status 0 None None in
  (row, mkDatabase (sessions d) (webhooks d) (row :: deliveries d)
          (S (next_delivery d))).

(** [prisma.webhookDelivery.update({ where: { id }, data })] *)
Definition webhookDelivery_update (id : nat)
    (data : WebhookDelivery -> WebhookDelivery) (d : Database) : Database :=
  with_deliveries
    (map (fun r => if Nat.eqb (wd_id r) id then data r else r) (deliveries d)) d.

(** [prisma.webhookDelivery.findFirst({ where, orderBy: { createdAt: 'desc' } })] *)
Definition webhookDelivery_findFirst (where_ : WebhookDelivery -> bool)
    (d : Database) : option WebhookDelivery :=
  find where_ (deliveries d).

Definition set_webhook_inactive (w : Webhook) : Webhook :=
  mkWebhook (wh_id w) (wh_userId w) (wh_url w) (wh_events w) (wh_secret w) false
            (wh_retries w) (wh_maxRetries w) (wh_lastError w).

(** [deleteWebhook]: the soft delete of a webhook, [data: { isActive: false }];
    the update throws when no row has the id. *)
Definition deleteWebhook (id : string) (d : Database) : Exn + Database :=
  match webhook_findUnique id d with
  | Some _ => inr (webhook_update id set_webhook_inactive d)
  | None => inl (PrismaError "P2025")
  end.

(** [prisma.webhookDelivery.findMany({ where, orderBy: { createdAt: 'desc' } })] *)
Definition webhookDelivery_findMany (where_ : WebhookDelivery -> bool)
    (d : Database) : list WebhookDelivery :=
  List.filter where_ (deliveries d).

(** [prisma.webhookDelivery.deleteMany({ where })] *)
Definition webhookDelivery_deleteMany (where_ : WebhookDelivery -> bool)
    (d : Database) : Database :=
  with_deliveries (List.filter (fun r => negb (where_ r)) (deliveries d)) d.

(** ** Chats *)

(** A row of [chat], with the columns [upsertChat] writes.  A column that
    is [None] was given no value by this code. *)
Record Chat : Type := mkChat {
  chat_sessionId : string;
  chat_jid : string;
  chat_name : option string;
  chat_isGroup : bool;
  chat_isArchived : option bool;
  chat_isPinned : option bool;
  chat_isMuted : option bool;
  chat_unreadCount : option Z;
  chat_lastMessage : option string;
  chat_metadata : option string;
  chat_updatedAt : option Z
}.

(** The argument of [upsertChat]; an optional field that is [None] is
    [undefined]. *)
Record ChatData : Type := mkChatData {
  cd_sessionId : string;
  cd_jid : string;
  cd_name : option string;
  cd_isGroup : bool;
  cd_isArchived : option bool;
  cd_isPinned : option bool;
  cd_isMuted : option bool;
  cd_unreadCount : option Z;
  cd_lastMessage : option string;
  cd_metadata : option string
}.

(** The table, by its unique key [sessionId_jid]. *)
Notation Chats := (gmap (string * string) Chat).

(** In [update], an [undefined] field leaves the column as it is. *)
Definition set_or_keep {A : Type} (new old : option A) : option A :=
  match new with Some v => Some v | None => old end.

(** [upsertChat]: [update] for a row that exists, which writes neither the
    key nor [isGroup], [create: data] otherwise. *)
Definition upsertChat (data : ChatData) (now : Z) (chats : Chats) : Chats :=
  match chats !! (cd_sessionId data, cd_jid data) with
  | Some row =>
      <[(cd_sessionId data, cd_jid data) :=
          mkChat (chat_sessionId row) (chat_jid row)
                 (set_or_keep (cd_name data) (chat_name row))
                 (chat_isGroup row)
                 (set_or_keep (cd_isArchived data) (chat_isArchived row))
                 (set_or_keep (cd_isPinned data) (chat_isPinned row))
                 (set_or_keep (cd_isMuted data) (chat_isMuted row))
                 (set_or_keep (cd_unreadCount data) (chat_unreadCount row))
                 (set_or_keep (cd_lastMessage data) (chat_lastMessage row))
                 (set_or_keep (cd_metadata data) (chat_metadata row))
                 (Some now)]> chats
  | None =>
      <[(cd_sessionId data, cd_jid data) :=
          mkChat (cd_sessionId data) (cd_jid data) (cd_name data)
                 (cd_isGroup data) (cd_isArchived data) (cd_isPinned data)
                 (cd_isMuted data) (cd_unreadCount data) (cd_lastMessage data)
                 (cd_metadata data) None]> chats
  end.

Section Queries.

(** The order [orderBy: { updatedAt: 'desc' }] puts rows in. *)
Variable by_updatedAt_desc : list Chat -> list Chat.

(** [getChats]: the rows of a session. *)
Definition getChats (sessionId : string) (chats : Chats) : list Chat :=
  by_updatedAt_desc
    (List.filter (fun c => String.eqb (chat_sessionId c) sessionId)
                 (map snd (map_to_list chats))).

(** The order [orderBy: { lastSeen: 'desc' }] puts rows in; where it puts
    rows that have the same [lastSeen], or none, is the store's choice. *)
Variable by_lastSeen_desc : list SessionRow -> list SessionRow.

(** [getUserSessions]: the active rows of a user. *)
Definition getUserSessions (userId : string) (d : Database) : list SessionRow :=
  by_lastSeen_desc
    (List.filter (fun r => String.eqb (row_userId r) userId && row_isActive r)
                 (map snd (map_to_list (sessions d)))).

End Queries.

End DatabaseService.

(** ** WebhookService *)

Module WebhookService.
Import DatabaseService.

(** What the network gives back to one POST. *)
Inductive PostResult : Type :=
| NoResponse (message : string)          (* transport failure or timeout *)
| Response (status : Z) (body : string).

Record AxiosResponse : Type := mkAxiosResponse {
  resp_status : Z;
  resp_data : string
}.

(** [axios.post] rejects when there is no response or when [validateStatus]
    refuses the status. *)
Definition axios_post (validateStatus : Z -> bool) (r : PostResult)
  : Exn + AxiosResponse :=
  match r with
  | NoResponse m => inl (AxiosError m)
  | Response st body =>
      if validateStatus st then inr (mkAxiosResponse st body)
      else inl (AxiosError ("Request failed with status code " +:+ pretty st))
  end.

(** One outbound request; [req_webhookId] is not sent, it records for
    which webhook the request was made. *)
Record HttpRequest : Type := mkRequest {
  req_webhookId : string;
  req_url : string;
  req_event : string;
  req_timestamp : Z;
  req_data : string;
  req_signature : option string           (* X-Webhook-Signature *)
}.

(** A pending [setTimeout] of [handleWebhookError]: its delay, the instant
    it is due and the arguments its callback passes to [deliverWebhook]. *)
Record RetryTimer : Type := mkTimer {
  timer_id : nat;
  timer_delay : Z;
  timer_due : Z;
  timer_webhookId : string;
  timer_url : string;
  timer_event : string;
  timer_payload : string;
  timer_secret : option string
}.

Record State : Type := mkState {
  db : Database;
  retryQueue : gmap string nat;           (* webhookId -> timer *)
  timers : list RetryTimer;               (* pending, in scheduling order *)
  next_timer : nat;
  requests : list HttpRequest;            (* every POST made, oldest first *)
  now : Z                                 (* Date.now(), in ms *)
}.

Definition with_db (d : Database) (s : State) : State :=
  mkState d (retryQueue s) (timers s) (next_timer s) (requests s) (now s).

Definition includes (x : string) (l : list string) : bool :=
  existsb (String.eqb x) l.

(** [Math.min(Math.pow(2, retryCount) * 1000, 5 * 60 * 1000)], for the
    non-negative counts the [retries] column holds. *)
Definition calculateRetryDelay (retryCount : Z) : Z :=
  Z.min (2 ^ retryCount * 1000) (5 * 60 * 1000).

Definition createSignature (payload secret : string) : string :=
  Crypto.createHmac_sha256_hex secret payload.
Global Arguments createSignature : simpl never.

(** The method is [async]: the value below is what its promise settles to. *)
Definition verifyWebhookSignature (payload signature secret : string)
  : Exn + bool :=
  let expectedSignature := createSignature payload secret in
  Crypto.timingSafeEqual (Crypto.Buffer_from signature)
                         (Crypto.Buffer_from expectedSignature).

Definition is_2xx (status : Z) : bool := (200 <=? status) && (status <? 300).

Definition updateDeliveryStatus (deliveryId : nat) (response : AxiosResponse)
    (s : State) : State :=
  let status := if is_2xx (resp_status response) then SUCCESS else FAILED in
  with_db
    (webhookDelivery_update deliveryId
       (fun r => mkDelivery (wd_id r) (wd_webhookId r) (wd_event r) (wd_payload r)
                   status (wd_attempts r + 1) (wd_nextRetry r)
                   (Some (HttpOutcome (resp_status response) (resp_data response))))
       (db s)) s.

(** [error?.message || fallback] *)
Definition message_or (fallback : string) (error : Exn) : string :=
  if String.eqb (exn_message error) "" then fallback else exn_message error.

Definition handleWebhookError (webhookId url event payload : string)
    (secret : option string) (error : Exn) (s : State) : State :=
  match webhook_findUnique webhookId (db s) with
  | None => s
  | Some webhook =>
      (* the row read above is the one tested below; the increment goes
         to the table *)
      let d1 :=
        webhook_update webhookId
          (fun w => mkWebhook (wh_id w) (wh_userId w) (wh_url w) (wh_events w)
                      (wh_secret w) (wh_isActive w) (wh_retries w + 1)
                      (wh_maxRetries w) (Some (message_or "Unknown error" error)))
          (db s) in
      if wh_retries webhook <? wh_maxRetries webhook then
        let retryDelay := calculateRetryDelay (wh_retries webhook) in
        let timeoutId := next_timer s in
        let timer :=
          mkTimer timeoutId retryDelay (now s + retryDelay)
                  webhookId url event payload secret in
        let d2 :=
          match webhookDelivery_findFirst
                  (fun r => String.eqb (wd_webhookId r) webhookId
                            && String.eqb (wd_event r) event
                            && DeliveryStatus_eqb (wd_status r) PENDING) d1 with
          | Some delivery =>
              webhookDelivery_update (wd_id delivery)
                (fun r => mkDelivery (wd_id r) (wd_webhookId r) (wd_event r)
                            (wd_payload r) RETRYING (wd_attempts r + 1)
                            (Some (now s + retryDelay)) (wd_response r)) d1
          | None => d1
          end in
        mkState d2 (<[webhookId := timeoutId]> (retryQueue s))
                (timers s ++ [timer]) (S (next_timer s)) (requests s) (now s)
      else
        let d2 :=
          match webhookDelivery_findFirst
                  (fun r => String.eqb (wd_webhookId r) webhookId
                            && String.eqb (wd_event r) event
                            && (DeliveryStatus_eqb (wd_status r) PENDING
                                || DeliveryStatus_eqb (wd_status r) RETRYING)) d1 with
          | Some delivery =>
              webhookDelivery_update (wd_id delivery)
                (fun r => mkDelivery (wd_id r) (wd_webhookId r) (wd_event r)
                            (wd_payload r) FAILED (wd_attempts r) (wd_nextRetry r)
                            (Some (ErrorOutcome (message_or "Max retries exceeded" error))))
                d1
          | None => d1
          end in
        with_db d2 s
  end.

Section Delivery.

(** The two collaborators of a delivery: the network, which answers the
    [n]-th request of the run, and [JSON.stringify] on the envelope
    [{event, timestamp, data}]. *)
Variable endpoint : nat -> HttpRequest -> PostResult.
Variable JSON_stringify : string -> Z -> string -> string.

(** The request a delivery sends: signed when the webhook has a secret. *)
Definition request_of (webhookId url event payload : string)
    (secret : option string) (s : State) : HttpRequest :=
  mkRequest webhookId url event (now s) payload
    (match secret with
     | Some k => if String.eqb k "" then None
                 else Some (createSignature (JSON_stringify event (now s) payload) k)
     | None => None
     end).

Definition deliverWebhook (webhookId url event payload : string)
    (secret : option string) (s : State) : State :=
  let '(delivery, d1) := webhookDelivery_create webhookId event payload PENDING (db s) in
  let s1 := with_db d1 s in
  let signature :=
    match secret with
    | Some k =>
        if String.eqb k "" then None
        else Some (createSignature (JSON_stringify event (now s) payload) k)
    | None => None
    end in
  let request := mkRequest webhookId url event (now s) payload signature in
  let s2 := mkState (db s1) (retryQueue s1) (timers s1) (next_timer s1)
                    (requests s1 ++ [request]) (now s1) in
  match axios_post (fun status => status <? 500)
                   (endpoint (length (requests s1)) request) with
  | inr response => updateDeliveryStatus (wd_id delivery) response s2
  | inl error => handleWebhookError webhookId url event payload secret error s2
  end.

Definition relevant (event : string) (webhook : Webhook) : bool :=
  includes event (wh_events webhook) || includes "*" (wh_events webhook).

Definition sendWebhook (sessionId event payload : string) (s : State) : State :=
  match getSession sessionId (db s) with
  | None => s
  | Some session =>
      let webhooks := getUserWebhooks (row_userId session) (db s) in
      let relevantWebhooks := List.filter (relevant event) webhooks in
      fold_left
        (fun s' webhook =>
           deliverWebhook (wh_id webhook) (wh_url webhook) event payload
                          (wh_secret webhook) s')
        relevantWebhooks s
  end.

(** The timer loop.  The pending timer that is due first fires (the one set
    first among equals) and the clock moves to its due time.  The callback
    calls [deliverWebhook] without awaiting it and then drops the webhook's
    entry of [retryQueue]; the part of [deliverWebhook] that runs before the
    entry is dropped does not touch [retryQueue], so the entry is dropped
    first here. *)
Fixpoint earliest (ts : list RetryTimer) : option RetryTimer :=
  match ts with
  | [] => None
  | t :: rest =>
      match earliest rest with
      | Some t' => if timer_due t' <? timer_due t then Some t' else Some t
      | None => Some t
      end
  end.

Definition fire (t : RetryTimer) (s : State) : State :=
  let s1 :=
    mkState (db s) (delete (timer_webhookId t) (retryQueue s))
            (List.filter (fun t' => negb (Nat.eqb (timer_id t') (timer_id t))) (timers s))
            (next_timer s) (requests s) (Z.max (now s) (timer_due t)) in
  deliverWebhook (timer_webhookId t) (timer_url t) (timer_event t)
                 (timer_payload t) (timer_secret t) s1.

Definition fire_next (s : State) : State :=
  match earliest (timers s) with
  | Some t => fire t s
  | None => s
  end.

(** The state after [k] further turns of the timer loop. *)
Fixpoint run_timers (k : nat) (s : State) : State :=
  match k with
  | O => s
  | S k' => fire_next (run_timers k' s)
  end.

End Delivery.

Section Maintenance.

Variable endpoint : nat -> HttpRequest -> PostResult.
Variable JSON_stringify : string -> Z -> string -> string.

(** The [data] of the synthetic event of [testWebhook], the object
    [{ message: 'This is a test webhook delivery', webhookId }], as the
    payload of a request. *)
Variable test_data : string -> string.

(** The order in which the store hands out the rows of a [findMany] that
    asks for none. *)
Variable store_order : list WebhookDelivery -> list WebhookDelivery.

(** The [createdAt] column of a delivery row, in ms. *)
Variable createdAt : WebhookDelivery -> Z.

(** [testWebhook].  The POST uses the [validateStatus] axios has when none
    is given, which accepts the 2xx statuses only; whatever is thrown inside
    is caught and answered with [false]. *)
Definition testWebhook (webhookId : string) (s : State) : State * bool :=
  match webhook_findUnique webhookId (db s) with
  | None => (s, false)                    (* 'Webhook not found', caught *)
  | Some webhook =>
      let data := test_data webhookId in
      let signature :=
        match wh_secret webhook with
        | Some k =>
            if String.eqb k "" then None
            else Some (createSignature (JSON_stringify "webhook.test" (now s) data) k)
        | None => None
        end in
      let request :=
        mkRequest webhookId (wh_url webhook) "webhook.test" (now s) data signature in
      let s1 := mkState (db s) (retryQueue s) (timers s) (next_timer s)
                        (requests s ++ [request]) (now s) in
      match axios_post is_2xx (endpoint (length (requests s)) request) with
      | inr response => (s1, is_2xx (resp_status response))
      | inl _ => (s1, false)
      end
  end.

(** [getWebhookDeliveries(webhookId, limit, offset)]: [take] and [skip] on
    the rows of the webhook, newest first. *)
Definition getWebhookDeliveries (webhookId : string) (limit offset : nat)
    (s : State) : list WebhookDelivery :=
  firstn limit
    (skipn offset
       (webhookDelivery_findMany
          (fun r => String.eqb (wd_webhookId r) webhookId) (db s))).

(** [retryFailedDeliveries].  The rows come with their webhook as it is
    when they are read ([include: { webhook: true }]): the test on [retries]
    inside the loop looks at that copy, not at the table.  Reading
    [delivery.webhook.retries] of a row without a webhook is a TypeError,
    which the method does not catch. *)
Definition retryFailedDeliveries (webhookId : string) (s : State)
  : State * (Exn + nat) :=
  let failedDeliveries :=
    store_order
      (webhookDelivery_findMany
         (fun r => String.eqb (wd_webhookId r) webhookId
                   && DeliveryStatus_eqb (wd_status r) FAILED) (db s)) in
  let webhook := webhook_findUnique webhookId (db s) in
  fold_left
    (fun acc delivery =>
       match acc with
       | (s', inl error) => (s', inl error)
       | (s', inr retriedCount) =>
           match webhook with
           | None =>
               (s', inl (JsTypeError
                           "Cannot read properties of null (reading 'retries')"))
           | Some w =>
               if wh_retries w <? wh_maxRetries w then
                 (deliverWebhook endpoint JSON_stringify webhookId (wh_url w)
                    (wd_event delivery) (wd_payload delivery) (wh_secret w) s',
                  inr (S retriedCount))
               else (s', inr retriedCount)
           end
       end)
    failedDeliveries (s, inr 0%nat).

(** [cleanup]: [clearTimeout] on every timer [retryQueue] holds, the queue
    emptied, and the delivery rows created more than thirty days ago
    deleted. *)
Definition cleanup (s : State) : State :=
  let held := map snd (map_to_list (retryQueue s)) in
  let thirtyDaysAgo := now s - 30 * 24 * 60 * 60 * 1000 in
  mkState
    (webhookDelivery_deleteMany (fun r => createdAt r <? thirtyDaysAgo) (db s))
    ∅
    (List.filter (fun t => negb (existsb (Nat.eqb (timer_id t)) held)) (timers s))
    (next_timer s) (requests s) (now s).

(** What can happen to the service, and a run of such events.  [DeleteWebhook]
    is the owner's delete, which goes to [DatabaseService.deleteWebhook]. *)
Inductive Op : Type :=
| SendWebhook (sessionId event payload : string)
| TimerFires
| TestWebhook (webhookId : string)
| RetryFailedDeliveries (webhookId : string)
| Cleanup
| DeleteWebhook (webhookId : string).

Definition apply (s : State) (o : Op) : State :=
  match o with
  | SendWebhook sessionId event payload =>
      sendWebhook endpoint JSON_stringify sessionId event payload s
  | TimerFires => fire_next endpoint JSON_stringify s
  | TestWebhook webhookId => fst (testWebhook webhookId s)
  | RetryFailedDeliveries webhookId => fst (retryFailedDeliveries webhookId s)
  | Cleanup => cleanup s
  | DeleteWebhook webhookId =>
      match deleteWebhook webhookId (db s) with
      | inr d => with_db d s
      | inl _ => s
      end
  end.

Definition run_ops (ops : list Op) (s : State) : State := fold_left apply ops s.

End Maintenance.

End WebhookService.

(** ** WhatsAppService *)

Module WhatsAppService.

(** [socket.user], the identity of the logged-in account. *)
Record Contact : Type := mkContact {
  user_id : string;
  user_name : option string
}.

(** The live session object.  [ws_socket] names the protocol socket the
    session holds, by the rank of its creation. *)
Record WhatsAppSession : Type := mkSession {
  ws_id : string;
  ws_socket : option nat;
  ws_status : SessionStatus;
  ws_qrCode : option string;
  ws_pairingCode : option string;
  ws_phoneNumber : option string;
  ws_name : option string;
  ws_lastSeen : option Z
}.

(** The payload of an [io.emit('sessionUpdate', ...)]. *)
Record SessionUpdate : Type := mkSessionUpdate {
  upd_sessionId : string;
  upd_status : SessionStatus;
  upd_qrCode : option string;
  upd_pairingCode : option string;
  upd_phoneNumber : option string;
  upd_name : option string;
  upd_lastSeen : option Z
}.

Inductive Connection : Type := conn_open | conn_close | conn_connecting.

(** [Partial<ConnectionState>]; [lastDisconnect] is the status code found
    at [lastDisconnect?.error?.output?.statusCode]. *)
Record ConnectionState : Type := mkUpdate {
  connection : option Connection;
  lastDisconnect : option Z;
  qr : option string
}.

(** What the protocol library does when a connection is initialised:
    loading the auth state, fetching the version or making the socket
    throws, or a socket is made, whose credentials are registered or not. *)
Inductive InitOutcome : Type :=
| InitThrows (e : Exn)
| InitSocket (registered : bool).

Record Service : Type := mkService {
  sessions : gmap string WhatsAppSession;      (* this.sessions *)
  db : DatabaseService.Database;
  reconnects : list string;       (* pending reconnect timers, by sessionId *)
  emitted : list SessionUpdate;   (* 'sessionUpdate' events, oldest first *)
  history : list (string * SessionStatus);
                                  (* every assignment to session.status *)
  sockets_opened : nat;           (* calls of makeWASocket so far *)
  sockets_ended : list nat;       (* sockets on which end() was called *)
  now : Z
}.

Definition empty_db : DatabaseService.Database :=
  DatabaseService.mkDatabase ∅ [] [] 0.

Definition initial : Service := mkService ∅ empty_db [] [] [] 0 [] 0.

Definition with_sessions (m : gmap string WhatsAppSession) (sv : Service) : Service :=
  mkService m (db sv) (reconnects sv) (emitted sv) (history sv)
            (sockets_opened sv) (sockets_ended sv) (now sv).

Definition with_db (d : DatabaseService.Database) (sv : Service) : Service :=
  mkService (sessions sv) d (reconnects sv) (emitted sv) (history sv)
            (sockets_opened sv) (sockets_ended sv) (now sv).

Definition with_reconnects (l : list string) (sv : Service) : Service :=
  mkService (sessions sv) (db sv) l (emitted sv) (history sv)
            (sockets_opened sv) (sockets_ended sv) (now sv).

(** [session.status = status] on the live object of [sessionId]. *)
Definition set_status (sessionId : string) (status : SessionStatus)
    (sv : Service) : Service :=
  mkService
    (alter (fun s => mkSession (ws_id s) (ws_socket s) status (ws_qrCode s)
                       (ws_pairingCode s) (ws_phoneNumber s) (ws_name s)
                       (ws_lastSeen s)) sessionId (sessions sv))
    (db sv) (reconnects sv) (emitted sv) (history sv ++ [(sessionId, status)])
    (sockets_opened sv) (sockets_ended sv) (now sv).

(** Any other assignment to fields of the live object. *)
Definition modify (sessionId : string) (f : WhatsAppSession -> WhatsAppSession)
    (sv : Service) : Service :=
  with_sessions (alter f sessionId (sessions sv)) sv.

(** [updateSessionInDatabase]: a failure of the update is logged, not thrown. *)
Definition updateSessionInDatabase (sessionId : string)
    (data : DatabaseService.SessionRow -> DatabaseService.SessionRow)
    (sv : Service) : Service :=
  match DatabaseService.updateSession sessionId data (db sv) with
  | inr d => with_db d sv
  | inl _ => sv
  end.

Definition emitSessionUpdate (sessionId : string) (sv : Service) : Service :=
  match sessions sv !! sessionId with
  | Some session =>
      mkService (sessions sv) (db sv) (reconnects sv)
        (emitted sv ++
           [mkSessionUpdate sessionId (ws_status session) (ws_qrCode session)
              (ws_pairingCode session) (ws_phoneNumber session) (ws_name session)
              (ws_lastSeen session)])
        (history sv) (sockets_opened sv) (sockets_ended sv) (now sv)
  | None => sv
  end.

(** The [data] arguments of the updates of the durable row. *)
Definition row_set_status (status : SessionStatus) (r : DatabaseService.SessionRow)
  : DatabaseService.SessionRow :=
  DatabaseService.mkSessionRow
    (DatabaseService.row_sessionId r) (DatabaseService.row_userId r) (Some status)
    (DatabaseService.row_qrCode r) (DatabaseService.row_pairingCode r)
    (DatabaseService.row_phoneNumber r) (DatabaseService.row_name r)
    (DatabaseService.row_lastSeen r) (DatabaseService.row_isActive r).

Definition row_set_qr (qrCode : string) (r : DatabaseService.SessionRow)
  : DatabaseService.SessionRow :=
  DatabaseService.mkSessionRow
    (DatabaseService.row_sessionId r) (DatabaseService.row_userId r)
    (Some QR_REQUIRED) (Some qrCode) (DatabaseService.row_pairingCode r)
    (DatabaseService.row_phoneNumber r) (DatabaseService.row_name r)
    (DatabaseService.row_lastSeen r) (DatabaseService.row_isActive r).

(** An [undefined] field of [data] leaves the column as it is. *)
Definition or_keep {A : Type} (new old : option A) : option A :=
  match new with Some v => Some v | None => old end.

Definition row_set_connected (phoneNumber name : option string) (lastSeen : Z)
    (r : DatabaseService.SessionRow) : DatabaseService.SessionRow :=
  DatabaseService.mkSessionRow
    (DatabaseService.row_sessionId r) (DatabaseService.row_userId r)
    (Some CONNECTED) None (DatabaseService.row_pairingCode r)
    (or_keep phoneNumber (DatabaseService.row_phoneNumber r))
    (or_keep name (DatabaseService.row_name r))
    (Some lastSeen) (DatabaseService.row_isActive r).

Definition row_set_pairing (code phoneNumber : string)
    (r : DatabaseService.SessionRow) : DatabaseService.SessionRow :=
  DatabaseService.mkSessionRow
    (DatabaseService.row_sessionId r) (DatabaseService.row_userId r)
    (DatabaseService.row_status r) (DatabaseService.row_qrCode r) (Some code)
    (Some phoneNumber) (DatabaseService.row_name r)
    (DatabaseService.row_lastSeen r) (DatabaseService.row_isActive r).

(** [id.split(':')[0]] *)
Fixpoint before_colon (s : string) : string :=
  match s with
  | EmptyString => EmptyString
  | String c rest =>
      if Ascii.eqb c ":"%char then EmptyString else String c (before_colon rest)
  end.

(** [initializeWhatsAppConnection].  The [try] body first; the [catch]
    marks a session that is still registered as ERROR and throws again. *)
Definition initialize_body (sessionId : string) (usePairingCode : bool)
    (init : InitOutcome) (sv : Service) : Service * (Exn + unit) :=
  match init with
  | InitThrows e => (sv, inl e)
  | InitSocket registered =>
      let socket := sockets_opened sv in
      let sv1 :=
        mkService (sessions sv) (db sv) (reconnects sv) (emitted sv) (history sv)
                  (S (sockets_opened sv)) (sockets_ended sv) (now sv) in
      match sessions sv1 !! sessionId with
      | None =>
          (* [this.sessions.get(sessionId)!] is undefined *)
          (sv1, inl (JsTypeError "Cannot set properties of undefined (setting 'socket')"))
      | Some _ =>
          let sv2 :=
            modify sessionId
              (fun s => mkSession (ws_id s) (Some socket) (ws_status s) (ws_qrCode s)
                          (ws_pairingCode s) (ws_phoneNumber s) (ws_name s)
                          (ws_lastSeen s)) sv1 in
          if usePairingCode && negb registered then
            (emitSessionUpdate sessionId
               (updateSessionInDatabase sessionId (row_set_status PAIRING_REQUIRED)
                  (set_status sessionId PAIRING_REQUIRED sv2)), inr tt)
          else (sv2, inr tt)
      end
  end.

Definition initializeWhatsAppConnection (sessionId : string)
    (usePairingCode : bool) (init : InitOutcome) (sv : Service)
  : Service * (Exn + unit) :=
  match initialize_body sessionId usePairingCode init sv with
  | (sv', inr tt) => (sv', inr tt)
  | (sv', inl error) =>
      match sessions sv' !! sessionId with
      | Some _ =>
          (emitSessionUpdate sessionId
             (updateSessionInDatabase sessionId (row_set_status ERROR)
                (set_status sessionId ERROR sv')), inl error)
      | None => (sv', inl error)
      end
  end.

(** [createSession].  The object returned is the one held by the registry,
    so the caller sees it as initialisation left it. *)
Definition createSession (sessionId userId : string) (usePairingCode : bool)
    (init : InitOutcome) (sv : Service) : Service * (Exn + WhatsAppSession) :=
  match sessions sv !! sessionId with
  | Some _ => (sv, inl (JsError "Session already exists"))
  | None =>
      match DatabaseService.createSession sessionId userId (db sv) with
      | inl error => (sv, inl error)
      | inr d =>
          let session :=
            mkSession sessionId None CONNECTING None None None None (Some (now sv)) in
          let sv1 :=
            mkService (<[sessionId := session]> (sessions sv)) d (reconnects sv)
                      (emitted sv) (history sv ++ [(sessionId, CONNECTING)])
                      (sockets_opened sv) (sockets_ended sv) (now sv) in
          match initializeWhatsAppConnection sessionId usePairingCode init sv1 with
          | (sv2, inl error) => (sv2, inl error)
          | (sv2, inr tt) =>
              (sv2, inr (default session (sessions sv2 !! sessionId)))
          end
      end
  end.

Section Connection.

(** [DisconnectReason.loggedOut], a constant of the protocol library, and
    [QRCode.toDataURL], which renders a QR payload as an image URL. *)
Variable loggedOut : Z.
Variable QRCode_toDataURL : string -> Exn + string.

Definition shouldReconnect (update : ConnectionState) : bool :=
  match lastDisconnect update with
  | Some statusCode => negb (statusCode =? loggedOut)
  | None => true
  end.

(** [handleConnectionUpdate]; [socket_user] is what [socket.user] holds on
    the session's socket when the handler runs.  The handler is taken as
    one step: no other method of the service runs while it waits for the
    QR encoder or for the store. *)
Definition handleConnectionUpdate (sessionId : string) (update : ConnectionState)
    (socket_user : option Contact) (sv : Service) : Service :=
  match sessions sv !! sessionId with
  | None => sv
  | Some _ =>
      let sv1 :=
        match qr update with
        | Some q =>
            if String.eqb q "" then sv
            else
              match QRCode_toDataURL q with
              | inr qrCodeDataURL =>
                  emitSessionUpdate sessionId
                    (updateSessionInDatabase sessionId (row_set_qr qrCodeDataURL)
                       (set_status sessionId QR_REQUIRED
                          (modify sessionId
                             (fun s => mkSession (ws_id s) (ws_socket s) (ws_status s)
                                         (Some qrCodeDataURL) (ws_pairingCode s)
                                         (ws_phoneNumber s) (ws_name s) (ws_lastSeen s))
                             sv)))
              | inl _ => sv
              end
        | None => sv
        end in
      match connection update with
      | Some conn_close =>
          if shouldReconnect update then
            let sv2 :=
              emitSessionUpdate sessionId
                (updateSessionInDatabase sessionId (row_set_status CONNECTING)
                   (set_status sessionId CONNECTING sv1)) in
            (* setTimeout(() => initializeWhatsAppConnection(sessionId), 5000) *)
            with_reconnects (reconnects sv2 ++ [sessionId]) sv2
          else
            emitSessionUpdate sessionId
              (updateSessionInDatabase sessionId (row_set_status DISCONNECTED)
                 (set_status sessionId DISCONNECTED sv1))
      | Some conn_open =>
          let sv2 :=
            modify sessionId
              (fun s =>
                 let user := match ws_socket s with
                             | Some _ => socket_user
                             | None => None
                             end in
                 mkSession (ws_id s) (ws_socket s) (ws_status s) None None
                   (match user with
                    | Some u => Some (before_colon (user_id u))
                    | None => ws_phoneNumber s
                    end)
                   (match user with
                    | Some u => user_name u
                    | None => ws_name s
                    end)
                   (Some (now sv1)))
              (set_status sessionId CONNECTED sv1) in
          let phoneNumber := sessions sv2 !! sessionId ≫= ws_phoneNumber in
          let name := sessions sv2 !! sessionId ≫= ws_name in
          emitSessionUpdate sessionId
            (updateSessionInDatabase sessionId
               (row_set_connected phoneNumber name (now sv1)) sv2)
      | _ => sv1
      end
  end.

(** A pending reconnect timer fires: the [n]-th of the list.  Its callback
    calls [initializeWhatsAppConnection(sessionId)] and drops the promise.
    This is the service as the call leaves it; what becomes of the dropped
    promise is [reconnect_timer_fires] below. *)
Definition fire_reconnect (n : nat) (init : InitOutcome) (sv : Service) : Service :=
  match reconnects sv !! n with
  | None => sv
  | Some sessionId =>
      fst (initializeWhatsAppConnection sessionId false init
             (with_reconnects (delete n (reconnects sv)) sv))
  end.

(** The process after the callback of a reconnect timer.  The callback
    neither awaits nor catches the promise of
    [initializeWhatsAppConnection]: when that promise rejects, the rejection
    is unhandled.  The application installs no handler for
    [unhandledRejection], and Node 20, the version its Dockerfile names,
    then ends the process: [Ended] holds the service as it was and the
    error. *)
Inductive Process : Type :=
| Running (sv : Service)
| Ended (sv : Service) (unhandled : Exn).

Definition reconnect_timer_fires (n : nat) (init : InitOutcome) (sv : Service)
  : Process :=
  match reconnects sv !! n with
  | None => Running sv
  | Some sessionId =>
      match initializeWhatsAppConnection sessionId false init
              (with_reconnects (delete n (reconnects sv)) sv) with
      | (sv', inr _) => Running sv'
      | (sv', inl error) => Ended sv' error
      end
  end.

(** [deleteSession]: ends the socket if there is one, drops the live entry,
    soft-deletes the durable row (which throws when there is no row). *)
Definition deleteSession (sessionId : string) (sv : Service)
  : Service * (Exn + unit) :=
  let ended :=
    match sessions sv !! sessionId ≫= ws_socket with
    | Some socket => sockets_ended sv ++ [socket]
    | None => sockets_ended sv
    end in
  let sv1 :=
    mkService (delete sessionId (sessions sv)) (db sv) (reconnects sv) (emitted sv)
              (history sv) (sockets_opened sv) ended (now sv) in
  match DatabaseService.deleteSession sessionId (db sv1) with
  | inr d => (with_db d sv1, inr tt)
  | inl error => (sv1, inl error)
  end.

(** [requestPairingCode]; [answer] is what the socket answers to
    [socket.requestPairingCode(phoneNumber)]. *)
Definition requestPairingCode (sessionId phoneNumber : string)
    (answer : Exn + string) (sv : Service) : Service * (Exn + string) :=
  match sessions sv !! sessionId ≫= ws_socket with
  | None => (sv, inl (JsError "Session not found or not initialized"))
  | Some _ =>
      match answer with
      | inl error => (sv, inl error)
      | inr code =>
          (emitSessionUpdate sessionId
             (updateSessionInDatabase sessionId (row_set_pairing code phoneNumber)
                (modify sessionId
                   (fun s => mkSession (ws_id s) (ws_socket s) (ws_status s)
                               (ws_qrCode s) (Some code) (Some phoneNumber)
                               (ws_name s) (ws_lastSeen s)) sv)),
           inr code)
      end
  end.

(** Everything that can happen to the service, and a run of such events. *)
Inductive Action : Type :=
| Create (sessionId userId : string) (usePairingCode : bool) (init : InitOutcome)
| ConnectionUpdate (sessionId : string) (update : ConnectionState)
                   (socket_user : option Contact)
| ReconnectFires (n : nat) (init : InitOutcome)
| Delete (sessionId : string)
| RequestPairingCode (sessionId phoneNumber : string) (answer : Exn + string).

Definition step (sv : Service) (a : Action) : Service :=
  match a with
  | Create sessionId userId usePairingCode init =>
      fst (createSession sessionId userId usePairingCode init sv)
  | ConnectionUpdate sessionId update socket_user =>
      handleConnectionUpdate sessionId update socket_user sv
  | ReconnectFires n init => fire_reconnect n init sv
  | Delete sessionId => fst (deleteSession sessionId sv)
  | RequestPairingCode sessionId phoneNumber answer =>
      fst (requestPairingCode sessionId phoneNumber answer sv)
  end.

Definition run (acts : list Action) (sv : Service) : Service :=
  fold_left step acts sv.

End Connection.

(** The statuses a session took, in order. *)
Definition statuses (sessionId : string) (sv : Service) : list SessionStatus :=
  map snd (List.filter (fun p => String.eqb (fst p) sessionId) (history sv)).

(** ** The handler of [POST /api/sessions], after validation *)

Inductive Reply : Type :=
| Json (status : Z) (success : bool) (error : option string)
| Thrown (e : Exn).                     (* handed to the error middleware *)

Definition POST_sessions (sessionId userId : string) (usePairingCode : bool)
    (init : InitOutcome) (sv : Service) : Service * Reply :=
  match DatabaseService.getSession sessionId (db sv) with
  | Some _ => (sv, Json 400 false (Some "Session already exists"))
  | None =>
      match createSession sessionId userId usePairingCode init sv with
      | (sv', inr _) => (sv', Json 201 true None)
      | (sv', inl error) => (sv', Thrown error)
      end
  end.

(** ** The other public methods of the service *)

(** A promise, fulfilled with [v]: what an [async] method hands back. *)
Inductive Promise (A : Type) : Type := fulfilled (v : A).
Arguments fulfilled {A} v.

(** [await p] *)
Definition await {A : Type} (p : Promise A) : A :=
  match p with fulfilled v => v end.

(** [p?.field] on the promise itself, not awaited: a promise object has
    none of the fields of the value it is fulfilled with, so the access
    gives [undefined]. *)
Definition field_of_promise {A B : Type} (p : Promise A) (field : A -> option B)
  : option B := None.

(** [async getSession(sessionId)] *)
Definition getSession (sessionId : string) (sv : Service)
  : Promise (option WhatsAppSession) :=
  fulfilled (sessions sv !! sessionId).

(** [sendMessage]; [socket_sendMessage] is what the socket of the session
    does with a message. *)
Definition sendMessage (socket_sendMessage : string -> string -> Exn + string)
    (sessionId to content : string) (sv : Service) : Exn + string :=
  match sessions sv !! sessionId with
  | None => inl (JsError "Session not found or not connected")
  | Some session =>
      match ws_socket session with
      | None => inl (JsError "Session not found or not connected")
      | Some _ =>
          if SessionStatus_eqb (ws_status session) CONNECTED
          then socket_sendMessage to content
          else inl (JsError "Session not connected")
      end
  end.

(** [shutdown]: [end()] on every socket a session holds, the registry
    cleared.  The sockets are ended in the order the registry iterates
    in, which the model does not keep: [sockets_ended] gets them in the
    order of the map's listing. *)
Definition shutdown (sv : Service) : Service :=
  mkService ∅ (db sv) (reconnects sv) (emitted sv) (history sv) (sockets_opened sv)
    (sockets_ended sv ++ omap ws_socket (map snd (map_to_list (sessions sv))))
    (now sv).

(** ** The other handlers of [/api/sessions] *)

(** What a handler answers: [res.status(status).json(...)] with
    [success: true] and some data, or with [success: false] and an error
    message, or an exception handed to the error middleware. *)
Inductive Answer (A : Type) : Type :=
| Sent (status : Z) (data : A)
| Refused (status : Z) (error : string)
| Passed (e : Exn).
Arguments Sent {A} status data.
Arguments Refused {A} status error.
Arguments Passed {A} e.

(** [sessionMiddleware]: the session must have a row, and the row must be
    the caller's; [sessionId] is the path parameter, which is never empty. *)
Definition sessionMiddleware {A : Type} (sessionId userId : string) (sv : Service)
    (next : Service * Answer A) : Service * Answer A :=
  match DatabaseService.sessions (db sv) !! sessionId with
  | Some r =>
      if String.eqb (DatabaseService.row_userId r) userId then next
      else (sv, Refused 404 "Session not found or access denied.")
  | None => (sv, Refused 404 "Session not found or access denied.")
  end.

(** A row of the store with what the registry knows of the session. *)
Record SessionView : Type := mkView {
  view_row : DatabaseService.SessionRow;
  view_liveStatus : SessionStatus;
  view_qrCode : option string;
  view_pairingCode : option string
}.

Section Listing.

Variable by_lastSeen_desc
  : list DatabaseService.SessionRow -> list DatabaseService.SessionRow.

(** [GET /api/sessions].  The handler calls [whatsAppService.getSession]
    and does not await it: [liveSession] is the promise. *)
Definition GET_sessions (userId : string) (sv : Service) : Answer (list SessionView) :=
  let sessions := DatabaseService.getUserSessions by_lastSeen_desc userId (db sv) in
  Sent 200
    (map (fun session =>
            let liveSession := getSession (DatabaseService.row_sessionId session) sv in
            mkView session
              (default DISCONNECTED
                 (field_of_promise liveSession (fun s => ws_status <$> s)))
              (field_of_promise liveSession (fun s => s ≫= ws_qrCode))
              (field_of_promise liveSession (fun s => s ≫= ws_pairingCode)))
         sessions).

End Listing.

(** [GET /api/sessions/:sessionId] *)
Definition GET_session (sessionId : string) (sv : Service) : Answer SessionView :=
  let dbSession := DatabaseService.getSession sessionId (db sv) in
  let liveSession := await (getSession sessionId sv) in
  match dbSession with
  | None => Refused 404 "Session not found"
  | Some row =>
      Sent 200
        (mkView row (default DISCONNECTED (ws_status <$> liveSession))
                (liveSession ≫= ws_qrCode) (liveSession ≫= ws_pairingCode))
  end.

(** [DELETE /api/sessions/:sessionId] *)
Definition DELETE_session (sessionId : string) (sv : Service)
  : Service * Answer unit :=
  match deleteSession sessionId sv with
  | (sv', inr tt) => (sv', Sent 200 tt)
  | (sv', inl error) => (sv', Passed error)
  end.

(** [GET /api/sessions/:sessionId/qr]: the data are the QR code and the
    status. *)
Definition GET_qr (sessionId : string) (sv : Service)
  : Answer (string * SessionStatus) :=
  match await (getSession sessionId sv) with
  | Some session =>
      match ws_qrCode session with
      | Some qrCode =>
          if String.eqb qrCode "" then Refused 404 "QR code not available"
          else Sent 200 (qrCode, ws_status session)
      | None => Refused 404 "QR code not available"
      end
  | None => Refused 404 "QR code not available"
  end.

(** [POST /api/sessions/:sessionId/pairing-code]: the data are the code,
    the phone number and the session id. *)
Definition POST_pairing_code (sessionId phoneNumber : string)
    (answer : Exn + string) (sv : Service)
  : Service * Answer (string * string * string) :=
  match requestPairingCode sessionId phoneNumber answer sv with
  | (sv', inr pairingCode) => (sv', Sent 200 (pairingCode, phoneNumber, sessionId))
  | (sv', inl error) => (sv', Refused 400 (exn_message error))
  end.


End WhatsAppService.

(** ** The rate limiter of the middleware *)

Module AuthMiddleware.

(** The map [requests] in the closure of [createRateLimit]: for a user (or
    an address) the instants of its requests that were let through. *)
Notation Requests := (gmap string (list Z)).

(** One call of the middleware that [createRateLimit(windowMs, max)] makes,
    for the key [req.user?.id || req.ip] at the instant [Date.now()]:
    [true] is [next()], [false] is the answer 429. *)
Definition rateLimit (windowMs max : Z) (key : string) (now : Z)
    (requests : Requests) : Requests * bool :=
  let windowStart := now - windowMs in
  let userRequests := default [] (requests !! key) in
  let validRequests := List.filter (fun time => windowStart <? time) userRequests in
  if max <=? Z.of_nat (length validRequests) then (requests, false)
  else (<[key := validRequests ++ [now]]> requests, true).

(** A series of calls, oldest first, each a key and an instant: the map
    after them and the calls that were let through. *)
Fixpoint serve (windowMs max : Z) (calls : list (string * Z)) (requests : Requests)
  : Requests * list (string * Z) :=
  match calls with
  | [] => (requests, [])
  | (key, now) :: rest =>
      let served := serve windowMs max rest
                          (fst (rateLimit windowMs max key now requests)) in
      (fst served,
       if snd (rateLimit windowMs max key now requests)
       then (key, now) :: snd served else snd served)
  end.

End AuthMiddleware.

(** ** The error middleware *)

Module ErrorHandler.

(** [s.includes(sub)] *)
Fixpoint includes (sub s : string) : bool :=
  String.prefix sub s
  || match s with
     | EmptyString => false
     | String _ rest => includes sub rest
     end.

(** The [code] of an error: a text, or a number as drivers give. *)
Inductive ErrorCode : Type :=
| CodeText (s : string)
| CodeNumber (n : Z).

(** [code || fallback] *)
Definition code_or (fallback : string) (code : option ErrorCode) : ErrorCode :=
  match code with
  | Some (CodeText s) => if String.eqb s "" then CodeText fallback else CodeText s
  | Some (CodeNumber n) => if n =? 0 then CodeText fallback else CodeNumber n
  | None => CodeText fallback
  end.

(** An entry of [error.errors], and what the handler makes of it. *)
Record FieldError : Type := mkFieldError {
  fe_path : string;
  fe_message : string;
  fe_value : string
}.

(** The [data] of a Boom error: its [code], if it has one, and the rest. *)
Record BoomData : Type := mkBoomData {
  data_code : option ErrorCode;
  data_rest : string
}.

(** What goes into [details]; [Other] is a value the handlers only pass
    on. *)
Inductive Details : Type :=
| Other (value : string)
| Data (data : BoomData)                       (* error.data *)
| Fields (fields : list FieldError)            (* the mapped error.errors *)
| WrappedBoom (data : option BoomData)         (* { boom: error.data } *)
| OriginalError (message : string).            (* { originalError: message } *)

(** An error as the handlers look at it.  [err_boom] is there for an
    instance of Boom, with [output.statusCode] and [data]; [err_statusCode]
    is the property [statusCode], when the object has one. *)
Record ErrorObject : Type := mkError {
  err_boom : option (Z * option BoomData);
  err_statusCode : option Z;
  err_name : string;
  err_message : string;
  err_code : option ErrorCode;
  err_details : option Details;
  err_errors : option (list FieldError);
  err_keyValue : option string;
  err_stack : option string
}.

(** The JSON body of the answer, with its status. *)
Record ErrorResponse : Type := mkResponse {
  res_status : Z;
  res_error : string;
  res_code : ErrorCode;
  res_details : option Details;
  res_stack : option string
}.

(** [createApiError(message, statusCode, code, details)]: a plain [Error]
    with the three properties set; [stack] is the trace that [new Error]
    records. *)
Definition createApiError (stack : string) (message : string) (statusCode : Z)
    (code : option string) (details : option Details) : ErrorObject :=
  mkError None (Some statusCode) "Error" message (CodeText <$> code) details
          None None (Some stack).

Definition getMulterErrorMessage (error : ErrorObject) : string :=
  match err_code error with
  | Some (CodeText "LIMIT_FILE_SIZE") => "File too large"
  | Some (CodeText "LIMIT_FILE_COUNT") => "Too many files"
  | Some (CodeText "LIMIT_FIELD_KEY") => "Field name too long"
  | Some (CodeText "LIMIT_FIELD_VALUE") => "Field value too long"
  | Some (CodeText "LIMIT_FIELD_COUNT") => "Too many fields"
  | Some (CodeText "LIMIT_UNEXPECTED_FILE") => "Unexpected file field"
  | Some (CodeText "MISSING_FIELD_NAME") => "Missing field name"
  | _ => "File upload error"
  end.

Definition is_code_11000 (code : option ErrorCode) : bool :=
  match code with
  | Some (CodeNumber n) => n =? 11000
  | _ => false
  end.

(** [errorHandler], with [NODE_ENV] as [node_env].  [Object.values] of an
    [errors] that is not there is a TypeError. *)
Definition errorHandler (node_env : string) (error : ErrorObject)
  : Exn + ErrorResponse :=
  let classified : Exn + (Z * string * ErrorCode * option Details) :=
    match err_boom error with
    | Some (statusCode, data) =>
        inr (statusCode, err_message error,
             code_or "BOOM_ERROR" (data ≫= data_code), Data <$> data)
    | None =>
        if match err_statusCode error with
           | Some statusCode => negb (statusCode =? 0)
           | None => false
           end
        then inr (default 0 (err_statusCode error), err_message error,
                  code_or "API_ERROR" (err_code error), err_details error)
        else if String.eqb (err_name error) "ValidationError" then
          match err_errors error with
          | Some errors =>
              inr (400, "Validation Error", CodeText "VALIDATION_ERROR",
                   Some (Fields errors))
          | None =>
              inl (JsTypeError "Cannot convert undefined or null to object")
          end
        else if String.eqb (err_name error) "CastError" then
          inr (400, "Invalid ID format", CodeText "INVALID_ID", None)
        else if String.eqb (err_name error) "MongoError"
                && is_code_11000 (err_code error) then
          inr (409, "Duplicate entry", CodeText "DUPLICATE_ENTRY",
               Other <$> err_keyValue error)
        else if String.eqb (err_name error) "JsonWebTokenError" then
          inr (401, "Invalid token", CodeText "INVALID_TOKEN", None)
        else if String.eqb (err_name error) "TokenExpiredError" then
          inr (401, "Token expired", CodeText "TOKEN_EXPIRED", None)
        else if String.eqb (err_name error) "MulterError" then
          inr (400, getMulterErrorMessage error, CodeText "FILE_UPLOAD_ERROR", None)
        else if includes "ENOENT" (err_message error) then
          inr (404, "File not found", CodeText "FILE_NOT_FOUND", None)
        else if includes "EACCES" (err_message error) then
          inr (403, "Permission denied", CodeText "PERMISSION_DENIED", None)
        else if includes "EMFILE" (err_message error)
                || includes "ENFILE" (err_message error) then
          inr (503, "Too many open files", CodeText "TOO_MANY_FILES", None)
        else if includes "ECONNREFUSED" (err_message error) then
          inr (503, "Service unavailable", CodeText "SERVICE_UNAVAILABLE", None)
        else if includes "timeout" (err_message error) then
          inr (408, "Request timeout", CodeText "TIMEOUT", None)
        else inr (500, "Internal Server Error", CodeText "INTERNAL_ERROR", None)
    end in
  match classified with
  | inl e => inl e
  | inr (statusCode, message, code, details) =>
      let masked := String.eqb node_env "production" && (statusCode =? 500) in
      inr (mkResponse statusCode
             (if masked then "Internal Server Error" else message)
             code
             (if masked then None else details)
             (if String.eqb node_env "development" then err_stack error else None))
  end.

(** [handleWhatsAppError]: an error of the protocol library as an
    [ApiError]. *)
Definition handleWhatsAppError (stack : string) (error : ErrorObject)
  : ErrorObject :=
  match err_boom error with
  | Some (statusCode, data) =>
      createApiError stack (err_message error) statusCode
                     (Some "WHATSAPP_ERROR") (Some (WrappedBoom data))
  | None =>
      if includes "not-authorized" (err_message error) then
        createApiError stack "WhatsApp session not authorized" 401
                       (Some "SESSION_NOT_AUTHORIZED") None
      else if includes "connection" (err_message error) then
        createApiError stack "WhatsApp connection error" 503
                       (Some "CONNECTION_ERROR") None
      else if includes "rate-limit" (err_message error) then
        createApiError stack "WhatsApp rate limit exceeded" 429
                       (Some "RATE_LIMIT_EXCEEDED") None
      else
        createApiError stack
          (if String.eqb (err_message error) "" then "WhatsApp operation failed"
           else err_message error)
          500 (Some "WHATSAPP_ERROR")
          (Some (OriginalError (err_message error)))
  end.

End ErrorHandler.

(** ** The handlers of [/api/chats] *)

Module ChatRoutes.
Import WhatsAppService.

(** [s.endsWith(suffix)] *)
Definition endsWith (s suffix : string) : bool :=
  (String.length suffix <=? String.length s)%nat
  && String.eqb (substring (String.length s - String.length suffix)
                           (String.length suffix) s)
                suffix.

(** What a handler asks of the socket with [chatModify]. *)
Inductive Modification : Type :=
| Archive (value : bool)
| Pin (value : bool)
| Delete
| MarkRead.

(** The row a handler writes after the socket has done its part; the
    handler of [delete] writes none. *)
Definition chat_data (m : Modification) (sessionId chatId : string)
  : option DatabaseService.ChatData :=
  let data isArchived isPinned unreadCount :=
    DatabaseService.mkChatData sessionId chatId None (endsWith chatId "@g.us")
      isArchived isPinned None unreadCount None None in
  match m with
  | Archive value => Some (data (Some value) None None)
  | Pin value => Some (data None (Some value) None)
  | Delete => None
  | MarkRead => Some (data None None (Some 0))
  end.

Definition done_message (m : Modification) : string :=
  match m with
  | Archive true => "Chat archived successfully"
  | Archive false => "Chat unarchived successfully"
  | Pin true => "Chat pinned successfully"
  | Pin false => "Chat unpinned successfully"
  | Delete => "Chat deleted successfully"
  | MarkRead => "Chat marked as read successfully"
  end.

Section Handlers.

(** What [chatModify] of a socket does with a modification of a chat. *)
Variable socket_chatModify : nat -> Modification -> string -> Exn + unit.

(** The six handlers, after [sessionMiddleware], are one text with a
    different modification: [archive], [unarchive], [pin], [unpin],
    [delete] and [mark-read]. *)
Definition modify_chat (m : Modification) (sessionId chatId : string)
    (sv : Service) (time : Z) (chats : DatabaseService.Chats)
  : DatabaseService.Chats * Answer string :=
  match await (getSession sessionId sv) ≫= ws_socket with
  | None => (chats, Refused 400 "Session not connected")
  | Some socket =>
      match socket_chatModify socket m chatId with
      | inr _ =>
          (match chat_data m sessionId chatId with
           | Some data => DatabaseService.upsertChat data time chats
           | None => chats
           end,
           Sent 200 (done_message m))
      | inl error => (chats, Refused 400 (exn_message error))
      end
  end.

Definition POST_archive := modify_chat (Archive true).
Definition POST_unarchive := modify_chat (Archive false).
Definition POST_pin := modify_chat (Pin true).
Definition POST_unpin := modify_chat (Pin false).
Definition DELETE_chat := modify_chat Delete.
Definition POST_mark_read := modify_chat MarkRead.

(** [GET /api/chats/:sessionId], after [sessionMiddleware]. *)
Definition GET_chats
    (by_updatedAt_desc : list DatabaseService.Chat -> list DatabaseService.Chat)
    (sessionId : string) (chats : DatabaseService.Chats)
  : Answer (list DatabaseService.Chat) :=
  Sent 200 (DatabaseService.getChats by_updatedAt_desc sessionId chats).

(** Requests to the six handlers, one after the other; the registry is the
    same throughout, the clock is the one of each request. *)
Fixpoint serve (requests : list (Modification * string * string * Z))
    (sv : Service) (chats : DatabaseService.Chats) : DatabaseService.Chats :=
  match requests with
  | [] => chats
  | (m, sessionId, chatId, time) :: rest =>
      serve rest sv (fst (modify_chat m sessionId chatId sv time chats))
  end.

End Handlers.

End ChatRoutes.

(** * Vocabulary of the statements *)

(** ** Webhook deliveries *)

(** The ids of the delivery table are those handed out so far. *)
Definition fresh_ids (d : DatabaseService.Database) : Prop :=
  Forall (fun r => (DatabaseService.wd_id r < DatabaseService.next_delivery d)%nat)
         (DatabaseService.deliveries d).

(** A delivery attempt fails: no response, or a status of 500 and above. *)
Definition failing (r : WebhookService.PostResult) : Prop :=
  match r with
  | WebhookService.NoResponse _ => True
  | WebhookService.Response status _ => 500 <= status
  end.

(** The webhook row after [handleWebhookError] counted one more failure. *)
Definition bump (error : Exn) (w : DatabaseService.Webhook) : DatabaseService.Webhook :=
  DatabaseService.mkWebhook
    (DatabaseService.wh_id w) (DatabaseService.wh_userId w)
    (DatabaseService.wh_url w) (DatabaseService.wh_events w)
    (DatabaseService.wh_secret w) (DatabaseService.wh_isActive w)
    (DatabaseService.wh_retries w + 1) (DatabaseService.wh_maxRetries w)
    (Some (WebhookService.message_or "Unknown error" error)).


Section RetryChainVocabulary.

Variable endpoint : nat -> WebhookService.HttpRequest -> WebhookService.PostResult.
Variable JSON_stringify : string -> Z -> string -> string.
Variable st : WebhookService.State.
Variable w : DatabaseService.Webhook.
Variables event payload : string.

(** The state after the first attempt at delivering [event] to [w] and [k]
    turns of the timer loop. *)
Definition chain (k : nat) : WebhookService.State :=
  WebhookService.run_timers endpoint JSON_stringify k
    (WebhookService.deliverWebhook endpoint JSON_stringify
       (DatabaseService.wh_id w) (DatabaseService.wh_url w) event payload
       (DatabaseService.wh_secret w) st).

Definition to_webhook (r : WebhookService.HttpRequest) : Prop :=
  WebhookService.req_webhookId r = DatabaseService.wh_id w
  /\ WebhookService.req_url r = DatabaseService.wh_url w
  /\ WebhookService.req_event r = event.

(** The situation after attempt number [a + 1] failed and a retry is due. *)
Definition retrying_after (a : nat) (s : WebhookService.State) : Prop :=
  fresh_ids (WebhookService.db s)
  /\ (exists wa,
        DatabaseService.webhook_findUnique (DatabaseService.wh_id w)
          (WebhookService.db s) = Some wa
        /\ DatabaseService.wh_retries wa = Z.of_nat (S a)
        /\ DatabaseService.wh_maxRetries wa = 3)
  /\ (exists t,
        WebhookService.timers s = [t]
        /\ WebhookService.timer_delay t
           = WebhookService.calculateRetryDelay (Z.of_nat a)
        /\ WebhookService.timer_webhookId t = DatabaseService.wh_id w
        /\ WebhookService.timer_url t = DatabaseService.wh_url w
        /\ WebhookService.timer_event t = event
        /\ WebhookService.timer_payload t = payload
        /\ WebhookService.timer_secret t = DatabaseService.wh_secret w)
  /\ (exists reqs,
        WebhookService.requests s = WebhookService.requests st ++ reqs
        /\ length reqs = S a /\ Forall to_webhook reqs)
  /\ (exists rows,
        DatabaseService.deliveries (WebhookService.db s)
        = rows ++ DatabaseService.deliveries (WebhookService.db st)
        /\ map DatabaseService.wd_status rows = repeat RETRYING (S a)).

End RetryChainVocabulary.

(** ** Counting digests *)

(** All the strings of length [n] over an alphabet. *)
Fixpoint all_strings (alphabet : list ascii) (n : nat) : list string :=
  match n with
  | O => [EmptyString]
  | S n' => flat_map (fun c => map (String c) (all_strings alphabet n')) alphabet
  end.

(** ** Sessions *)

(** [touches P sessionId sv sv']: going from [sv] to [sv'] leaves every other
    session alone, in the registry, in the store and in the two logs; the
    statuses it assigns to [sessionId] all satisfy [P]. *)
Definition touches (P : SessionStatus -> Prop) (sessionId : string)
    (sv sv' : WhatsAppService.Service) : Prop :=
  (forall k, k <> sessionId ->
     WhatsAppService.sessions sv' !! k = WhatsAppService.sessions sv !! k)
  /\ (forall k, k <> sessionId ->
        DatabaseService.sessions (WhatsAppService.db sv') !! k
        = DatabaseService.sessions (WhatsAppService.db sv) !! k)
  /\ (exists added,
        WhatsAppService.history sv' = WhatsAppService.history sv ++ added
        /\ Forall (fun p => fst p = sessionId /\ P (snd p)) added)
  /\ (exists added,
        WhatsAppService.emitted sv' = WhatsAppService.emitted sv ++ added
        /\ Forall (fun u => WhatsAppService.upd_sessionId u = sessionId) added).

Definition not_pairing (s : SessionStatus) : Prop := s <> PAIRING_REQUIRED.

(** On a history read newest first: every PAIRING_REQUIRED was assigned
    right after a CONNECTING of the same session. *)
Fixpoint paired (h : list (string * SessionStatus)) : Prop :=
  match h with
  | [] => True
  | (s, PAIRING_REQUIRED) :: r =>
      match r with
      | (s', CONNECTING) :: _ => s = s'
      | _ => False
      end /\ paired r
  | _ :: r => paired r
  end.

(** The part of the data-model invariant on [qrCode] that the code keeps. *)
Definition session_ok (s : WhatsAppService.WhatsAppSession) : Prop :=
  (WhatsAppService.ws_status s = QR_REQUIRED -> is_Some (WhatsAppService.ws_qrCode s))
  /\ (WhatsAppService.ws_status s = CONNECTED -> WhatsAppService.ws_qrCode s = None).

Definition registry_ok (sv : WhatsAppService.Service) : Prop :=
  forall k s, WhatsAppService.sessions sv !! k = Some s -> session_ok s.

(** [acts_as sessionId f sv sv']: on the live object of [sessionId], going
    from [sv] to [sv'] is applying [f]. *)
Definition acts_as (sessionId : string)
    (f : WhatsAppService.WhatsAppSession -> WhatsAppService.WhatsAppSession)
    (sv sv' : WhatsAppService.Service) : Prop :=
  WhatsAppService.sessions sv' !! sessionId
  = f <$> WhatsAppService.sessions sv !! sessionId.

(** ** The bookkeeping of retries *)

(** From [w] to [w']: the same webhook, its failure counter not lower. *)
Definition counts_up (w w' : DatabaseService.Webhook) : Prop :=
  DatabaseService.wh_id w' = DatabaseService.wh_id w
  /\ DatabaseService.wh_url w' = DatabaseService.wh_url w
  /\ DatabaseService.wh_maxRetries w' = DatabaseService.wh_maxRetries w
  /\ DatabaseService.wh_retries w <= DatabaseService.wh_retries w'.

Definition ledger_grows (d d' : DatabaseService.Database) : Prop :=
  Forall2 counts_up (DatabaseService.webhooks d) (DatabaseService.webhooks d').

(** The webhook has no retry left: its counter has reached its bound. *)
Definition exhausted (webhookId : string) (d : DatabaseService.Database) : Prop :=
  exists w,
    DatabaseService.webhook_findUnique webhookId d = Some w
    /\ DatabaseService.wh_maxRetries w <= DatabaseService.wh_retries w.

(** [quiet id s s']: from [s] to [s'] no failure counter went down and no
    retry was scheduled for the webhook [id]. *)
Definition quiet (id : string) (s s' : WebhookService.State) : Prop :=
  ledger_grows (WebhookService.db s) (WebhookService.db s')
  /\ forall t, In t (WebhookService.timers s') ->
       WebhookService.timer_webhookId t = id -> In t (WebhookService.timers s).

(** The delivery rows [retryFailedDeliveries] asks the store for. *)
Definition failed_of (webhookId : string) (d : DatabaseService.Database)
  : list DatabaseService.WebhookDelivery :=
  DatabaseService.webhookDelivery_findMany
    (fun r => String.eqb (DatabaseService.wd_webhookId r) webhookId
              && DeliveryStatus_eqb (DatabaseService.wd_status r) FAILED) d.

(** Every timer id [retryQueue] holds was handed out already. *)
Definition queue_ok (s : WebhookService.State) : Prop :=
  map_Forall (fun _ id => (id < WebhookService.next_timer s)%nat)
             (WebhookService.retryQueue s).

(** ** The registry and the store *)

(** The live sessions are the sessions that have an active row. *)
Definition registry_matches_store (sv : WhatsAppService.Service) : Prop :=
  forall k,
    is_Some (WhatsAppService.sessions sv !! k)
    <-> exists r,
          DatabaseService.sessions (WhatsAppService.db sv) !! k = Some r
          /\ DatabaseService.row_isActive r = true.

(** [same_shape sv sv']: the same sessions are live, and the same rows exist
    and are active, in [sv] and in [sv']. *)
Definition same_shape (sv sv' : WhatsAppService.Service) : Prop :=
  (forall k, is_Some (WhatsAppService.sessions sv' !! k)
             <-> is_Some (WhatsAppService.sessions sv !! k))
  /\ (forall k,
        DatabaseService.row_isActive
          <$> DatabaseService.sessions (WhatsAppService.db sv') !! k
        = DatabaseService.row_isActive
            <$> DatabaseService.sessions (WhatsAppService.db sv) !! k).

(** [row_as sessionId g sv sv']: on the durable row of [sessionId], going
    from [sv] to [sv'] is applying [g]. *)
Definition row_as (sessionId : string)
    (g : DatabaseService.SessionRow -> DatabaseService.SessionRow)
    (sv sv' : WhatsAppService.Service) : Prop :=
  DatabaseService.sessions (WhatsAppService.db sv') !! sessionId
  = g <$> DatabaseService.sessions (WhatsAppService.db sv) !! sessionId.

(** ** Windows of the rate limiter *)

(** The instants of the calls of [key] among [calls]. *)
Definition instants_of (key : string) (calls : list (string * Z)) : list Z :=
  map snd (List.filter (fun c => String.eqb (fst c) key) calls).

(** The instants later than [start]. *)
Definition after (start : Z) (instants : list Z) : list Z :=
  List.filter (fun time => start <? time) instants.

(** The instants of the window of length [windowMs] that ends at [t]. *)
Definition within (windowMs t : Z) (instants : list Z) : list Z :=
  List.filter (fun time => (t - windowMs <? time) && (time <=? t)) instants.

(** What the map of the limiter knows, given the calls [passed] it let
    through: for a window that starts no earlier than the window of any
    of those calls, the instants it holds are the instants let through;
    and no window holds more than [max] calls of a key. *)
Definition limiter_ok (windowMs max : Z) (requests : AuthMiddleware.Requests)
    (passed : list (string * Z)) : Prop :=
  (forall key start,
     (forall c, In c passed -> snd c - windowMs <= start) ->
     after start (default [] (requests !! key)) = after start (instants_of key passed))
  /\ (forall key t,
        Z.of_nat (length (within windowMs t (instants_of key passed))) <= Z.max 0 max).

(** Two rows of the chat table agree on the columns that no handler of
    [/api/chats] gives a value to. *)
Definition same_fixed_columns (row row' : DatabaseService.Chat) : Prop :=
  DatabaseService.chat_sessionId row' = DatabaseService.chat_sessionId row
  /\ DatabaseService.chat_jid row' = DatabaseService.chat_jid row
  /\ DatabaseService.chat_isGroup row' = DatabaseService.chat_isGroup row
  /\ DatabaseService.chat_name row' = DatabaseService.chat_name row
  /\ DatabaseService.chat_isMuted row' = DatabaseService.chat_isMuted row
  /\ DatabaseService.chat_lastMessage row' = DatabaseService.chat_lastMessage row
  /\ DatabaseService.chat_metadata row' = DatabaseService.chat_metadata row.

(** ** Sample data for the concrete checks *)

Module Sample.

Definition dq : string := String (ascii_of_nat 34) EmptyString.

(** A stand-in for [JSON.stringify] on the envelope. *)
Definition stringify (event : string) (timestamp : Z) (data : string) : string :=
  "{" +:+ dq +:+ "event" +:+ dq +:+ ":" +:+ dq +:+ event +:+ dq +:+ ","
      +:+ dq +:+ "timestamp" +:+ dq +:+ ":" +:+ pretty timestamp +:+ ","
      +:+ dq +:+ "data" +:+ dq +:+ ":" +:+ data +:+ "}".

(** An endpoint that refuses every connection, one that answers 200. *)
Definition endpoint_down (n : nat) (r : WebhookService.HttpRequest)
  : WebhookService.PostResult :=
  WebhookService.NoResponse "connect ECONNREFUSED".

Definition endpoint_up (n : nat) (r : WebhookService.HttpRequest)
  : WebhookService.PostResult :=
  WebhookService.Response 200 "ok".

Definition hook (retries : Z) : DatabaseService.Webhook :=
  DatabaseService.mkWebhook "wh1" "u1" "https://example.org/hook"
    ["message.received"] (Some "s3cret") true retries 3 None.

(** Five webhooks: of the owner and subscribed, of another owner,
    deactivated, subscribed to another event, subscribed to everything. *)
Definition database (retries : Z) : DatabaseService.Database :=
  DatabaseService.mkDatabase
    {["s1" := DatabaseService.mkSessionRow "s1" "u1" None None None None None None true]}
    [hook retries;
     DatabaseService.mkWebhook "wh2" "u2" "https://example.org/other"
       ["message.received"] None true 0 3 None;
     DatabaseService.mkWebhook "wh3" "u1" "https://example.org/off"
       ["*"] None false 0 3 None;
     DatabaseService.mkWebhook "wh4" "u1" "https://example.org/upd"
       ["message.updated"] None true 0 3 None;
     DatabaseService.mkWebhook "wh5" "u1" "https://example.org/all"
       ["*"] None true 0 3 None]
    [] 0.

Definition state (retries : Z) : WebhookService.State :=
  WebhookService.mkState (database retries) ∅ [] 0 [] 1000.

(** The value of [DisconnectReason.loggedOut] in the protocol library. *)
Definition loggedOut : Z := 401.

(** A stand-in for the QR encoder: some data URL for every payload. *)
Definition toDataURL (q : string) : Exn + string :=
  inr ("data:image/png;base64," +:+ q).

Definition qr_update : WhatsAppService.ConnectionState :=
  WhatsAppService.mkUpdate None None (Some "1@xyz").

Definition open_update : WhatsAppService.ConnectionState :=
  WhatsAppService.mkUpdate (Some WhatsAppService.conn_open) None None.

(** A close for a reason other than a logout (428, connection closed). *)
Definition close_update : WhatsAppService.ConnectionState :=
  WhatsAppService.mkUpdate (Some WhatsAppService.conn_close) (Some 428) None.

(** The identity of the account with phone number 15551234567. *)
Definition identity : WhatsAppService.Contact :=
  WhatsAppService.mkContact "15551234567:1@s.whatsapp.net" (Some "Ann").

(** The service after session "s1" was created and its socket made. *)
Definition created : WhatsAppService.Service :=
  WhatsAppService.run loggedOut toDataURL
    [WhatsAppService.Create "s1" "u1" false (WhatsAppService.InitSocket false)]
    WhatsAppService.initial.

(** The same after the connection of "s1" closed with reason 428: the
    handler has set the reconnect timer. *)
Definition closed : WhatsAppService.Service :=
  WhatsAppService.handleConnectionUpdate loggedOut toDataURL "s1" close_update
    None created.

(** Two messages of session "s1" in a burst, with every endpoint down:
    each is sent to the webhooks "wh1" and "wh5" of the owner. *)
Definition burst : WebhookService.State :=
  WebhookService.sendWebhook endpoint_down stringify "s1" "message.received" "m2"
    (WebhookService.sendWebhook endpoint_down stringify "s1" "message.received"
       "m1" (state 0)).

(** An endpoint that answers 404 to everything. *)
Definition endpoint_gone (n : nat) (r : WebhookService.HttpRequest)
  : WebhookService.PostResult :=
  WebhookService.Response 404 "not found".

(** The [data] of the test event of a webhook. *)
Definition test_data (webhookId : string) : string :=
  "{" +:+ dq +:+ "message" +:+ dq +:+ ":" +:+ dq
      +:+ "This is a test webhook delivery" +:+ dq +:+ ","
      +:+ dq +:+ "webhookId" +:+ dq +:+ ":" +:+ dq +:+ webhookId +:+ dq +:+ "}".

(** A store that hands out the rows of an unordered query oldest first, and
    in which the row number [n] was created at the instant [1000 + n]. *)
Definition oldest_first (rows : list DatabaseService.WebhookDelivery)
  : list DatabaseService.WebhookDelivery := rev rows.

Definition created_at (r : DatabaseService.WebhookDelivery) : Z :=
  1000 + Z.of_nat (DatabaseService.wd_id r).

(** The state after an event went to the two webhooks that listen to it and
    both answered 404: two deliveries, both FAILED. *)
Definition two_failed : WebhookService.State :=
  WebhookService.sendWebhook endpoint_gone stringify "s1" "message.received" "{}"
    (state 0).

(** A Boom error with status 500 whose text and data name internals, and an
    error of the protocol library whose text matches two of the patterns. *)
Definition boom_500 : ErrorHandler.ErrorObject :=
  ErrorHandler.mkError
    (Some (500, Some (ErrorHandler.mkBoomData
                        (Some (ErrorHandler.CodeText "DB_DOWN")) "host=10.0.0.5")))
    None "Error" "connect failed for user admin" None None None None
    (Some "at connect (db.ts:10)").

Definition boom_500_answer : ErrorHandler.ErrorResponse :=
  ErrorHandler.mkResponse 500 "Internal Server Error"
    (ErrorHandler.CodeText "DB_DOWN") None None.

Definition closed_not_authorized : ErrorHandler.ErrorObject :=
  ErrorHandler.mkError None None "Error" "connection closed: not-authorized"
    None None None None None.

(** A socket that does every modification of a chat, and one that refuses
    every one. *)
Definition chatModify_ok (socket : nat) (m : ChatRoutes.Modification)
    (chatId : string) : Exn + unit :=
  inr tt.

Definition chatModify_fails (socket : nat) (m : ChatRoutes.Modification)
    (chatId : string) : Exn + unit :=
  inl (JsError "Connection Closed").

(** A group chat of session "s1", pinned and with three unread messages. *)
Definition group_chat : DatabaseService.Chat :=
  DatabaseService.mkChat "s1" "123-456@g.us" (Some "Family") true None
    (Some true) None (Some 3) None None None.

Definition one_chat : DatabaseService.Chats :=
  {[ ("s1", "123-456@g.us") := group_chat ]}.

End Sample.

(** * Properties *)

(** ** Digests and signatures *)

Section CryptoFacts.
Import Sha256 Crypto.

Lemma round_length (s : list Z) (kw : Z * Z) : length (round s kw) = 8%nat.
Proof. reflexivity. Qed.

Lemma rounds_length (kws : list (Z * Z)) (s : list Z) :
  length s = 8%nat -> length (fold_left round kws s) = 8%nat.
Proof.
  revert s. induction kws as [|kw kws IH]; intros s Hs; simpl; [exact Hs|].
  apply IH, round_length.
Qed.

Lemma compress_length (H block : list Z) :
  length H = 8%nat -> length (compress H block) = 8%nat.
Proof.
  intros HH. unfold compress.
  rewrite length_map, length_combine, rounds_length, HH by exact HH.
  reflexivity.
Qed.

Lemma blocks_length (n : nat) (b H : list Z) :
  length H = 8%nat -> length (blocks n b H) = 8%nat.
Proof.
  revert b H. induction n as [|n IH]; intros b H HH; simpl; [exact HH|].
  apply IH, compress_length, HH.
Qed.

Lemma sha256_length (msg : list Z) : length (sha256 msg) = 32%nat.
Proof.
  unfold sha256.
  pose proof (blocks_length (length (pad msg) / 64) (pad msg) H0 eq_refl) as HL.
  destruct (blocks (length (pad msg) / 64) (pad msg) H0)
    as [|a [|b [|c [|d [|e [|f [|g [|h [|]]]]]]]]]; try discriminate HL.
  reflexivity.
Qed.

Lemma hmac_sha256_length (key msg : list Z) : length (hmac_sha256 key msg) = 32%nat.
Proof. apply sha256_length. Qed.

Lemma hex_digit_in (n : Z) : In (hex_digit n) hex_alphabet.
Proof.
  unfold hex_digit.
  destruct (Nat.lt_ge_cases (Z.to_nat n) (length hex_alphabet)) as [Hlt|Hge].
  - apply nth_In, Hlt.
  - rewrite nth_overflow by exact Hge. vm_compute. tauto.
Qed.

Lemma hex_of_bytes_chars (b : list Z) :
  Forall (fun c => In c hex_alphabet) (list_ascii_of_string (hex_of_bytes b)).
Proof.
  unfold hex_of_bytes. rewrite list_ascii_of_string_of_list_ascii.
  induction b as [|x b IH]; simpl; [constructor|].
  constructor; [apply hex_digit_in|]. constructor; [apply hex_digit_in|exact IH].
Qed.

Lemma string_length_list (s : string) :
  String.length s = length (list_ascii_of_string s).
Proof. induction s as [|c s IH]; simpl; congruence. Qed.

Lemma hex_of_bytes_length (b : list Z) :
  String.length (hex_of_bytes b) = (2 * length b)%nat.
Proof.
  rewrite string_length_list. unfold hex_of_bytes.
  rewrite list_ascii_of_string_of_list_ascii.
  induction b as [|x b IH]; simpl in *; lia.
Qed.

Lemma createHmac_length (secret payload : string) :
  String.length (createHmac_sha256_hex secret payload) = 64%nat.
Proof.
  unfold createHmac_sha256_hex.
  rewrite hex_of_bytes_length, hmac_sha256_length. reflexivity.
Qed.

Lemma Buffer_from_length (s : string) : length (Buffer_from s) = String.length s.
Proof. unfold Buffer_from. rewrite length_map. symmetry. apply string_length_list. Qed.

Lemma Buffer_from_inj (s t : string) : Buffer_from s = Buffer_from t -> s = t.
Proof.
  revert t. induction s as [|c s IH]; intros [|d t] H; try discriminate H; [reflexivity|].
  unfold Buffer_from in H. simpl in H. injection H as Hc Hs.
  f_equal.
  - apply N2Z.inj in Hc.
    rewrite <- (ascii_N_embedding c), <- (ascii_N_embedding d). congruence.
  - apply IH, Hs.
Qed.

(** The or-ed differences are zero exactly when no pair differs. *)
Lemma memcmp_acc (l : list (Z * Z)) (acc : Z) :
  fold_left (fun a p => Z.lor a (Z.lxor (fst p) (snd p))) l acc = 0
  <-> acc = 0 /\ Forall (fun p => fst p = snd p) l.
Proof.
  revert acc. induction l as [|[x y] l IH]; intros acc; simpl.
  - split; [intros ->; split; [reflexivity|constructor] | tauto].
  - rewrite IH, Z.lor_eq_0_iff, Z.lxor_eq_0_iff. simpl.
    split.
    + intros [[Ha Hxy] Hl]. split; [exact Ha|]. constructor; assumption.
    + intros [Ha Hl]. inversion Hl; subst. tauto.
Qed.

Lemma combine_diag (a b : list Z) :
  length a = length b ->
  (Forall (fun p => fst p = snd p) (combine a b) <-> a = b).
Proof.
  revert b. induction a as [|x a IH]; intros [|y b] Hlen; try discriminate Hlen.
  - split; [reflexivity|constructor].
  - simpl in *. injection Hlen as Hlen. split.
    + intros H. inversion H; subst. simpl in *. f_equal; [assumption|].
      apply IH; assumption.
    + intros [= -> ->]. constructor; [reflexivity|]. apply IH; auto.
Qed.

Lemma CRYPTO_memcmp_zero (a b : list Z) :
  length a = length b -> (CRYPTO_memcmp a b = 0 <-> a = b).
Proof.
  intros Hlen. unfold CRYPTO_memcmp. rewrite memcmp_acc, <- combine_diag by exact Hlen.
  tauto.
Qed.

Lemma timingSafeEqual_strings (s t : string) :
  timingSafeEqual (Buffer_from s) (Buffer_from t) =
  if (String.length s =? String.length t)%nat
  then inr (String.eqb s t)
  else inl (JsRangeError "Input buffers must have the same byte length").
Proof.
  unfold timingSafeEqual. rewrite !Buffer_from_length.
  destruct (Nat.eqb_spec (String.length s) (String.length t)) as [Hlen|Hlen];
    [|reflexivity].
  f_equal.
  assert (Hb : length (Buffer_from s) = length (Buffer_from t))
    by (rewrite !Buffer_from_length; exact Hlen).
  destruct (String.eqb_spec s t) as [->|Hne].
  - apply Z.eqb_eq, CRYPTO_memcmp_zero; auto.
  - apply Z.eqb_neq. intros H0. apply Hne, Buffer_from_inj.
    apply CRYPTO_memcmp_zero; assumption.
Qed.

End CryptoFacts.

Section Counting.
Local Open Scope nat_scope.

Lemma length_flat_map_const {A B : Type} (f : A -> list B) (k : nat) (l : list A) :
  (forall x, length (f x) = k) -> length (flat_map f l) = length l * k.
Proof.
  intros Hf. induction l as [|x l IH]; simpl; [reflexivity|].
  rewrite length_app, Hf, IH. reflexivity.
Qed.

Lemma all_strings_count (a : list ascii) (n : nat) :
  length (all_strings a n) = length a ^ n.
Proof.
  induction n as [|n IH]; [reflexivity|].
  cbn [all_strings]. rewrite Nat.pow_succ_r'.
  apply length_flat_map_const. intros c. rewrite length_map. exact IH.
Qed.

Lemma all_strings_length (a : list ascii) (n : nat) (s : string) :
  In s (all_strings a n) -> String.length s = n.
Proof.
  revert s. induction n as [|n IH]; intros s; cbn [all_strings].
  - intros [<-|[]]. reflexivity.
  - rewrite in_flat_map. intros (c & _ & Hs).
    apply in_map_iff in Hs as (t & <- & Ht). simpl. f_equal. apply IH, Ht.
Qed.

Lemma all_strings_complete (a : list ascii) (s : string) :
  Forall (fun c => In c a) (list_ascii_of_string s) ->
  In s (all_strings a (String.length s)).
Proof.
  induction s as [|c s IH]; simpl; intros H; [left; reflexivity|].
  inversion H as [|? ? Hc Hs]; subst.
  apply in_flat_map. exists c. split; [exact Hc|].
  apply in_map, IH, Hs.
Qed.

Lemma prefixed_NoDup (L : list string) (l : list ascii) :
  List.NoDup L -> List.NoDup l ->
  List.NoDup (flat_map (fun c => map (String c) L) l).
Proof.
  intros HL Hl. induction Hl as [|c l Hc Hl IHl]; simpl; [constructor|].
  apply List.NoDup_app.
  - apply Injective_map_NoDup; [|exact HL]. intros x y [= ->]. reflexivity.
  - exact IHl.
  - intros s Hs Hs'. apply in_map_iff in Hs as (t & <- & _).
    apply in_flat_map in Hs' as (d & Hd & Hs').
    apply in_map_iff in Hs' as (u & [= -> _] & _). contradiction.
Qed.

Lemma all_strings_NoDup (a : list ascii) (n : nat) :
  List.NoDup a -> List.NoDup (all_strings a n).
Proof.
  intros Ha. induction n as [|n IH]; cbn [all_strings].
  - constructor; [intros H; destruct H|constructor].
  - apply prefixed_NoDup; assumption.
Qed.

(** No function from the words of length [n + 1] to the words of length [n]
    over the same alphabet of at least two letters is injective. *)
Lemma no_compression (a : list ascii) (n : nat) (f : string -> string) :
  List.NoDup a -> 2 <= length a ->
  (forall s, In s (all_strings a (S n)) -> In (f s) (all_strings a n)) ->
  ~ (forall s t, In s (all_strings a (S n)) -> In t (all_strings a (S n)) ->
                 f s = f t -> s = t).
Proof.
  intros Ha Hlen Himg Hinj.
  assert (Hnd : List.NoDup (map f (all_strings a (S n)))).
  { apply Injective_map_NoDup_in; [exact Hinj|apply all_strings_NoDup, Ha]. }
  assert (Hincl : incl (map f (all_strings a (S n))) (all_strings a n)).
  { intros y Hy. apply in_map_iff in Hy as (s & <- & Hs). apply Himg, Hs. }
  pose proof (NoDup_incl_length Hnd Hincl) as Hle.
  rewrite length_map, !all_strings_count, Nat.pow_succ_r' in Hle.
  assert (Hpos : length a ^ n <> 0) by (apply Nat.pow_nonzero; lia).
  nia.
Qed.

End Counting.

Section Signatures.
Import WebhookService.

Lemma createSignature_length (payload secret : string) :
  String.length (createSignature payload secret) = 64%nat.
Proof. apply createHmac_length. Qed.

(** What the promise of [verifyWebhookSignature] settles to, in full. *)
Lemma verifyWebhookSignature_eq (payload signature secret : string) :
  verifyWebhookSignature payload signature secret =
  if (String.length signature =? 64)%nat
  then inr (String.eqb signature (createSignature payload secret))
  else inl (JsRangeError "Input buffers must have the same byte length").
Proof.
  unfold verifyWebhookSignature.
  rewrite timingSafeEqual_strings, createSignature_length. reflexivity.
Qed.

Lemma verify_own_signature (payload secret : string) :
  verifyWebhookSignature payload (createSignature payload secret) secret = inr true.
Proof.
  rewrite verifyWebhookSignature_eq, createSignature_length, String.eqb_refl.
  reflexivity.
Qed.

Lemma verify_other_payload (payload payload' secret : string) :
  verifyWebhookSignature payload' (createSignature payload secret) secret =
  inr (String.eqb (createSignature payload secret) (createSignature payload' secret)).
Proof. rewrite verifyWebhookSignature_eq, createSignature_length. reflexivity. Qed.

Lemma hex_alphabet_NoDup : List.NoDup Crypto.hex_alphabet.
Proof.
  unfold Crypto.hex_alphabet. simpl.
  repeat (constructor; [simpl; intuition discriminate|]). constructor.
Qed.

Lemma createSignature_in_hex64 (payload secret : string) :
  In (createSignature payload secret) (all_strings Crypto.hex_alphabet 64).
Proof.
  pose proof (all_strings_complete Crypto.hex_alphabet
                (createSignature payload secret) (hex_of_bytes_chars _)) as H.
  rewrite createSignature_length in H. exact H.
Qed.

(** What of C2 is a statement about the two functions: the signature is the
    lowercase hexadecimal HMAC-SHA256 of the payload, 64 characters long;
    verifying a payload against its own signature gives true; any other
    signature never gives true; and a signature made for one payload
    verifies against another payload exactly when the two digests are the
    same.  That two payloads never share a digest is the collision
    resistance of the MAC, which these functions do not decide. *)
Theorem signature_round_trip (payload secret : string) :
  createSignature payload secret =
    Crypto.hex_of_bytes
      (Crypto.hmac_sha256 (Crypto.Buffer_from secret) (Crypto.Buffer_from payload))
  /\ String.length (createSignature payload secret) = 64%nat
  /\ Forall (fun c => In c Crypto.hex_alphabet)
            (list_ascii_of_string (createSignature payload secret))
  /\ verifyWebhookSignature payload (createSignature payload secret) secret = inr true
  /\ (forall signature,
        signature <> createSignature payload secret ->
        verifyWebhookSignature payload signature secret <> inr true)
  /\ (forall payload',
        verifyWebhookSignature payload' (createSignature payload secret) secret =
        inr (String.eqb (createSignature payload secret)
                        (createSignature payload' secret))).
Proof.
  split; [reflexivity|].
  split; [apply createSignature_length|].
  split; [apply hex_of_bytes_chars|].
  split; [apply verify_own_signature|].
  split; [|intros payload'; apply verify_other_payload].
  intros signature Hne. rewrite verifyWebhookSignature_eq.
  destruct (String.length signature =? 64)%nat; [|discriminate].
  intros [= H]. apply String.eqb_eq in H. contradiction.
Qed.

(** Read as an exact statement about all strings, the payload half of C2
    cannot hold: 65-character payloads outnumber the digests.  The argument
    counts; it exhibits no pair of payloads. *)
Lemma signature_payload_collision :
  ~ (forall payload payload' secret : string,
       String.length payload' = String.length payload ->
       payload' <> payload ->
       verifyWebhookSignature payload' (createSignature payload secret) secret
       <> inr true).
Proof.
  intros Hclaim.
  apply (no_compression Crypto.hex_alphabet 64
           (fun payload => createSignature payload "s3cret")).
  - exact hex_alphabet_NoDup.
  - vm_compute. lia.
  - intros s _. apply createSignature_in_hex64.
  - intros s t Hs Ht Heq.
    destruct (String.eqb_spec t s) as [->|Hne]; [reflexivity|].
    exfalso. apply (Hclaim s t "s3cret").
    + rewrite (all_strings_length _ _ _ Hs), (all_strings_length _ _ _ Ht). reflexivity.
    + exact Hne.
    + rewrite verify_other_payload, Heq, String.eqb_refl. reflexivity.
Qed.

(** C10: the expected digest has 64 characters; [verifyWebhookSignature]
    settles to a boolean exactly when the given signature has 64 bytes too,
    and throws a RangeError for every other length. *)
Theorem verify_length_guard (payload signature secret : string) :
  String.length (createSignature payload secret) = 64%nat
  /\ verifyWebhookSignature payload signature secret =
     if (String.length signature =? 64)%nat
     then inr (String.eqb signature (createSignature payload secret))
     else inl (JsRangeError "Input buffers must have the same byte length").
Proof. split; [apply createSignature_length|apply verifyWebhookSignature_eq]. Qed.
End Signatures.

(** ** Webhook deliveries *)

Section Deliveries.
Import DatabaseService WebhookService.

Variable endpoint : nat -> HttpRequest -> PostResult.
Variable JSON_stringify : string -> Z -> string -> string.

Abbreviation deliver := (deliverWebhook endpoint JSON_stringify).

Lemma update_fresh_row (id : nat) (f : WebhookDelivery -> WebhookDelivery)
    (rows : list WebhookDelivery) :
  Forall (fun r => (wd_id r < id)%nat) rows ->
  map (fun r => if Nat.eqb (wd_id r) id then f r else r) rows = rows.
Proof.
  induction 1 as [|r rows Hr _ IH]; simpl; [reflexivity|].
  rewrite IH. destruct (Nat.eqb_spec (wd_id r) id); [lia|reflexivity].
Qed.

Lemma find_after_update (id : string) (f : Webhook -> Webhook) (l : list Webhook) :
  (forall w, wh_id (f w) = wh_id w) ->
  find (fun w => String.eqb (wh_id w) id)
       (map (fun w => if String.eqb (wh_id w) id then f w else w) l)
  = option_map f (find (fun w => String.eqb (wh_id w) id) l).
Proof.
  intros Hf. induction l as [|w l IH]; simpl; [reflexivity|].
  destruct (String.eqb (wh_id w) id) eqn:E.
  - rewrite Hf, E. reflexivity.
  - rewrite E. exact IH.
Qed.

Lemma failing_post (r : PostResult) :
  failing r -> exists e, axios_post (fun status => status <? 500) r = inl e.
Proof.
  destruct r as [m|st body]; simpl; intros H; [eauto|].
  destruct (Z.ltb_spec st 500); [lia|eauto].
Qed.

(** What one call of [deliverWebhook] does to the tables and to the log of
    requests, whatever the endpoint answers. *)
Lemma deliver_effect (webhookId url event payload : string)
    (secret : option string) (s : State) :
  fresh_ids (db s) ->
  let s' := deliver webhookId url event payload secret s in
  exists row,
    deliveries (db s') = row :: deliveries (db s)
    /\ wd_id row = next_delivery (db s)
    /\ wd_webhookId row = webhookId
    /\ wd_event row = event
    /\ next_delivery (db s') = S (next_delivery (db s))
    /\ requests s' = requests s ++ [request_of JSON_stringify webhookId url event payload secret s].
Proof.
  destruct s as [[ss ws ds nd] rq ts nt rs nw]. unfold fresh_ids. cbn.
  intros Hfresh.
  assert (Hmap : forall f,
    map (fun r => if Nat.eqb (wd_id r) nd then f r else r) ds = ds)
    by (intros f; apply update_fresh_row, Hfresh).
  unfold deliverWebhook, request_of. cbn.
  destruct (axios_post _ _) as [error|response].
  - unfold handleWebhookError, webhook_findUnique. cbn.
    destruct (find _ ws) as [webhook|].
    + destruct (wh_retries webhook <? wh_maxRetries webhook);
        unfold webhookDelivery_findFirst; cbn;
        rewrite !String.eqb_refl; cbn;
        rewrite Nat.eqb_refl, Hmap; eexists; repeat split.
    + cbn. eexists; repeat split.
  - unfold updateDeliveryStatus. cbn. rewrite Nat.eqb_refl, Hmap.
    eexists; repeat split.
Qed.

(** A delivery whose request fails: the failure is counted, and either a
    retry is scheduled and the new record marked RETRYING, or the record is
    marked FAILED and nothing is scheduled. *)
Lemma deliver_failure (webhookId url event payload : string)
    (secret : option string) (s : State) (w : Webhook) :
  fresh_ids (db s) ->
  webhook_findUnique webhookId (db s) = Some w ->
  failing (endpoint (length (requests s))
                    (request_of JSON_stringify webhookId url event payload secret s)) ->
  let s' := deliver webhookId url event payload secret s in
  exists error,
    webhook_findUnique webhookId (db s') = Some (bump error w)
    /\ fresh_ids (db s')
    /\ requests s' = requests s ++ [request_of JSON_stringify webhookId url event payload secret s]
    /\ now s' = now s
    /\ if wh_retries w <? wh_maxRetries w then
         timers s' =
           timers s ++
             [mkTimer (next_timer s) (calculateRetryDelay (wh_retries w))
                      (now s + calculateRetryDelay (wh_retries w))
                      webhookId url event payload secret]
         /\ deliveries (db s') =
              mkDelivery (next_delivery (db s)) webhookId event payload RETRYING 1
                         (Some (now s + calculateRetryDelay (wh_retries w))) None
              :: deliveries (db s)
       else
         timers s' = timers s
         /\ deliveries (db s') =
              mkDelivery (next_delivery (db s)) webhookId event payload FAILED 0 None
                (Some (ErrorOutcome (message_or "Max retries exceeded" error)))
              :: deliveries (db s).
Proof.
  destruct s as [[ss ws ds nd] rq ts nt rs nw]. unfold fresh_ids, webhook_findUnique.
  cbn. intros Hfresh Hfind Hfail.
  assert (Hmap : forall f,
    map (fun r => if Nat.eqb (wd_id r) nd then f r else r) ds = ds)
    by (intros f; apply update_fresh_row, Hfresh).
  apply failing_post in Hfail as [error Herr].
  exists error.
  unfold deliverWebhook. cbn. unfold request_of in Herr. cbn in Herr. rewrite Herr.
  unfold handleWebhookError, webhook_findUnique. cbn. rewrite Hfind.
  destruct (wh_retries w <? wh_maxRetries w);
    unfold webhookDelivery_findFirst; cbn; rewrite !String.eqb_refl; cbn;
    rewrite Nat.eqb_refl, Hmap;
    (split; [rewrite find_after_update, Hfind by reflexivity; reflexivity|]);
    (split; [constructor; [cbn; lia|];
             eapply List.Forall_impl; [|exact Hfresh]; cbn; intros; lia|]);
    repeat split.
Qed.

Lemma fire_single (t : RetryTimer) (s : State) :
  timers s = [t] ->
  fire_next endpoint JSON_stringify s =
  deliver (timer_webhookId t) (timer_url t) (timer_event t) (timer_payload t)
          (timer_secret t)
          (mkState (db s) (delete (timer_webhookId t) (retryQueue s)) []
                   (next_timer s) (requests s) (Z.max (now s) (timer_due t))).
Proof.
  intros Ht. unfold fire_next, fire. rewrite Ht. cbn. rewrite Nat.eqb_refl.
  reflexivity.
Qed.

Lemma fire_idle (s : State) :
  timers s = [] -> fire_next endpoint JSON_stringify s = s.
Proof. intros Ht. unfold fire_next. rewrite Ht. reflexivity. Qed.

End Deliveries.

Section RetryChain.
Import DatabaseService WebhookService.

Variable endpoint : nat -> HttpRequest -> PostResult.
Variable JSON_stringify : string -> Z -> string -> string.
Variable st : State.
Variable w : Webhook.
Variables event payload : string.

Hypothesis Hfresh : fresh_ids (db st).
Hypothesis Hrow : webhook_findUnique (wh_id w) (db st) = Some w.
Hypothesis Hzero : wh_retries w = 0.
Hypothesis Hmax : wh_maxRetries w = 3.
Hypothesis Hidle : timers st = [].
Hypothesis Hfail : forall n request, failing (endpoint n request).

Lemma chain_retrying (a : nat) :
  (a < 3)%nat ->
  retrying_after st w event payload a
    (chain endpoint JSON_stringify st w event payload a).
Proof.
  induction a as [|a IH]; intros Ha.
  - unfold chain. cbn [run_timers].
    destruct (deliver_failure endpoint JSON_stringify (wh_id w) (wh_url w) event
                payload (wh_secret w) st w Hfresh Hrow (Hfail _ _))
      as (error & Hw & Hf & Hreq & _ & Hbranch).
    rewrite Hzero, Hmax in Hbranch. cbn [Z.ltb Z.compare] in Hbranch.
    destruct Hbranch as [Ht Hd]. rewrite Hidle in Ht.
    split; [exact Hf|].
    split; [eexists; split; [exact Hw|]; cbn; rewrite Hzero, Hmax; split; reflexivity|].
    split; [eexists; split; [exact Ht|]; repeat split|].
    split; [eexists; split; [exact Hreq|]; split; [reflexivity|];
            repeat constructor|].
    eexists [_]. split; [exact Hd|reflexivity].
  - destruct IH as (Hf & (wa & Hwa & Hra & Hma) & (t & Ht & Hdelay & Hi & Hu & He & Hp & Hs)
                    & (reqs & Hreqs & Hlen & Hall) & (rows & Hrows & Hst)); [lia|].
    unfold chain in *. cbn [run_timers].
    set (s := run_timers _ _ a _) in *.
    rewrite (fire_single _ _ t s Ht).
    set (s1 := mkState _ _ _ _ _ _).
    rewrite <- Hi in Hwa.
    destruct (deliver_failure endpoint JSON_stringify (timer_webhookId t)
                (timer_url t) (timer_event t) (timer_payload t) (timer_secret t)
                s1 wa Hf Hwa (Hfail _ _))
      as (error & Hw' & Hf' & Hreq' & _ & Hbranch).
    rewrite Hra, Hma in Hbranch.
    destruct (Z.ltb_spec (Z.of_nat (S a)) 3) as [_|]; [|lia].
    destruct Hbranch as [Ht' Hd'].
    rewrite Hi, Hu, He, Hp, Hs in *.
    split; [exact Hf'|].
    split; [eexists; split; [exact Hw'|]; cbn; rewrite Hra, Hma; split; [lia|reflexivity]|].
    split; [eexists; split; [exact Ht'|]; repeat split|].
    split.
    + eexists (reqs ++ [_]).
      rewrite Hreq'. cbn [requests s1]. rewrite Hreqs, <- app_assoc.
      split; [reflexivity|]. split; [rewrite length_app; cbn; lia|].
      apply Forall_app. split; [exact Hall|]. repeat constructor.
    + eexists (_ :: rows). rewrite Hd'. cbn [db deliveries s1]. rewrite Hrows.
      split; [reflexivity|]. cbn [map wd_status]. rewrite Hst. reflexivity.
Qed.

End RetryChain.

Section RetryChainEnd.
Import DatabaseService WebhookService.

Variable endpoint : nat -> HttpRequest -> PostResult.
Variable JSON_stringify : string -> Z -> string -> string.

Lemma run_timers_idle (k : nat) (s : State) :
  timers s = [] -> run_timers endpoint JSON_stringify k s = s.
Proof.
  intros Hs. induction k as [|k IH]; cbn [run_timers]; [reflexivity|].
  rewrite IH. apply fire_idle, Hs.
Qed.

Lemma run_timers_add (j k : nat) (s : State) :
  run_timers endpoint JSON_stringify (j + k) s =
  run_timers endpoint JSON_stringify j (run_timers endpoint JSON_stringify k s).
Proof. induction j as [|j IH]; cbn [run_timers Nat.add]; congruence. Qed.

Lemma calculateRetryDelay_small :
  map calculateRetryDelay [0; 1; 2] = [1000; 2000; 4000].
Proof. reflexivity. Qed.

(** C1 (as amended): a webhook with [maxRetries = 3] and a failure counter
    at 0, no retry pending, and one delivery to it on its own, every attempt
    failing.  After the first attempt and after each of the first two
    retries ([a = 0, 1, 2]) exactly one retry is pending, with delay
    [min(2^a * 1000, 300000)] ms, that is 1 s, 2 s and 4 s, and every record
    of the chain is RETRYING; the third retry is the fourth request, it
    marks its own record FAILED and schedules nothing, the records of the
    first three attempts stay RETRYING, and the timer loop has nothing more
    to do. *)
Theorem retry_schedule (st : State) (w : Webhook) (event payload : string) :
  fresh_ids (db st) ->
  webhook_findUnique (wh_id w) (db st) = Some w ->
  wh_retries w = 0 ->
  wh_maxRetries w = 3 ->
  timers st = [] ->
  (forall n request, failing (endpoint n request)) ->
  (forall a, (a < 3)%nat ->
     exists t reqs rows,
       timers (chain endpoint JSON_stringify st w event payload a) = [t]
       /\ timer_delay t = Z.min (2 ^ Z.of_nat a * 1000) (5 * 60 * 1000)
       /\ requests (chain endpoint JSON_stringify st w event payload a)
          = requests st ++ reqs
       /\ length reqs = S a
       /\ deliveries (db (chain endpoint JSON_stringify st w event payload a))
          = rows ++ deliveries (db st)
       /\ map wd_status rows = repeat RETRYING (S a))
  /\ map calculateRetryDelay [0; 1; 2] = [1000; 2000; 4000]
  /\ (exists reqs rows,
        timers (chain endpoint JSON_stringify st w event payload 3) = []
        /\ requests (chain endpoint JSON_stringify st w event payload 3)
           = requests st ++ reqs
        /\ length reqs = 4%nat
        /\ Forall (to_webhook w event) reqs
        /\ deliveries (db (chain endpoint JSON_stringify st w event payload 3))
           = rows ++ deliveries (db st)
        /\ map wd_status rows = [FAILED; RETRYING; RETRYING; RETRYING])
  /\ (forall k, chain endpoint JSON_stringify st w event payload (k + 3)
                = chain endpoint JSON_stringify st w event payload 3).
Proof.
  intros Hfresh Hrow Hzero Hmax Hidle Hfail.
  pose proof (chain_retrying endpoint JSON_stringify st w event payload
                Hfresh Hrow Hzero Hmax Hidle Hfail) as Hchain.
  assert (Hend : exists reqs rows,
        timers (chain endpoint JSON_stringify st w event payload 3) = []
        /\ requests (chain endpoint JSON_stringify st w event payload 3)
           = requests st ++ reqs
        /\ length reqs = 4%nat
        /\ Forall (to_webhook w event) reqs
        /\ deliveries (db (chain endpoint JSON_stringify st w event payload 3))
           = rows ++ deliveries (db st)
        /\ map wd_status rows = [FAILED; RETRYING; RETRYING; RETRYING]).
  { destruct (Hchain 2%nat) as
      (Hf & (wa & Hwa & Hra & Hma) & (t & Ht & _ & Hi & Hu & He & Hp & Hs)
       & (reqs & Hreqs & Hlen & Hall) & (rows & Hrows & Hst)); [lia|].
    unfold chain in *. cbn [run_timers] in *.
    set (s := fire_next _ _ (fire_next _ _ _)) in *.
    rewrite (fire_single _ _ t s Ht).
    set (s1 := mkState _ _ _ _ _ _).
    rewrite <- Hi in Hwa.
    destruct (deliver_failure endpoint JSON_stringify (timer_webhookId t)
                (timer_url t) (timer_event t) (timer_payload t) (timer_secret t)
                s1 wa Hf Hwa (Hfail _ _))
      as (error & _ & _ & Hreq' & _ & Hbranch).
    rewrite Hra, Hma in Hbranch. change (Z.of_nat 3 <? 3) with false in Hbranch.
    destruct Hbranch as [Ht' Hd'].
    rewrite Hi, Hu, He, Hp, Hs in *.
    eexists (reqs ++ [_]), (_ :: rows).
    rewrite Ht', Hreq', Hd'. cbn [timers requests db deliveries s1].
    rewrite Hreqs, Hrows, <- app_assoc.
    split; [reflexivity|]. split; [reflexivity|].
    split; [rewrite length_app; cbn; lia|].
    split; [apply Forall_app; split; [exact Hall|]; repeat constructor|].
    split; [reflexivity|]. cbn [map wd_status]. rewrite Hst. reflexivity. }
  split; [|split; [reflexivity|split; [exact Hend|]]].
  - intros a Ha.
    destruct (Hchain a Ha) as
      (_ & _ & (t & Ht & Hdelay & _) & (reqs & Hreqs & Hlen & _) & (rows & Hrows & Hst)).
    exists t, reqs, rows. repeat split; assumption.
  - intros k. destruct Hend as (_ & _ & Ht & _).
    unfold chain in *. rewrite run_timers_add. apply run_timers_idle, Ht.
Qed.

(** C4 (as amended): after a delivery attempt answered with a 2xx status the
    new delivery record is marked SUCCESS, with one attempt counted; the
    webhook table is left as it was, so the consecutive-failure counter
    [retries] of every webhook keeps its value, and no retry is scheduled. *)
Theorem success_marks_delivery (webhookId url event payload : string)
    (secret : option string) (s : State) (status : Z) (body : string) :
  fresh_ids (db s) ->
  endpoint (length (requests s))
           (request_of JSON_stringify webhookId url event payload secret s)
    = Response status body ->
  200 <= status < 300 ->
  deliveries
    (db (deliverWebhook endpoint JSON_stringify webhookId url event payload secret s))
    = mkDelivery (next_delivery (db s)) webhookId event payload SUCCESS 1 None
                 (Some (HttpOutcome status body)) :: deliveries (db s)
  /\ webhooks
       (db (deliverWebhook endpoint JSON_stringify webhookId url event payload secret s))
     = webhooks (db s)
  /\ (forall id,
        wh_retries
          <$> webhook_findUnique id
                (db (deliverWebhook endpoint JSON_stringify webhookId url event
                       payload secret s))
        = wh_retries <$> webhook_findUnique id (db s))
  /\ timers (deliverWebhook endpoint JSON_stringify webhookId url event payload secret s)
     = timers s
  /\ retryQueue
       (deliverWebhook endpoint JSON_stringify webhookId url event payload secret s)
     = retryQueue s.
Proof.
  destruct s as [[ss ws ds nd] rq ts nt rs nw]. unfold fresh_ids. cbn.
  intros Hfresh Hresp Hst.
  unfold deliverWebhook. cbn. unfold request_of in Hresp. cbn in Hresp.
  rewrite Hresp. unfold axios_post.
  destruct (Z.ltb_spec status 500) as [_|]; [|lia].
  unfold updateDeliveryStatus, is_2xx. cbn.
  destruct (Z.leb_spec 200 status); [|lia].
  destruct (Z.ltb_spec status 300); [|lia].
  cbn. rewrite Nat.eqb_refl, update_fresh_row by exact Hfresh.
  repeat split.
Qed.

End RetryChainEnd.

Section FanOut.
Import DatabaseService WebhookService.

Variable endpoint : nat -> HttpRequest -> PostResult.
Variable JSON_stringify : string -> Z -> string -> string.


Lemma fresh_after_deliver (webhookId url event payload : string)
    (secret : option string) (s : State) :
  fresh_ids (db s) ->
  fresh_ids (db (deliverWebhook endpoint JSON_stringify webhookId url event
                   payload secret s)).
Proof.
  intros Hfresh.
  destruct (deliver_effect endpoint JSON_stringify webhookId url event payload
              secret s Hfresh) as (row & Hd & Hid & _ & _ & Hn & _).
  unfold fresh_ids. rewrite Hd, Hn. constructor; [lia|].
  eapply List.Forall_impl; [|exact Hfresh]. cbn. intros. lia.
Qed.

(** The loop of [sendWebhook] over the webhooks it selected. *)
Lemma deliver_all (event payload : string) (targets : list Webhook) (s : State) :
  fresh_ids (db s) ->
  let s' :=
    fold_left
      (fun s' webhook =>
         deliverWebhook endpoint JSON_stringify (wh_id webhook) (wh_url webhook)
                        event payload (wh_secret webhook) s')
      targets s in
  exists reqs rows,
    requests s' = requests s ++ reqs
    /\ map req_webhookId reqs = map wh_id targets
    /\ map req_url reqs = map wh_url targets
    /\ Forall (fun r => req_event r = event) reqs
    /\ deliveries (db s') = rows ++ deliveries (db s)
    /\ map wd_webhookId rows = rev (map wh_id targets)
    /\ Forall (fun r => wd_event r = event) rows.
Proof.
  revert s. induction targets as [|w targets IH]; intros s Hfresh; cbn [fold_left].
  - exists [], []. rewrite app_nil_r. repeat split; constructor.
  - destruct (deliver_effect endpoint JSON_stringify (wh_id w) (wh_url w) event
                payload (wh_secret w) s Hfresh)
      as (row & Hd & _ & Hwid & Hev & _ & Hreq).
    destruct (IH _ (fresh_after_deliver (wh_id w) (wh_url w) event payload
                      (wh_secret w) s Hfresh))
      as (reqs & rows & Hreqs & Hids & Hurls & Hevs & Hrows & Hrids & Hrevs).
    eexists (_ :: reqs), (rows ++ [row]).
    rewrite Hreqs, Hreq, Hrows, Hd, <- !app_assoc.
    split; [reflexivity|]. cbn [map req_webhookId req_url request_of].
    split; [f_equal; exact Hids|]. split; [f_equal; exact Hurls|].
    split; [constructor; [reflexivity|exact Hevs]|].
    split; [reflexivity|].
    split; [rewrite map_app, Hrids; cbn; rewrite Hwid; reflexivity|].
    apply Forall_app. split; [exact Hrevs|]. constructor; [exact Hev|constructor].
Qed.



End FanOut.

(** ** The session registry *)

Section Registry.
Import WhatsAppService.

Lemma sessions_set_status sid st sv sid' :
  sessions (set_status sid st sv) !! sid' =
  if decide (sid = sid') then
    (fun s => mkSession (ws_id s) (ws_socket s) st (ws_qrCode s) (ws_pairingCode s)
                (ws_phoneNumber s) (ws_name s) (ws_lastSeen s)) <$> sessions sv !! sid'
  else sessions sv !! sid'.
Proof.
  unfold set_status. cbn [sessions]. rewrite lookup_alter.
  destruct (decide (sid = sid')) as [->|]; reflexivity.
Qed.

Lemma sessions_updateSessionInDatabase sid data sv :
  sessions (updateSessionInDatabase sid data sv) = sessions sv.
Proof.
  unfold updateSessionInDatabase.
  destruct (DatabaseService.updateSession sid data (db sv)); reflexivity.
Qed.

Lemma sessions_emitSessionUpdate sid sv :
  sessions (emitSessionUpdate sid sv) = sessions sv.
Proof. unfold emitSessionUpdate. destruct (sessions sv !! sid); reflexivity. Qed.

Lemma db_emitSessionUpdate sid sv : db (emitSessionUpdate sid sv) = db sv.
Proof. unfold emitSessionUpdate. destruct (sessions sv !! sid); reflexivity. Qed.

(** Creating a session whose initialisation throws. *)
Lemma createSession_init_throws sid uid pairing e sv :
  sessions sv !! sid = None ->
  DatabaseService.getSession sid (db sv) = None ->
  exists sv',
    createSession sid uid pairing (InitThrows e) sv = (sv', inl e)
    /\ sessions sv' !! sid =
         Some (mkSession sid None ERROR None None None None (Some (now sv)))
    /\ DatabaseService.getSession sid (db sv') =
         Some (DatabaseService.mkSessionRow sid uid (Some ERROR) None None None
                 None None true).
Proof.
  intros Hlive Hrow. unfold createSession. rewrite Hlive.
  unfold DatabaseService.createSession, DatabaseService.getSession in *.
  rewrite Hrow. unfold initializeWhatsAppConnection, initialize_body.
  cbn [sessions]. rewrite lookup_insert_eq.
  eexists. split; [reflexivity|].
  rewrite sessions_emitSessionUpdate, sessions_updateSessionInDatabase,
          db_emitSessionUpdate.
  split.
  - rewrite sessions_set_status. rewrite decide_True by reflexivity.
    cbn [sessions]. rewrite lookup_insert_eq. reflexivity.
  - unfold updateSessionInDatabase, DatabaseService.updateSession. cbn.
    rewrite lookup_insert_eq. cbn. rewrite lookup_insert_eq. reflexivity.
Qed.

(** Creating a session whose initialisation goes through. *)
Lemma createSession_init_ok sid uid pairing registered sv :
  sessions sv !! sid = None ->
  DatabaseService.getSession sid (db sv) = None ->
  exists sv' session,
    createSession sid uid pairing (InitSocket registered) sv = (sv', inr session)
    /\ sessions sv' !! sid = Some session
    /\ ws_status session =
         (if pairing && negb registered then PAIRING_REQUIRED else CONNECTING)
    /\ is_Some (ws_socket session)
    /\ is_Some (DatabaseService.getSession sid (db sv')).
Proof.
  intros Hlive Hrow. unfold createSession. rewrite Hlive.
  unfold DatabaseService.createSession, DatabaseService.getSession in *.
  rewrite Hrow. unfold initializeWhatsAppConnection, initialize_body.
  cbn [sessions]. rewrite lookup_insert_eq.
  destruct (pairing && negb registered); cbn [fst snd];
    eexists _, _; (split; [reflexivity|]).
  - rewrite !sessions_emitSessionUpdate, !sessions_updateSessionInDatabase.
    rewrite db_emitSessionUpdate.
    rewrite sessions_set_status, decide_True by reflexivity.
    unfold modify. cbn [sessions with_sessions].
    rewrite lookup_alter_eq, lookup_insert_eq. cbn.
    split; [reflexivity|]. split; [reflexivity|]. split; [eauto|].
    unfold updateSessionInDatabase, DatabaseService.updateSession. cbn.
    rewrite lookup_insert_eq. cbn. rewrite lookup_insert_eq. eauto.
  - unfold modify. cbn [sessions with_sessions].
    rewrite lookup_alter_eq, lookup_insert_eq. cbn.
    split; [reflexivity|]. split; [reflexivity|]. split; [eauto|].
    rewrite lookup_insert_eq. eauto.
Qed.

Lemma createSession_registered sid uid pairing init sv :
  is_Some (sessions sv !! sid) ->
  createSession sid uid pairing init sv = (sv, inl (JsError "Session already exists")).
Proof. intros [s Hs]. unfold createSession. rewrite Hs. reflexivity. Qed.

Lemma POST_sessions_stored sid uid pairing init sv :
  is_Some (DatabaseService.getSession sid (db sv)) ->
  POST_sessions sid uid pairing init sv =
  (sv, Json 400 false (Some "Session already exists")).
Proof. intros [r Hr]. unfold POST_sessions. rewrite Hr. reflexivity. Qed.

End Registry.

(** Every operation works on one session and leaves the others alone. *)

Section Locality.
Import WhatsAppService.

Variable P : SessionStatus -> Prop.

Lemma touches_refl sid sv : touches P sid sv sv.
Proof.
  repeat split; try (exists []; rewrite app_nil_r; split; [reflexivity|constructor]).
Qed.

Lemma touches_trans sid sv1 sv2 sv3 :
  touches P sid sv1 sv2 -> touches P sid sv2 sv3 -> touches P sid sv1 sv3.
Proof.
  intros (Hs & Hd & (h & Hh & Hhp) & (e & He & Hep))
         (Hs' & Hd' & (h' & Hh' & Hhp') & (e' & He' & Hep')).
  split; [intros k Hk; rewrite Hs', Hs by exact Hk; reflexivity|].
  split; [intros k Hk; rewrite Hd', Hd by exact Hk; reflexivity|].
  split.
  - exists (h ++ h'). rewrite Hh', Hh, app_assoc. split; [reflexivity|].
    apply Forall_app; split; assumption.
  - exists (e ++ e'). rewrite He', He, app_assoc. split; [reflexivity|].
    apply Forall_app; split; assumption.
Qed.

Lemma touches_set_status sid status sv :
  P status -> touches P sid sv (set_status sid status sv).
Proof.
  intros HP. unfold set_status. repeat split; cbn.
  - intros k Hk. apply lookup_alter_ne. congruence.
  - exists [(sid, status)]. split; [reflexivity|]. repeat constructor. exact HP.
  - exists []. rewrite app_nil_r. split; [reflexivity|constructor].
Qed.

Lemma touches_modify sid f sv : touches P sid sv (modify sid f sv).
Proof.
  unfold modify. repeat split; cbn;
    try (exists []; rewrite app_nil_r; split; [reflexivity|constructor]).
  intros k Hk. apply lookup_alter_ne. congruence.
Qed.

Lemma touches_updateSessionInDatabase sid data sv :
  touches P sid sv (updateSessionInDatabase sid data sv).
Proof.
  unfold updateSessionInDatabase, DatabaseService.updateSession.
  destruct (DatabaseService.sessions (db sv) !! sid); [|apply touches_refl].
  repeat split; cbn;
    try (exists []; rewrite app_nil_r; split; [reflexivity|constructor]).
  intros k Hk. apply lookup_insert_ne. congruence.
Qed.

Lemma touches_emitSessionUpdate sid sv :
  touches P sid sv (emitSessionUpdate sid sv).
Proof.
  unfold emitSessionUpdate. destruct (sessions sv !! sid); [|apply touches_refl].
  repeat split; cbn;
    try (exists []; rewrite app_nil_r; split; [reflexivity|constructor]).
  eexists [_]. split; [reflexivity|]. repeat constructor.
Qed.

Lemma touches_with_reconnects sid l sv : touches P sid sv (with_reconnects l sv).
Proof.
  repeat split; cbn;
    try (exists []; rewrite app_nil_r; split; [reflexivity|constructor]).
Qed.

Lemma touches_socket_opened sid sv :
  touches P sid sv
    (mkService (sessions sv) (db sv) (reconnects sv) (emitted sv) (history sv)
               (S (sockets_opened sv)) (sockets_ended sv) (now sv)).
Proof.
  repeat split; cbn;
    try (exists []; rewrite app_nil_r; split; [reflexivity|constructor]).
Qed.

End Locality.

Lemma touches_weaken (P Q : SessionStatus -> Prop) sid sv sv' :
  (forall s, P s -> Q s) -> touches P sid sv sv' -> touches Q sid sv sv'.
Proof.
  intros HPQ (Hs & Hd & (h & Hh & Hhp) & He).
  repeat split; try assumption.
  exists h. split; [exact Hh|]. eapply List.Forall_impl; [|exact Hhp].
  cbn. intros p [? ?]. auto.
Qed.

Section Operations.
Import WhatsAppService.

Variable loggedOut : Z.
Variable QRCode_toDataURL : string -> Exn + string.

Lemma touches_handleConnectionUpdate sid update user sv :
  touches not_pairing sid sv
    (handleConnectionUpdate loggedOut QRCode_toDataURL sid update user sv).
Proof.
  unfold handleConnectionUpdate.
  destruct (sessions sv !! sid); [|apply touches_refl].
  set (sv1 := match qr update with Some _ => _ | None => _ end).
  assert (H1 : touches not_pairing sid sv sv1).
  { subst sv1. destruct (qr update) as [q|]; [|apply touches_refl].
    destruct (String.eqb q ""); [apply touches_refl|].
    destruct (QRCode_toDataURL q); [apply touches_refl|].
    eapply touches_trans; [|apply touches_emitSessionUpdate].
    eapply touches_trans; [|apply touches_updateSessionInDatabase].
    eapply touches_trans; [|apply touches_set_status; discriminate].
    apply touches_modify. }
  destruct (connection update) as [[| |]|]; try exact H1.
  - eapply touches_trans; [exact H1|].
    eapply touches_trans; [|apply touches_emitSessionUpdate].
    eapply touches_trans; [|apply touches_updateSessionInDatabase].
    eapply touches_trans; [|apply touches_modify].
    apply touches_set_status. discriminate.
  - eapply touches_trans; [exact H1|].
    destruct (shouldReconnect loggedOut update).
    + eapply touches_trans; [|apply touches_with_reconnects].
      eapply touches_trans; [|apply touches_emitSessionUpdate].
      eapply touches_trans; [|apply touches_updateSessionInDatabase].
      apply touches_set_status. discriminate.
    + eapply touches_trans; [|apply touches_emitSessionUpdate].
      eapply touches_trans; [|apply touches_updateSessionInDatabase].
      apply touches_set_status. discriminate.
Qed.

Lemma touches_initialize sid pairing init sv :
  touches (fun s => pairing = false -> s <> PAIRING_REQUIRED) sid sv
    (fst (initializeWhatsAppConnection sid pairing init sv)).
Proof.
  unfold initializeWhatsAppConnection, initialize_body.
  destruct init as [e|registered].
  - destruct (sessions sv !! sid); [|apply touches_refl]. cbn [fst].
    eapply touches_trans; [|apply touches_emitSessionUpdate].
    eapply touches_trans; [|apply touches_updateSessionInDatabase].
    apply touches_set_status. discriminate.
  - cbn [sessions]. destruct (sessions sv !! sid) eqn:Hs.
    + destruct (pairing && negb registered) eqn:Hp; cbn [fst].
      * eapply touches_trans; [|apply touches_emitSessionUpdate].
        eapply touches_trans; [|apply touches_updateSessionInDatabase].
        eapply touches_trans;
          [|apply touches_set_status; intros ->; discriminate Hp].
        eapply touches_trans; [|apply touches_modify].
        apply touches_socket_opened.
      * eapply touches_trans; [|apply touches_modify].
        apply touches_socket_opened.
    + cbn [sessions]. rewrite Hs. cbn [fst]. apply touches_socket_opened.
Qed.

Lemma touches_requestPairingCode sid phone answer sv :
  touches not_pairing sid sv (fst (requestPairingCode sid phone answer sv)).
Proof.
  unfold requestPairingCode.
  destruct (sessions sv !! sid ≫= ws_socket); [|apply touches_refl].
  destruct answer; [apply touches_refl|]. cbn [fst].
  eapply touches_trans; [|apply touches_emitSessionUpdate].
  eapply touches_trans; [|apply touches_updateSessionInDatabase].
  apply touches_modify.
Qed.

Lemma touches_deleteSession sid sv :
  touches not_pairing sid sv (fst (deleteSession sid sv)).
Proof.
  unfold deleteSession, DatabaseService.deleteSession, DatabaseService.updateSession.
  cbn [db].
  destruct (DatabaseService.sessions (db sv) !! sid); cbn [fst];
    repeat split; cbn;
    try (exists []; rewrite app_nil_r; split; [reflexivity|constructor]);
    try (intros k Hk; apply lookup_delete_ne; congruence).
  intros k Hk. apply lookup_insert_ne. congruence.
Qed.

Lemma touches_createSession sid uid pairing init sv :
  touches (fun _ => True) sid sv (fst (createSession sid uid pairing init sv)).
Proof.
  unfold createSession.
  destruct (sessions sv !! sid); [apply touches_refl|].
  unfold DatabaseService.createSession.
  destruct (DatabaseService.sessions (db sv) !! sid); [apply touches_refl|].
  set (sv1 := mkService _ _ _ _ _ _ _ _).
  assert (H1 : touches (fun _ => True) sid sv sv1).
  { subst sv1. repeat split; cbn.
    - intros k Hk. apply lookup_insert_ne. congruence.
    - intros k Hk. apply lookup_insert_ne. congruence.
    - eexists [_]. split; [reflexivity|]. repeat constructor.
    - exists []. rewrite app_nil_r. split; [reflexivity|constructor]. }
  pose proof (touches_initialize sid pairing init sv1) as H2.
  destruct (initializeWhatsAppConnection sid pairing init sv1) as [sv2 [e|[]]];
    cbn [fst] in *;
    (eapply touches_trans; [exact H1|]);
    (eapply touches_weaken; [|exact H2]); auto.
Qed.

End Operations.

(** What a delete leaves of the session. *)

Section AfterDelete.
Import WhatsAppService.

Lemma filter_none {A : Type} (p : A -> bool) (l : list A) :
  Forall (fun x => p x = false) l -> List.filter p l = [].
Proof.
  induction 1 as [|x l Hx _ IH]; simpl; [reflexivity|]. rewrite Hx. exact IH.
Qed.

Lemma deleteSession_effect sid sv :
  let sv' := fst (deleteSession sid sv) in
  sessions sv' !! sid = None
  /\ reconnects sv' = reconnects sv
  /\ history sv' = history sv
  /\ emitted sv' = emitted sv
  /\ DatabaseService.row_status <$> DatabaseService.sessions (db sv') !! sid
     = DatabaseService.row_status <$> DatabaseService.sessions (db sv) !! sid.
Proof.
  unfold deleteSession, DatabaseService.deleteSession, DatabaseService.updateSession.
  cbn [db].
  destruct (DatabaseService.sessions (db sv) !! sid) as [r|] eqn:Hr; cbn;
    rewrite ?lookup_insert_eq, ?Hr, lookup_delete_eq; repeat split.
Qed.

End AfterDelete.

Section PairedLists.

Lemma paired_tail x h : paired (x :: h) -> paired h.
Proof. destruct x as [s []]; cbn; tauto. Qed.

Lemma paired_other s status h :
  status <> PAIRING_REQUIRED -> paired h -> paired ((s, status) :: h).
Proof. destruct status; cbn; intros Hne Hh; try exact Hh. contradiction. Qed.

Lemma paired_added (added h : list (string * SessionStatus)) :
  Forall (fun p => snd p <> PAIRING_REQUIRED) added ->
  paired (rev h) -> paired (rev (h ++ added)).
Proof.
  intros Hadded. revert h.
  induction Hadded as [|[s status] added Hx _ IH]; intros h Hh.
  - rewrite app_nil_r. exact Hh.
  - change (h ++ (s, status) :: added) with (h ++ [(s, status)] ++ added).
    rewrite app_assoc. apply IH. rewrite rev_unit. apply paired_other; assumption.
Qed.

(** Read per session: newest first, then oldest first. *)
Lemma paired_newest_first sid (r : list (string * SessionStatus)) x a y :
  paired r ->
  map snd (List.filter (fun p => String.eqb (fst p) sid) r)
    = x ++ PAIRING_REQUIRED :: a :: y ->
  a = CONNECTING.
Proof.
  revert x. induction r as [|[s status] r IH]; intros x Hp Heq.
  - destruct x; discriminate Heq.
  - cbn [List.filter fst] in Heq.
    destruct (String.eqb_spec s sid) as [->|Hne];
      [|eapply IH; [eapply paired_tail, Hp|exact Heq]].
    cbn [map snd] in Heq. destruct x as [|x0 x].
    + injection Heq as -> Heq. cbn in Hp. destruct Hp as [Hr _].
      destruct r as [|[s' status'] r]; [contradiction|].
      destruct status'; try contradiction. subst s'.
      cbn in Heq. rewrite String.eqb_refl in Heq. cbn in Heq. congruence.
    + injection Heq as _ Heq. eapply IH; [eapply paired_tail, Hp|exact Heq].
Qed.

Lemma paired_statuses sid (h : list (string * SessionStatus)) pre a post :
  paired (rev h) ->
  map snd (List.filter (fun p => String.eqb (fst p) sid) h)
    = pre ++ a :: PAIRING_REQUIRED :: post ->
  a = CONNECTING.
Proof.
  intros Hp Heq.
  apply (paired_newest_first sid (rev h) (rev post) a (rev pre) Hp).
  rewrite List.filter_rev, map_rev, Heq, rev_app_distr. cbn.
  rewrite <- !app_assoc. reflexivity.
Qed.

End PairedLists.

Section Pairing.
Import WhatsAppService.

Variable loggedOut : Z.
Variable QRCode_toDataURL : string -> Exn + string.

Lemma paired_touches sid sv sv' :
  touches not_pairing sid sv sv' ->
  paired (rev (history sv)) -> paired (rev (history sv')).
Proof.
  intros (_ & _ & (h & -> & Hh) & _). apply paired_added.
  eapply List.Forall_impl; [|exact Hh]. cbn. intros p [_ Hp]. exact Hp.
Qed.

Lemma history_emitSessionUpdate sid sv :
  history (emitSessionUpdate sid sv) = history sv.
Proof. unfold emitSessionUpdate. destruct (sessions sv !! sid); reflexivity. Qed.

Lemma history_updateSessionInDatabase sid data sv :
  history (updateSessionInDatabase sid data sv) = history sv.
Proof.
  unfold updateSessionInDatabase.
  destruct (DatabaseService.updateSession sid data (db sv)); reflexivity.
Qed.

Lemma paired_createSession sid uid pairing init sv :
  paired (rev (history sv)) ->
  paired (rev (history (fst (createSession sid uid pairing init sv)))).
Proof.
  intros Hp. unfold createSession.
  destruct (sessions sv !! sid); [exact Hp|].
  destruct (DatabaseService.createSession sid uid (db sv)); [exact Hp|].
  unfold initializeWhatsAppConnection, initialize_body.
  destruct init as [e|registered]; cbn [sessions]; rewrite lookup_insert_eq.
  - cbn [fst]. rewrite history_emitSessionUpdate, history_updateSessionInDatabase.
    cbn [history set_status]. rewrite !rev_unit. cbn. exact Hp.
  - destruct (pairing && negb registered); cbn [fst].
    + rewrite history_emitSessionUpdate, history_updateSessionInDatabase.
      cbn [history set_status modify with_sessions]. rewrite !rev_unit. cbn.
      split; [reflexivity|exact Hp].
    + cbn [history modify with_sessions]. rewrite rev_unit. cbn. exact Hp.
Qed.

Lemma paired_step sv a :
  paired (rev (history sv)) ->
  paired (rev (history (step loggedOut QRCode_toDataURL sv a))).
Proof.
  intros Hp. destruct a as [s u p i|s upd usr|n i|s|s ph ans]; cbn [step].
  - apply paired_createSession, Hp.
  - eapply paired_touches; [apply touches_handleConnectionUpdate|exact Hp].
  - unfold fire_reconnect. destruct (reconnects sv !! n) as [s|]; [|exact Hp].
    eapply (paired_touches s); [|exact Hp].
    eapply touches_trans; [apply touches_with_reconnects|].
    eapply touches_weaken; [|apply touches_initialize].
    intros status H. apply H. reflexivity.
  - eapply paired_touches; [apply touches_deleteSession|exact Hp].
  - eapply paired_touches; [apply touches_requestPairingCode|exact Hp].
Qed.

Lemma paired_run acts sv :
  paired (rev (history sv)) ->
  paired (rev (history (run loggedOut QRCode_toDataURL acts sv))).
Proof.
  revert sv. induction acts as [|a acts IH]; intros sv Hp; cbn; [exact Hp|].
  apply IH, paired_step, Hp.
Qed.

End Pairing.

(** The effect of an operation on the live object of its session. *)

Section LiveObject.
Import WhatsAppService.

Variable loggedOut : Z.
Variable QRCode_toDataURL : string -> Exn + string.

Lemma acts_as_refl sid sv : acts_as sid (fun s => s) sv sv.
Proof. unfold acts_as. destruct (sessions sv !! sid); reflexivity. Qed.

Lemma acts_as_set_status sid status f sv sv' :
  acts_as sid f sv sv' ->
  acts_as sid
    (fun s => mkSession (ws_id (f s)) (ws_socket (f s)) status (ws_qrCode (f s))
                (ws_pairingCode (f s)) (ws_phoneNumber (f s)) (ws_name (f s))
                (ws_lastSeen (f s)))
    sv (set_status sid status sv').
Proof.
  unfold acts_as. intros H. rewrite sessions_set_status, decide_True by reflexivity.
  rewrite H. destruct (sessions sv !! sid); reflexivity.
Qed.

Lemma acts_as_modify sid g f sv sv' :
  acts_as sid f sv sv' -> acts_as sid (fun s => g (f s)) sv (modify sid g sv').
Proof.
  unfold acts_as, modify. intros H. cbn [sessions with_sessions].
  rewrite lookup_alter_eq, H. destruct (sessions sv !! sid); reflexivity.
Qed.

Lemma acts_as_updateSessionInDatabase sid data f sv sv' :
  acts_as sid f sv sv' -> acts_as sid f sv (updateSessionInDatabase sid data sv').
Proof. unfold acts_as. rewrite sessions_updateSessionInDatabase. auto. Qed.

Lemma acts_as_emitSessionUpdate sid f sv sv' :
  acts_as sid f sv sv' -> acts_as sid f sv (emitSessionUpdate sid sv').
Proof. unfold acts_as. rewrite sessions_emitSessionUpdate. auto. Qed.

Lemma acts_as_with_reconnects sid l f sv sv' :
  acts_as sid f sv sv' -> acts_as sid f sv (with_reconnects l sv').
Proof. unfold acts_as. auto. Qed.

Ltac live_object :=
  repeat first
    [ apply acts_as_emitSessionUpdate
    | apply acts_as_updateSessionInDatabase
    | apply acts_as_with_reconnects
    | apply acts_as_set_status
    | apply acts_as_modify
    | apply acts_as_refl ].

(** The connection-open transition. *)
Lemma open_transition sid update user sv s :
  sessions sv !! sid = Some s ->
  connection update = Some conn_open ->
  exists s',
    sessions (handleConnectionUpdate loggedOut QRCode_toDataURL sid update user sv)
      !! sid = Some s'
    /\ ws_status s' = CONNECTED
    /\ ws_qrCode s' = None
    /\ ws_pairingCode s' = None
    /\ (forall u, is_Some (ws_socket s) -> user = Some u ->
          ws_phoneNumber s' = Some (before_colon (user_id u))
          /\ ws_name s' = user_name u).
Proof.
  intros Hs Hopen. unfold handleConnectionUpdate. rewrite Hs, Hopen.
  set (sv1 := match qr update with Some _ => _ | None => _ end).
  assert (H1 : exists f, acts_as sid f sv sv1 /\ forall x, ws_socket (f x) = ws_socket x).
  { subst sv1. destruct (qr update) as [q|]; [|eexists; split; [apply acts_as_refl|reflexivity]].
    destruct (String.eqb q ""); [eexists; split; [apply acts_as_refl|reflexivity]|].
    destruct (QRCode_toDataURL q); [eexists; split; [apply acts_as_refl|reflexivity]|].
    eexists. split; [live_object|reflexivity]. }
  destruct H1 as (f & Hf & Hsock).
  match goal with
  | |- exists s', sessions ?X !! sid = Some s' /\ _ =>
      eassert (Hlive : acts_as sid _ sv X) by (live_object; exact Hf)
  end.
  unfold acts_as in Hlive. rewrite Hlive, Hs.
  eexists. split; [reflexivity|]. cbn. rewrite Hsock. repeat split.
  - destruct H as [k ->]. subst user. reflexivity.
  - destruct H as [k ->]. subst user. reflexivity.
Qed.

(** The QR transition. *)
Lemma qr_transition sid update user sv s q url :
  sessions sv !! sid = Some s ->
  qr update = Some q -> q <> "" -> QRCode_toDataURL q = inr url ->
  connection update = None ->
  exists s',
    sessions (handleConnectionUpdate loggedOut QRCode_toDataURL sid update user sv)
      !! sid = Some s'
    /\ ws_status s' = QR_REQUIRED
    /\ ws_qrCode s' = Some url
    /\ ws_socket s' = ws_socket s.
Proof.
  intros Hs Hq Hne Hurl Hconn. unfold handleConnectionUpdate.
  rewrite Hs, Hq, Hurl, Hconn. apply String.eqb_neq in Hne. rewrite Hne.
  match goal with
  | |- exists s', sessions ?X !! sid = Some s' /\ _ =>
      eassert (Hlive : acts_as sid _ sv X) by live_object
  end.
  unfold acts_as in Hlive. rewrite Hlive, Hs.
  eexists. split; [reflexivity|]. repeat split.
Qed.

(** A pairing code is stored whatever the status of the session. *)
Lemma pairing_stored sid phone code sv s :
  sessions sv !! sid = Some s ->
  is_Some (ws_socket s) ->
  exists s',
    sessions (fst (requestPairingCode sid phone (inr code) sv)) !! sid = Some s'
    /\ snd (requestPairingCode sid phone (inr code) sv) = inr code
    /\ ws_status s' = ws_status s
    /\ ws_pairingCode s' = Some code
    /\ ws_phoneNumber s' = Some phone.
Proof.
  intros Hs [k Hk]. unfold requestPairingCode. rewrite Hs. cbn [mbind option_bind].
  rewrite Hk. cbn [fst snd].
  match goal with
  | |- exists s', sessions ?X !! sid = Some s' /\ _ =>
      eassert (Hlive : acts_as sid _ sv X) by live_object
  end.
  unfold acts_as in Hlive. rewrite Hlive, Hs.
  eexists. split; [reflexivity|]. repeat split.
Qed.

Ltac at_target Hk Hs Hok :=
  match type of Hk with
  | sessions ?X !! ?sid = Some _ =>
      eassert (Hlive : acts_as sid _ _ X) by live_object;
      unfold acts_as in Hlive; rewrite Hlive, Hs in Hk;
      injection Hk as <-;
      destruct (Hok _ _ Hs) as [Hq Hc];
      split; cbn; intros; try discriminate; try (eexists; reflexivity); eauto
  end.

Lemma registry_ok_elsewhere P sid sv sv' :
  touches P sid sv sv' -> registry_ok sv ->
  forall k s, k <> sid -> sessions sv' !! k = Some s -> session_ok s.
Proof. intros (Hs & _) Hok k s Hk H. rewrite Hs in H by exact Hk. eauto. Qed.

Lemma registry_ok_handleConnectionUpdate sid update user sv :
  registry_ok sv ->
  registry_ok (handleConnectionUpdate loggedOut QRCode_toDataURL sid update user sv).
Proof.
  intros Hok k s' Hk. destruct (decide (k = sid)) as [->|Hne];
    [|eapply registry_ok_elsewhere;
      [apply touches_handleConnectionUpdate|exact Hok|exact Hne|exact Hk]].
  unfold handleConnectionUpdate in Hk.
  destruct (sessions sv !! sid) as [s|] eqn:Hs; [|rewrite Hs in Hk; discriminate].
  destruct (qr update) as [q|];
    [destruct (String.eqb q ""); [|destruct (QRCode_toDataURL q)]|];
    (destruct (connection update) as [[| |]|];
     [|destruct (shouldReconnect loggedOut update)| |]);
    at_target Hk Hs Hok.
Qed.

Lemma registry_ok_initialize sid init sv :
  registry_ok sv ->
  registry_ok (fst (initializeWhatsAppConnection sid false init sv)).
Proof.
  intros Hok k s' Hk. destruct (decide (k = sid)) as [->|Hne];
    [|eapply registry_ok_elsewhere;
      [apply touches_initialize|exact Hok|exact Hne|exact Hk]].
  unfold initializeWhatsAppConnection, initialize_body in Hk.
  destruct init as [e|registered]; cbn [sessions] in Hk;
    destruct (sessions sv !! sid) as [s|] eqn:Hs; cbn [sessions andb fst] in Hk;
    rewrite ?Hs in Hk; cbn [fst sessions] in Hk; rewrite ?Hs in Hk;
    try discriminate Hk.
  - at_target Hk Hs Hok.
  - unfold modify in Hk. cbn [sessions with_sessions] in Hk.
    rewrite lookup_alter_eq, Hs in Hk. injection Hk as <-.
    destruct (Hok _ _ Hs) as [Hq Hc]. split; cbn; auto.
Qed.

Lemma registry_ok_createSession sid uid pairing init sv :
  registry_ok sv ->
  registry_ok (fst (createSession sid uid pairing init sv)).
Proof.
  intros Hok k s' Hk. destruct (decide (k = sid)) as [->|Hne];
    [|eapply registry_ok_elsewhere;
      [apply touches_createSession|exact Hok|exact Hne|exact Hk]].
  unfold createSession in Hk.
  destruct (sessions sv !! sid) as [s|] eqn:Hs; [cbn in Hk; eapply Hok; exact Hk|].
  destruct (DatabaseService.createSession sid uid (db sv));
    [cbn in Hk; eapply Hok; exact Hk|].
  set (sv1 := mkService _ _ _ _ _ _ _ _) in Hk.
  assert (Hs1 : sessions sv1 !!  sid =
                Some (mkSession sid None CONNECTING None None None None (Some (now sv))))
    by (subst sv1; cbn; apply lookup_insert_eq).
  assert (Hk' : sessions (fst (initializeWhatsAppConnection sid pairing init sv1))
                  !! sid = Some s')
    by (destruct (initializeWhatsAppConnection sid pairing init sv1) as [? [?|[]]];
        exact Hk).
  clear Hk. unfold initializeWhatsAppConnection, initialize_body in Hk'.
  destruct init as [e|registered]; cbn [sessions] in Hk'; rewrite Hs1 in Hk'.
  - cbn [fst] in Hk'.
    match type of Hk' with
    | sessions ?X !! _ = Some _ =>
        eassert (Hlive : acts_as sid _ sv1 X) by live_object
    end.
    unfold acts_as in Hlive. rewrite Hlive, Hs1 in Hk'. injection Hk' as <-.
    split; cbn; intros; discriminate.
  - destruct (pairing && negb registered); cbn [fst] in Hk';
      match type of Hk' with
      | sessions ?X !! _ = Some _ =>
          eassert (Hlive : acts_as sid _ sv1 X)
      end.
    + live_object.
      unfold acts_as; cbn [sessions]. rewrite Hs1. 
      instantiate (1 := fun s => s). reflexivity.
    + unfold acts_as in Hlive. rewrite Hlive, Hs1 in Hk'. injection Hk' as <-.
      split; cbn; intros; discriminate.
    + live_object.
      unfold acts_as; cbn [sessions]. rewrite Hs1.
      instantiate (1 := fun s => s). reflexivity.
    + unfold acts_as in Hlive. rewrite Hlive, Hs1 in Hk'. injection Hk' as <-.
      split; cbn; intros; discriminate.
Qed.

Lemma registry_ok_step sv a :
  registry_ok sv -> registry_ok (step loggedOut QRCode_toDataURL sv a).
Proof.
  intros Hok. destruct a as [s u p i|s upd usr|n i|s|s ph ans]; cbn [step].
  - apply registry_ok_createSession, Hok.
  - apply registry_ok_handleConnectionUpdate, Hok.
  - unfold fire_reconnect. destruct (reconnects sv !! n); [|exact Hok].
    apply registry_ok_initialize. exact Hok.
  - intros k s' Hk. destruct (decide (k = s)) as [->|Hne];
      [|eapply registry_ok_elsewhere;
        [apply touches_deleteSession|exact Hok|exact Hne|exact Hk]].
    unfold deleteSession in Hk.
    destruct (DatabaseService.deleteSession _ _) in Hk; cbn in Hk;
      rewrite lookup_delete_eq in Hk; discriminate.
  - intros k s' Hk. destruct (decide (k = s)) as [->|Hne];
      [|eapply registry_ok_elsewhere;
        [apply touches_requestPairingCode|exact Hok|exact Hne|exact Hk]].
    unfold requestPairingCode in Hk.
    destruct (sessions sv !! s) as [x|] eqn:Hs;
      [|cbn in Hk; rewrite Hs in Hk; discriminate].
    cbn [mbind option_bind] in Hk.
    destruct (ws_socket x); [|cbn in Hk; eapply Hok; exact Hk].
    destruct ans; cbn [fst] in Hk; [eapply Hok; exact Hk|].
    at_target Hk Hs Hok.
Qed.

Lemma registry_ok_run acts sv :
  registry_ok sv -> registry_ok (run loggedOut QRCode_toDataURL acts sv).
Proof.
  revert sv. induction acts as [|a acts IH]; intros sv Hok; cbn; [exact Hok|].
  apply IH, registry_ok_step, Hok.
Qed.

Lemma registry_ok_initial : registry_ok initial.
Proof. intros k s H. cbn in H. rewrite lookup_empty in H. discriminate. Qed.

End LiveObject.

Section Claims.
Import WhatsAppService.

Variable loggedOut : Z.
Variable QRCode_toDataURL : string -> Exn + string.

Lemma statuses_app sid (h added : list (string * SessionStatus)) :
  map snd (List.filter (fun p => String.eqb (fst p) sid) (h ++ added))
  = map snd (List.filter (fun p => String.eqb (fst p) sid) h)
    ++ map snd (List.filter (fun p => String.eqb (fst p) sid) added).
Proof. rewrite List.filter_app, map_app. reflexivity. Qed.

Lemma history_open sid update user sv :
  is_Some (sessions sv !! sid) ->
  connection update = Some conn_open ->
  exists pre,
    statuses sid (handleConnectionUpdate loggedOut QRCode_toDataURL sid update user sv)
    = pre ++ [CONNECTED]
    /\ (qr update = None -> pre = statuses sid sv).
Proof.
  intros [s Hs] Hopen. unfold handleConnectionUpdate, statuses. rewrite Hs, Hopen.
  rewrite history_emitSessionUpdate, history_updateSessionInDatabase.
  cbn [history modify with_sessions set_status].
  rewrite statuses_app. cbn. rewrite String.eqb_refl. cbn.
  eexists. split; [reflexivity|]. intros ->. reflexivity.
Qed.

Lemma history_qr sid update user sv q url :
  is_Some (sessions sv !! sid) ->
  qr update = Some q -> q <> "" -> QRCode_toDataURL q = inr url ->
  connection update = None ->
  statuses sid (handleConnectionUpdate loggedOut QRCode_toDataURL sid update user sv)
  = statuses sid sv ++ [QR_REQUIRED].
Proof.
  intros [s Hs] Hq Hne Hurl Hconn. unfold handleConnectionUpdate, statuses.
  rewrite Hs, Hq, Hurl, Hconn.
  apply String.eqb_neq in Hne. rewrite Hne.
  rewrite history_emitSessionUpdate, history_updateSessionInDatabase.
  cbn [history modify with_sessions set_status].
  rewrite statuses_app. cbn. rewrite String.eqb_refl. reflexivity.
Qed.

(** C7 (as amended): in every run, PAIRING_REQUIRED is only ever entered
    from CONNECTING.  The handler of connection updates has no other rule:
    an open update makes the session CONNECTED and a QR update makes it
    QR_REQUIRED, whatever status it had. *)
Theorem status_steps :
  (forall acts sessionId pre a post,
     statuses sessionId (run loggedOut QRCode_toDataURL acts initial)
       = pre ++ a :: PAIRING_REQUIRED :: post ->
     a = CONNECTING)
  /\ (forall sv sessionId update user,
        is_Some (sessions sv !! sessionId) ->
        connection update = Some conn_open ->
        exists pre,
          statuses sessionId
            (handleConnectionUpdate loggedOut QRCode_toDataURL sessionId update user sv)
          = pre ++ [CONNECTED]
          /\ (qr update = None -> pre = statuses sessionId sv))
  /\ (forall sv sessionId update user q url,
        is_Some (sessions sv !! sessionId) ->
        qr update = Some q -> q <> "" -> QRCode_toDataURL q = inr url ->
        connection update = None ->
        statuses sessionId
          (handleConnectionUpdate loggedOut QRCode_toDataURL sessionId update user sv)
        = statuses sessionId sv ++ [QR_REQUIRED]).
Proof.
  split; [|split].
  - intros acts sid pre a post H. unfold statuses in H.
    exact (paired_statuses sid _ pre a post
             (paired_run loggedOut QRCode_toDataURL acts initial I) H).
  - intros. apply history_open; assumption.
  - intros. eapply history_qr; eassumption.
Qed.

(** C8 (as amended): in every reachable state a session that is QR_REQUIRED
    has a [qrCode] and a session that is CONNECTED has none; every
    connection-open update makes the session CONNECTED, clears [qrCode] and
    [pairingCode] and, when the socket has an identity, takes [phoneNumber]
    and [name] from it; [requestPairingCode] stores the code on any session
    that has a socket and leaves its status as it is; and the scenario of the
    specification runs as described. *)
Theorem qr_fields :
  (forall acts k s,
     sessions (run loggedOut QRCode_toDataURL acts initial) !! k = Some s ->
     (ws_status s = QR_REQUIRED -> is_Some (ws_qrCode s))
     /\ (ws_status s = CONNECTED -> ws_qrCode s = None))
  /\ (forall sv sessionId update user s,
        sessions sv !! sessionId = Some s ->
        connection update = Some conn_open ->
        exists s',
          sessions (handleConnectionUpdate loggedOut QRCode_toDataURL sessionId
                      update user sv) !! sessionId = Some s'
          /\ ws_status s' = CONNECTED
          /\ ws_qrCode s' = None
          /\ ws_pairingCode s' = None
          /\ (forall u, is_Some (ws_socket s) -> user = Some u ->
                ws_phoneNumber s' = Some (before_colon (user_id u))
                /\ ws_name s' = user_name u))
  /\ (forall sv sessionId phoneNumber code s,
        sessions sv !! sessionId = Some s ->
        is_Some (ws_socket s) ->
        exists s',
          sessions (fst (requestPairingCode sessionId phoneNumber (inr code) sv))
            !! sessionId = Some s'
          /\ snd (requestPairingCode sessionId phoneNumber (inr code) sv) = inr code
          /\ ws_status s' = ws_status s
          /\ ws_pairingCode s' = Some code
          /\ ws_phoneNumber s' = Some phoneNumber)
  /\ (forall url,
        QRCode_toDataURL "1@xyz" = inr url ->
        let sv1 :=
          run loggedOut QRCode_toDataURL
            [Create "s1" "u1" false (InitSocket false);
             ConnectionUpdate "s1" (mkUpdate None None (Some "1@xyz")) None]
            initial in
        let sv2 :=
          step loggedOut QRCode_toDataURL sv1
            (ConnectionUpdate "s1" (mkUpdate (Some conn_open) None None)
               (Some (mkContact "15551234567:1@s.whatsapp.net" (Some "Ann")))) in
        (exists s, sessions sv1 !! "s1" = Some s
                   /\ ws_status s = QR_REQUIRED /\ ws_qrCode s = Some url)
        /\ (exists s, sessions sv2 !! "s1" = Some s
                      /\ ws_status s = CONNECTED /\ ws_qrCode s = None
                      /\ ws_pairingCode s = None
                      /\ ws_phoneNumber s = Some "15551234567"
                      /\ ws_name s = Some "Ann")).
Proof.
  split; [|split; [|split]].
  - intros acts k s H.
    exact (registry_ok_run loggedOut QRCode_toDataURL acts initial
             registry_ok_initial k s H).
  - intros. eapply open_transition; eassumption.
  - intros. eapply pairing_stored; eassumption.
  - intros url Hurl. cbn zeta. unfold run. cbn [fold_left step].
    destruct (createSession_init_ok "s1" "u1" false false initial)
      as (sv0 & s0 & Hcreate & Hs0 & _ & Hsock0 & _);
      [apply lookup_empty|apply lookup_empty|].
    rewrite Hcreate. cbn [fst].
    destruct (qr_transition loggedOut QRCode_toDataURL "s1"
                (mkUpdate None None (Some "1@xyz")) None sv0 s0 "1@xyz" url
                Hs0 eq_refl ltac:(discriminate) Hurl eq_refl)
      as (s1 & Hs1 & Hst1 & Hqr1 & Hsock1).
    split; [exists s1; auto|].
    destruct (open_transition loggedOut QRCode_toDataURL "s1"
                (mkUpdate (Some conn_open) None None)
                (Some (mkContact "15551234567:1@s.whatsapp.net" (Some "Ann")))
                _ s1 Hs1 eq_refl)
      as (s2 & Hs2 & Hst2 & Hqr2 & Hpc2 & Huser).
    exists s2. rewrite Hsock1 in Huser.
    destruct (Huser _ Hsock0 eq_refl) as [Hph Hname].
    repeat split; assumption.
Qed.

End Claims.

(** ** Creating a session twice *)

Section TwoCreates.
Import WhatsAppService.

Lemma deleteSession_keeps_row sid sv :
  is_Some (DatabaseService.getSession sid (db sv)) ->
  is_Some (DatabaseService.getSession sid (db (fst (deleteSession sid sv)))).
Proof.
  intros [r Hr]. unfold deleteSession, DatabaseService.deleteSession,
    DatabaseService.updateSession, DatabaseService.getSession in *.
  cbn [db]. rewrite Hr. cbn. rewrite lookup_insert_eq. eauto.
Qed.

(** C9: when connection initialisation throws inside [createSession], the
    error reaches the caller, the session stays in the live map with status
    ERROR, the durable row stays (active, status ERROR), and any later
    [createSession] with the same id fails with 'Session already exists'. *)
Theorem failed_create_stays (sv : Service) (sessionId userId : string)
    (usePairingCode : bool) (e : Exn) :
  sessions sv !! sessionId = None ->
  DatabaseService.getSession sessionId (db sv) = None ->
  exists sv',
    createSession sessionId userId usePairingCode (InitThrows e) sv = (sv', inl e)
    /\ (exists s, sessions sv' !! sessionId = Some s /\ ws_status s = ERROR)
    /\ (exists row,
          DatabaseService.getSession sessionId (db sv') = Some row
          /\ DatabaseService.row_status row = Some ERROR
          /\ DatabaseService.row_isActive row = true)
    /\ (forall userId' usePairingCode' init',
          createSession sessionId userId' usePairingCode' init' sv'
          = (sv', inl (JsError "Session already exists"))).
Proof.
  intros Hlive Hrow.
  destruct (createSession_init_throws sessionId userId usePairingCode e sv Hlive Hrow)
    as (sv' & Hcreate & Hs & Hr).
  exists sv'. split; [exact Hcreate|].
  split; [eexists; split; [exact Hs|reflexivity]|].
  split; [eexists; split; [exact Hr|split; reflexivity]|].
  intros. apply createSession_registered. rewrite Hs. eauto.
Qed.

(** C3 (as amended): for an id that is in neither the live registry nor the
    durable store, the second of two [createSession] calls always fails with
    'Session already exists' and changes nothing, and the first succeeds
    exactly when its connection initialisation does not throw.  The service
    sees the duplicate in the live registry; the handler of
    [POST /api/sessions] sees it in the durable store, and still does once the
    live entry is gone. *)
Theorem duplicate_create (sv : Service) (sessionId userId userId' : string)
    (usePairingCode usePairingCode' : bool) (init init' : InitOutcome) :
  sessions sv !! sessionId = None ->
  DatabaseService.getSession sessionId (db sv) = None ->
  exists sv1 r1,
    createSession sessionId userId usePairingCode init sv = (sv1, r1)
    /\ match init with
       | InitSocket _ => exists session, r1 = inr session
       | InitThrows e => r1 = inl e
       end
    /\ createSession sessionId userId' usePairingCode' init' sv1
       = (sv1, inl (JsError "Session already exists"))
    /\ POST_sessions sessionId userId usePairingCode init sv
       = (sv1, match init with
               | InitSocket _ => Json 201 true None
               | InitThrows e => Thrown e
               end)
    /\ POST_sessions sessionId userId' usePairingCode' init' sv1
       = (sv1, Json 400 false (Some "Session already exists"))
    /\ snd (POST_sessions sessionId userId' usePairingCode' init'
              (fst (deleteSession sessionId sv1)))
       = Json 400 false (Some "Session already exists").
Proof.
  intros Hlive Hrow.
  assert (Hboth : exists sv1 r1,
            createSession sessionId userId usePairingCode init sv = (sv1, r1)
            /\ match init with
               | InitSocket _ => exists session, r1 = inr session
               | InitThrows e => r1 = inl e
               end
            /\ is_Some (sessions sv1 !! sessionId)
            /\ is_Some (DatabaseService.getSession sessionId (db sv1))).
  { destruct init as [e|registered].
    - destruct (createSession_init_throws sessionId userId usePairingCode e sv
                  Hlive Hrow) as (sv' & Hcreate & Hs & Hr).
      exists sv', (inl e). rewrite Hs, Hr. eauto.
    - destruct (createSession_init_ok sessionId userId usePairingCode registered sv
                  Hlive Hrow) as (sv' & s & Hcreate & Hs & _ & _ & Hr).
      exists sv', (inr s). rewrite Hs. eauto. }
  destruct Hboth as (sv1 & r1 & Hcreate & Hr1 & Hs1 & Hd1).
  exists sv1, r1. split; [exact Hcreate|]. split; [exact Hr1|].
  split; [apply createSession_registered, Hs1|].
  split.
  - unfold POST_sessions. rewrite Hrow, Hcreate.
    destruct init as [e|registered]; [rewrite Hr1; reflexivity|].
    destruct Hr1 as [s ->]. reflexivity.
  - split; [apply POST_sessions_stored, Hd1|].
    rewrite POST_sessions_stored; [reflexivity|].
    apply deleteSession_keeps_row, Hd1.
Qed.

End TwoCreates.

(** ** Concrete checks *)

Section Checks.
Import DatabaseService WebhookService.

(** The constants agree with the published ones, and the digests with the
    test vectors of FIPS 180-4 and RFC 4231. *)
Example sha256_abc :
  Crypto.hex_of_bytes (Sha256.sha256 (Crypto.Buffer_from "abc"))
  = "ba7816bf8f01cfea414140de5dae2223b00361a396177a9cb410ff61f20015ad".
Proof. vm_compute. reflexivity. Qed.

Example hmac_rfc4231_case2 :
  createSignature "what do ya want for nothing?" "Jefe"
  = "5bdcc146bf60754e6a042426089575c75a003f089d2739839dec58b964ec3843".
Proof. vm_compute. reflexivity. Qed.

Example hmac_rfc4231_case6 :
  Crypto.hex_of_bytes
    (Crypto.hmac_sha256 (repeat 0xaa 131)
       (Crypto.Buffer_from "Test Using Larger Than Block-Size Key - Hash Key First"))
  = "60e431591ee0b67f0d8a26aacbf5b77f8e0bc6213728c5140546040f0ee37f54".
Proof. vm_compute. reflexivity. Qed.

Example sha256_two_blocks :
  Crypto.hex_of_bytes
    (Sha256.sha256
       (Crypto.Buffer_from "abcdbcdecdefdefgefghfghighijhijkijkljklmklmnlmnomnopnopq"))
  = "248d6a61d20638b8e5c026930c3e6039a33ce45964ff2167f6ecedd419db06c1".
Proof. vm_compute. reflexivity. Qed.

Example verify_signed :
  verifyWebhookSignature "{}" (createSignature "{}" "s3cret") "s3cret" = inr true.
Proof. vm_compute. reflexivity. Qed.

Example verify_forged :
  verifyWebhookSignature "{}"
    "0000000000000000000000000000000000000000000000000000000000000000" "s3cret"
  = inr false.
Proof. vm_compute. reflexivity. Qed.

Example verify_truncated :
  verifyWebhookSignature "{}" "5bdcc146" "s3cret"
  = inl (JsRangeError "Input buffers must have the same byte length").
Proof. vm_compute. reflexivity. Qed.

(** C1, counterexample.  Two messages arrive in a burst while the endpoint
    of webhook "wh1" ([retries = 0], [maxRetries = 3]) is down.  The counter
    is the webhook's: the failures of both deliveries count on it, so the
    first delivery is retried twice, after 1 s and after 4 s more, the
    second once, after 2 s, and then nothing is pending; no delivery gets 3
    retries.  And for a delivery on its own, the record of the first
    attempt (id 0) is still RETRYING when everything is over: the record
    marked FAILED is the one of the fourth attempt. *)
Lemma retry_budget_is_shared :
  webhook_findUnique "wh1" (db (Sample.state 0)) = Some (Sample.hook 0)
  /\ wh_retries (Sample.hook 0) = 0
  /\ wh_maxRetries (Sample.hook 0) = 3
  /\ timers (run_timers Sample.endpoint_down Sample.stringify 6 Sample.burst) = []
  /\ map (fun r => (req_data r, req_timestamp r))
         (List.filter (fun r => String.eqb (req_webhookId r) "wh1")
            (requests (run_timers Sample.endpoint_down Sample.stringify 6
                         Sample.burst)))
     = [("m1", 1000); ("m2", 1000); ("m1", 2000); ("m2", 3000); ("m1", 6000)]
  /\ map (fun r => (wd_id r, wd_status r))
         (deliveries
            (db (chain Sample.endpoint_down Sample.stringify (Sample.state 0)
                   (Sample.hook 0) "message.received" "{}" 3)))
     = [(3%nat, FAILED); (2%nat, RETRYING); (1%nat, RETRYING); (0%nat, RETRYING)].
Proof. vm_compute. repeat split; reflexivity. Qed.

Lemma retry_schedule_witness :
  fresh_ids (db (Sample.state 0))
  /\ webhook_findUnique (wh_id (Sample.hook 0)) (db (Sample.state 0))
     = Some (Sample.hook 0)
  /\ (forall n request, failing (Sample.endpoint_down n request))
  /\ exists reqs rows,
       timers (chain Sample.endpoint_down Sample.stringify (Sample.state 0)
                 (Sample.hook 0) "message.received" "{}" 3) = []
       /\ requests (chain Sample.endpoint_down Sample.stringify (Sample.state 0)
                      (Sample.hook 0) "message.received" "{}" 3)
          = requests (Sample.state 0) ++ reqs
       /\ length reqs = 4%nat
       /\ Forall (to_webhook (Sample.hook 0) "message.received") reqs
       /\ deliveries (db (chain Sample.endpoint_down Sample.stringify
                            (Sample.state 0) (Sample.hook 0) "message.received"
                            "{}" 3))
          = rows ++ deliveries (db (Sample.state 0))
       /\ map wd_status rows = [FAILED; RETRYING; RETRYING; RETRYING].
Proof.
  assert (H1 : fresh_ids (db (Sample.state 0))) by constructor.
  assert (H2 : webhook_findUnique (wh_id (Sample.hook 0)) (db (Sample.state 0))
               = Some (Sample.hook 0)) by reflexivity.
  assert (H3 : forall n request, failing (Sample.endpoint_down n request))
    by (intros; exact I).
  split; [exact H1|]. split; [exact H2|]. split; [exact H3|].
  exact (proj1 (proj2 (proj2
           (retry_schedule Sample.endpoint_down Sample.stringify (Sample.state 0)
              (Sample.hook 0) "message.received" "{}"
              H1 H2 eq_refl eq_refl eq_refl H3)))).
Defined.

Lemma success_marks_delivery_witness :
  fresh_ids (db (Sample.state 2))
  /\ 200 <= 200 < 300
  /\ deliveries
       (db (deliverWebhook Sample.endpoint_up Sample.stringify "wh1"
              "https://example.org/hook" "message.received" "{}" (Some "s3cret")
              (Sample.state 2)))
     = [mkDelivery 0 "wh1" "message.received" "{}" SUCCESS 1 None
          (Some (HttpOutcome 200 "ok"))].
Proof.
  assert (H1 : fresh_ids (db (Sample.state 2))) by constructor.
  assert (H2 : 200 <= 200 < 300) by lia.
  split; [exact H1|]. split; [exact H2|].
  exact (proj1
           (success_marks_delivery Sample.endpoint_up Sample.stringify "wh1"
              "https://example.org/hook" "message.received" "{}" (Some "s3cret")
              (Sample.state 2) 200 "ok" H1 eq_refl H2)).
Defined.

(** C4, counterexample: a webhook that failed twice and is then answered
    200; its delivery is a SUCCESS and its counter is still 2, not 0. *)
Lemma success_keeps_retries :
  map wd_status
    (deliveries
       (db (deliverWebhook Sample.endpoint_up Sample.stringify "wh1"
              "https://example.org/hook" "message.received" "{}" (Some "s3cret")
              (Sample.state 2))))
  = [SUCCESS]
  /\ wh_retries
       <$> webhook_findUnique "wh1"
             (db (deliverWebhook Sample.endpoint_up Sample.stringify "wh1"
                    "https://example.org/hook" "message.received" "{}"
                    (Some "s3cret") (Sample.state 2)))
     = Some 2
  /\ wh_retries
       <$> webhook_findUnique "wh1"
             (db (deliverWebhook Sample.endpoint_up Sample.stringify "wh1"
                    "https://example.org/hook" "message.received" "{}"
                    (Some "s3cret") (Sample.state 2)))
     <> Some 0.
Proof. vm_compute. repeat split. discriminate. Qed.



End Checks.

Section SessionChecks.
Import WhatsAppService.

Lemma failed_create_stays_witness :
  sessions initial !! "s1" = None
  /\ DatabaseService.getSession "s1" (db initial) = None
  /\ exists sv',
       createSession "s1" "u1" false (InitThrows (JsError "EACCES: auth_sessions")) initial
       = (sv', inl (JsError "EACCES: auth_sessions"))
       /\ createSession "s1" "u1" false (InitSocket true) sv'
          = (sv', inl (JsError "Session already exists")).
Proof.
  assert (H1 : sessions initial !! "s1" = None) by reflexivity.
  assert (H2 : DatabaseService.getSession "s1" (db initial) = None) by reflexivity.
  split; [exact H1|]. split; [exact H2|].
  destruct (failed_create_stays initial "s1" "u1" false
              (JsError "EACCES: auth_sessions") H1 H2)
    as (sv' & Hcreate & _ & _ & Hagain).
  exists sv'. split; [exact Hcreate|apply Hagain].
Defined.

Lemma duplicate_create_witness :
  sessions initial !! "s1" = None
  /\ DatabaseService.getSession "s1" (db initial) = None
  /\ exists sv1 session,
       createSession "s1" "u1" false (InitSocket false) initial = (sv1, inr session)
       /\ createSession "s1" "u1" false (InitSocket false) sv1
          = (sv1, inl (JsError "Session already exists")).
Proof.
  assert (H1 : sessions initial !! "s1" = None) by reflexivity.
  assert (H2 : DatabaseService.getSession "s1" (db initial) = None) by reflexivity.
  split; [exact H1|]. split; [exact H2|].
  destruct (duplicate_create initial "s1" "u1" "u1" false false
              (InitSocket false) (InitSocket false) H1 H2)
    as (sv1 & r1 & Hcreate & [session ->] & Hagain & _).
  exists sv1, session. split; [exact Hcreate|exact Hagain].
Defined.

(** C3, counterexample: the first call fails because initialisation throws,
    the second because the failed session is still registered; no call of
    the two succeeds. *)
Lemma duplicate_create_both_fail :
  snd (createSession "s1" "u1" false (InitThrows (JsError "EACCES: auth_sessions"))
         initial)
  = inl (JsError "EACCES: auth_sessions")
  /\ snd (createSession "s1" "u1" false (InitSocket true)
            (fst (createSession "s1" "u1" false
                    (InitThrows (JsError "EACCES: auth_sessions")) initial)))
     = inl (JsError "Session already exists").
Proof. vm_compute. split; reflexivity. Qed.

(** C6, at the failing input: a session is created, its connection closes
    for a reason other than a logout, and it is deleted.  The delete
    succeeds and leaves the reconnect timer pending; when the timer fires a
    new socket is made, the registry has no entry to attach it to, and the
    promise of the callback rejects with the TypeError that nothing
    handles: the process ends. *)
Lemma reconnect_survives_delete :
  snd (deleteSession "s1" Sample.closed) = inr tt
  /\ sessions (fst (deleteSession "s1" Sample.closed)) !! "s1" = None
  /\ reconnects Sample.closed = ["s1"]
  /\ reconnects (fst (deleteSession "s1" Sample.closed)) = ["s1"]
  /\ exists sv',
       reconnect_timer_fires 0 (InitSocket true)
         (fst (deleteSession "s1" Sample.closed))
       = Ended sv'
           (JsTypeError "Cannot set properties of undefined (setting 'socket')")
       /\ sockets_opened sv'
          = S (sockets_opened (fst (deleteSession "s1" Sample.closed)))
       /\ sessions sv' !! "s1" = None.
Proof.
  split; [vm_compute; reflexivity|]. split; [vm_compute; reflexivity|].
  split; [vm_compute; reflexivity|]. split; [vm_compute; reflexivity|].
  eexists. split; [vm_compute; reflexivity|].
  split; vm_compute; reflexivity.
Qed.

(** C7, counterexample: QR_REQUIRED to CONNECTED, CONNECTED to QR_REQUIRED
    and PAIRING_REQUIRED to CONNECTED, each in one step. *)
Lemma connected_without_connecting :
  statuses "s1"
    (run Sample.loggedOut Sample.toDataURL
       [ConnectionUpdate "s1" Sample.qr_update None;
        ConnectionUpdate "s1" Sample.open_update (Some Sample.identity);
        ConnectionUpdate "s1" Sample.qr_update None]
       Sample.created)
  = [CONNECTING; QR_REQUIRED; CONNECTED; QR_REQUIRED]
  /\ statuses "s2"
       (run Sample.loggedOut Sample.toDataURL
          [Create "s2" "u1" true (InitSocket false);
           ConnectionUpdate "s2" Sample.open_update (Some Sample.identity)]
          initial)
     = [CONNECTING; PAIRING_REQUIRED; CONNECTED].
Proof. vm_compute. split; reflexivity. Qed.

(** C8, counterexample: after a QR update and a close the session is
    CONNECTING and still has its [qrCode]; and a pairing code requested while
    the session is CONNECTING is stored all the same. *)
Lemma codes_outlive_status :
  (exists s,
     sessions
       (run Sample.loggedOut Sample.toDataURL
          [ConnectionUpdate "s1" Sample.qr_update None;
           ConnectionUpdate "s1" Sample.close_update None]
          Sample.created) !! "s1" = Some s
     /\ ws_status s = CONNECTING
     /\ ws_qrCode s = Some "data:image/png;base64,1@xyz")
  /\ (exists s,
        sessions
          (run Sample.loggedOut Sample.toDataURL
             [RequestPairingCode "s1" "15551234567" (inr "ABCD-EFGH")]
             Sample.created) !! "s1" = Some s
        /\ ws_status s = CONNECTING
        /\ ws_pairingCode s = Some "ABCD-EFGH").
Proof. split; eexists; vm_compute; repeat split. Qed.

End SessionChecks.

(** * The rest of the services *)

(** ** Retries: the delay, the counter, the manual retry *)

Section RetryDelay.
Import WebhookService.

(** X1: the delay before a retry, for a failure counter [r >= 0]: it lies
    between one second and five minutes, doubles with every failure up to
    the ninth (256 s at [r = 8]), is five minutes from the tenth failure on,
    and never goes down when the counter goes up. *)
Theorem retry_delay_bounds (r : Z) :
  0 <= r ->
  1000 <= calculateRetryDelay r <= 300000
  /\ (r <= 8 -> calculateRetryDelay r = 2 ^ r * 1000)
  /\ (r < 8 -> calculateRetryDelay (r + 1) = 2 * calculateRetryDelay r)
  /\ (9 <= r -> calculateRetryDelay r = 300000)
  /\ (forall r', r <= r' -> calculateRetryDelay r <= calculateRetryDelay r').
Proof.
  intros Hr. unfold calculateRetryDelay.
  assert (Hpos : forall x, 0 <= x -> 1 <= 2 ^ x)
    by (intros x Hx; change 1 with (2 ^ 0); apply Z.pow_le_mono_r; lia).
  assert (Hlow : forall x, 0 <= x -> x <= 8 -> 2 ^ x <= 256)
    by (intros x H0 H8; change 256 with (2 ^ 8); apply Z.pow_le_mono_r; lia).
  assert (Hhigh : forall x, 9 <= x -> 512 <= 2 ^ x)
    by (intros x H9; change 512 with (2 ^ 9); apply Z.pow_le_mono_r; lia).
  pose proof (Hpos r Hr) as H1.
  split; [lia|].
  split; [intros H8; pose proof (Hlow r Hr H8); lia|].
  split.
  - intros H8. pose proof (Hlow r Hr ltac:(lia)). pose proof (Hlow (r + 1) ltac:(lia) ltac:(lia)).
    rewrite Z.pow_add_r by lia. change (2 ^ 1) with 2.
    rewrite Z.pow_add_r in H0 by lia. change (2 ^ 1) with 2 in H0. lia.
  - split; [intros H9; pose proof (Hhigh r H9); lia|].
    intros r' Hle.
    assert (2 ^ r <= 2 ^ r') by (apply Z.pow_le_mono_r; lia). lia.
Qed.

End RetryDelay.

Section TestWebhook.
Import DatabaseService WebhookService.

Variable endpoint : nat -> HttpRequest -> PostResult.
Variable JSON_stringify : string -> Z -> string -> string.
Variable test_data : string -> string.

(** X2: [testWebhook] never throws and keeps no books: the tables, the
    pending timers and [retryQueue] are as before, whatever the endpoint
    does.  For an unknown id it answers [false] without a request; for a
    known webhook it makes one request, for the event [webhook.test] to the
    webhook's URL, and answers [true] exactly when the endpoint responds
    with a 2xx status. *)
Theorem test_webhook_outcome (webhookId : string) (s : State) :
  let s' := fst (testWebhook endpoint JSON_stringify test_data webhookId s) in
  let ok := snd (testWebhook endpoint JSON_stringify test_data webhookId s) in
  db s' = db s /\ timers s' = timers s /\ retryQueue s' = retryQueue s
  /\ match webhook_findUnique webhookId (db s) with
     | None => ok = false /\ requests s' = requests s
     | Some w =>
         exists request,
           requests s' = requests s ++ [request]
           /\ req_webhookId request = webhookId
           /\ req_url request = wh_url w
           /\ req_event request = "webhook.test"
           /\ (ok = true <->
               exists status body,
                 endpoint (length (requests s)) request = Response status body
                 /\ 200 <= status < 300)
     end.
Proof.
  unfold testWebhook.
  destruct (webhook_findUnique webhookId (db s)) as [w|]; [|cbn; auto].
  set (request := mkRequest _ _ _ _ _ _).
  assert (Hshape : req_webhookId request = webhookId /\ req_url request = wh_url w
                   /\ req_event request = "webhook.test") by (repeat split).
  destruct Hshape as (Hid & Hurl & Hev).
  destruct (endpoint (length (requests s)) request) as [m|status body] eqn:He;
    cbn [axios_post].
  - cbn [fst snd db timers retryQueue requests].
    split; [reflexivity|]. split; [reflexivity|]. split; [reflexivity|].
    exists request. split; [reflexivity|]. split; [exact Hid|].
    split; [exact Hurl|]. split; [exact Hev|].
    split; [discriminate|]. intros (status & body & H & _). rewrite He in H. discriminate H.
  - destruct (is_2xx status) eqn:H2;
      cbn [fst snd resp_status db timers retryQueue requests];
      (split; [reflexivity|]); (split; [reflexivity|]); (split; [reflexivity|]);
      exists request; (split; [reflexivity|]); (split; [exact Hid|]);
      (split; [exact Hurl|]); (split; [exact Hev|]).
    + split; [|intros _; exact H2]. intros _. exists status, body.
      split; [exact He|]. unfold is_2xx in H2. lia.
    + split; [discriminate|]. intros (status' & body' & H & Hr).
      rewrite He in H. injection H as <- <-. unfold is_2xx in H2. lia.
Qed.

End TestWebhook.

Section Ledger.
Import DatabaseService WebhookService.

Variable endpoint : nat -> HttpRequest -> PostResult.
Variable JSON_stringify : string -> Z -> string -> string.
Variable test_data : string -> string.
Variable store_order : list WebhookDelivery -> list WebhookDelivery.
Variable createdAt : WebhookDelivery -> Z.

Abbreviation deliver := (deliverWebhook endpoint JSON_stringify).
Abbreviation retryFailed :=
  (retryFailedDeliveries endpoint JSON_stringify store_order).
Abbreviation run_all :=
  (run_ops endpoint JSON_stringify test_data store_order createdAt).

Lemma counts_up_refl (w : Webhook) : counts_up w w.
Proof. unfold counts_up. repeat split; lia. Qed.

Lemma ledger_refl (d : Database) : ledger_grows d d.
Proof.
  unfold ledger_grows. induction (webhooks d); constructor;
    [apply counts_up_refl|assumption].
Qed.

Lemma ledger_same (d d' : Database) : webhooks d' = webhooks d -> ledger_grows d d'.
Proof. unfold ledger_grows. intros ->. apply ledger_refl. Qed.

Lemma ledger_trans (d1 d2 d3 : Database) :
  ledger_grows d1 d2 -> ledger_grows d2 d3 -> ledger_grows d1 d3.
Proof.
  unfold ledger_grows. generalize (webhooks d1) (webhooks d2) (webhooks d3).
  intros l1 l2 l3 H12. revert l3.
  induction H12 as [|w1 w2 l1 l2 Hw _ IH]; intros l3 H23;
    inversion H23 as [|? w3 ? l3' Hw' H23']; subst; constructor; [|auto].
  destruct Hw as (? & ? & ? & ?), Hw' as (? & ? & ? & ?).
  unfold counts_up. repeat split; try congruence. lia.
Qed.

Lemma ledger_update (id : string) (f : Webhook -> Webhook) (d : Database) :
  (forall w, counts_up w (f w)) -> ledger_grows d (webhook_update id f d).
Proof.
  intros Hf. unfold ledger_grows, webhook_update. cbn.
  induction (webhooks d) as [|w l IH]; cbn; constructor; [|exact IH].
  destruct (String.eqb (wh_id w) id); [apply Hf|apply counts_up_refl].
Qed.

Lemma ledger_find (id : string) (d d' : Database) (w : Webhook) :
  ledger_grows d d' -> webhook_findUnique id d = Some w ->
  exists w', webhook_findUnique id d' = Some w' /\ counts_up w w'.
Proof.
  unfold ledger_grows, webhook_findUnique.
  induction 1 as [|x x' l l' Hx _ IH]; cbn; [discriminate|].
  destruct Hx as (Hid & Hx). rewrite Hid.
  destruct (String.eqb (wh_id x) id).
  - intros [= <-]. exists x'. split; [reflexivity|]. split; assumption.
  - exact IH.
Qed.

Lemma exhausted_grows (id : string) (d d' : Database) :
  ledger_grows d d' -> exhausted id d -> exhausted id d'.
Proof.
  intros Hg (w & Hw & Hle).
  destruct (ledger_find id d d' w Hg Hw) as (w' & Hw' & _ & _ & Hmax & Hret).
  exists w'. split; [exact Hw'|]. lia.
Qed.

Lemma quiet_refl id s : quiet id s s.
Proof. split; [apply ledger_refl|auto]. Qed.

Lemma quiet_trans id s1 s2 s3 : quiet id s1 s2 -> quiet id s2 s3 -> quiet id s1 s3.
Proof.
  intros [Hg Ht] [Hg' Ht']. split; [eapply ledger_trans; eassumption|auto].
Qed.

Lemma handleWebhookError_ledger webhookId url event payload secret error s :
  ledger_grows (db s) (db (handleWebhookError webhookId url event payload secret error s)).
Proof.
  unfold handleWebhookError.
  destruct (webhook_findUnique webhookId (db s)) as [w|]; [|apply ledger_refl].
  set (d1 := webhook_update _ _ _).
  assert (H1 : ledger_grows (db s) d1).
  { apply ledger_update. intros x. unfold counts_up. cbn. repeat split; lia. }
  destruct (wh_retries w <? wh_maxRetries w).
  - cbn [db]. destruct (webhookDelivery_findFirst _ d1); exact H1.
  - cbn [db with_db]. destruct (webhookDelivery_findFirst _ d1); exact H1.
Qed.

Lemma handleWebhookError_quiet id webhookId url event payload secret error s :
  exhausted id (db s) ->
  quiet id s (handleWebhookError webhookId url event payload secret error s).
Proof.
  intros (w & Hw & Hle). split; [apply handleWebhookError_ledger|].
  unfold handleWebhookError.
  destruct (webhook_findUnique webhookId (db s)) as [x|] eqn:Hx; [|auto].
  destruct (wh_retries x <? wh_maxRetries x) eqn:Hlt; [|cbn; auto].
  cbn [timers]. intros t Hin Hid. apply in_app_or in Hin as [Hin|[<-|[]]]; [exact Hin|].
  cbn in Hid. subst webhookId. rewrite Hw in Hx. injection Hx as <-.
  apply Z.ltb_lt in Hlt. lia.
Qed.

Lemma deliver_ledger webhookId url event payload secret s :
  ledger_grows (db s) (db (deliver webhookId url event payload secret s)).
Proof.
  unfold deliverWebhook. cbn.
  destruct (axios_post _ _).
  - eapply ledger_trans; [|apply handleWebhookError_ledger]. apply ledger_same.
    reflexivity.
  - apply ledger_same. reflexivity.
Qed.

Lemma deliver_quiet id webhookId url event payload secret s :
  exhausted id (db s) ->
  quiet id s (deliver webhookId url event payload secret s).
Proof.
  intros Hex. unfold deliverWebhook. cbn.
  destruct (axios_post _ _).
  - eapply quiet_trans; [|apply handleWebhookError_quiet].
    + split; [apply ledger_same; reflexivity|auto].
    + eapply exhausted_grows; [|exact Hex]. apply ledger_same. reflexivity.
  - split; [apply ledger_same; reflexivity|auto].
Qed.

Lemma sendWebhook_ledger sessionId event payload s :
  ledger_grows (db s) (db (sendWebhook endpoint JSON_stringify sessionId event payload s)).
Proof.
  unfold sendWebhook. destruct (getSession sessionId (db s)); [|apply ledger_refl].
  generalize (List.filter (relevant event) (getUserWebhooks (row_userId s0) (db s))).
  intros targets. revert s. induction targets as [|w targets IH]; intros s; cbn [fold_left].
  - apply ledger_refl.
  - eapply ledger_trans; [apply deliver_ledger|apply IH].
Qed.

Lemma sendWebhook_quiet id sessionId event payload s :
  exhausted id (db s) ->
  quiet id s (sendWebhook endpoint JSON_stringify sessionId event payload s).
Proof.
  unfold sendWebhook. destruct (getSession sessionId (db s)); [|intros; apply quiet_refl].
  generalize (List.filter (relevant event) (getUserWebhooks (row_userId s0) (db s))).
  intros targets. revert s. induction targets as [|w targets IH]; intros s Hex; cbn [fold_left].
  - apply quiet_refl.
  - pose proof (deliver_quiet id (wh_id w) (wh_url w) event payload (wh_secret w) s Hex)
      as Hq.
    eapply quiet_trans; [exact Hq|]. apply IH.
    eapply exhausted_grows; [apply Hq|exact Hex].
Qed.

Lemma fire_next_ledger s : ledger_grows (db s) (db (fire_next endpoint JSON_stringify s)).
Proof.
  unfold fire_next. destruct (earliest (timers s)) as [t|]; [|apply ledger_refl].
  unfold fire. eapply ledger_trans; [|apply deliver_ledger]. apply ledger_same.
  reflexivity.
Qed.

Lemma fire_next_quiet id s :
  exhausted id (db s) -> quiet id s (fire_next endpoint JSON_stringify s).
Proof.
  intros Hex. unfold fire_next.
  destruct (earliest (timers s)) as [t|]; [|apply quiet_refl].
  unfold fire. eapply quiet_trans; [|apply deliver_quiet; exact Hex].
  split; [apply ledger_same; reflexivity|]. cbn [timers].
  intros x Hx _. apply filter_In in Hx. tauto.
Qed.

Lemma retryFailed_ledger webhookId s :
  ledger_grows (db s) (db (fst (retryFailed webhookId s))).
Proof.
  unfold retryFailedDeliveries.
  generalize (store_order
                (webhookDelivery_findMany
                   (fun r => String.eqb (wd_webhookId r) webhookId
                             && DeliveryStatus_eqb (wd_status r) FAILED) (db s))).
  generalize (webhook_findUnique webhookId (db s)). intros webhook L.
  assert (H : forall acc,
    ledger_grows (db (fst acc))
      (db (fst (fold_left
        (fun acc delivery =>
           match acc with
           | (s', inl error) => (s', inl error)
           | (s', inr retriedCount) =>
               match webhook with
               | None =>
                   (s', inl (JsTypeError
                               "Cannot read properties of null (reading 'retries')"))
               | Some w =>
                   if wh_retries w <? wh_maxRetries w then
                     (deliver webhookId (wh_url w) (wd_event delivery)
                        (wd_payload delivery) (wh_secret w) s',
                      inr (S retriedCount))
                   else (s', inr retriedCount)
               end
           end) L acc)))).
  { induction L as [|r L IH]; intros acc; cbn [fold_left]; [apply ledger_refl|].
    eapply ledger_trans; [|apply IH].
    destruct acc as [s' [e|n]]; cbn [fst]; [apply ledger_refl|].
    destruct webhook as [w|]; [|apply ledger_refl].
    destruct (wh_retries w <? wh_maxRetries w); [apply deliver_ledger|apply ledger_refl]. }
  apply (H (s, inr 0%nat)).
Qed.

(** A webhook without a retry left: the manual retry does nothing. *)
Lemma retryFailed_exhausted id s :
  exhausted id (db s) -> retryFailed id s = (s, inr 0%nat).
Proof.
  intros (w & Hw & Hle). unfold retryFailedDeliveries. rewrite Hw.
  destruct (Z.ltb_spec (wh_retries w) (wh_maxRetries w)) as [|_]; [lia|].
  generalize (store_order
                (webhookDelivery_findMany
                   (fun r => String.eqb (wd_webhookId r) id
                             && DeliveryStatus_eqb (wd_status r) FAILED) (db s))).
  intros L. induction L as [|r L IH]; cbn [fold_left]; [reflexivity|exact IH].
Qed.

Lemma retryFailed_quiet id webhookId s :
  exhausted id (db s) -> quiet id s (fst (retryFailed webhookId s)).
Proof.
  intros Hex. unfold retryFailedDeliveries.
  generalize (store_order
                (webhookDelivery_findMany
                   (fun r => String.eqb (wd_webhookId r) webhookId
                             && DeliveryStatus_eqb (wd_status r) FAILED) (db s))).
  generalize (webhook_findUnique webhookId (db s)). intros webhook L.
  assert (H : forall acc, exhausted id (db (fst acc)) ->
    quiet id (fst acc)
      (fst (fold_left
        (fun acc delivery =>
           match acc with
           | (s', inl error) => (s', inl error)
           | (s', inr retriedCount) =>
               match webhook with
               | None =>
                   (s', inl (JsTypeError
                               "Cannot read properties of null (reading 'retries')"))
               | Some w =>
                   if wh_retries w <? wh_maxRetries w then
                     (deliver webhookId (wh_url w) (wd_event delivery)
                        (wd_payload delivery) (wh_secret w) s',
                      inr (S retriedCount))
                   else (s', inr retriedCount)
               end
           end) L acc))).
  { induction L as [|r L IH]; intros acc Hacc; cbn [fold_left]; [apply quiet_refl|].
    match goal with
    | |- quiet _ _ (fst (fold_left _ _ ?a)) =>
        assert (Hq : quiet id (fst acc) (fst a))
    end.
    { destruct acc as [s' [e|n]]; cbn [fst] in *; [apply quiet_refl|].
      destruct webhook as [w|]; [|apply quiet_refl].
      destruct (wh_retries w <? wh_maxRetries w);
        [apply deliver_quiet; exact Hacc|apply quiet_refl]. }
    eapply quiet_trans; [exact Hq|]. apply IH.
    eapply exhausted_grows; [apply Hq|exact Hacc]. }
  apply (H (s, inr 0%nat)). exact Hex.
Qed.

Lemma apply_ledger s o :
  ledger_grows (db s)
    (db (apply endpoint JSON_stringify test_data store_order createdAt s o)).
Proof.
  destruct o as [sid ev p| |id|id| |id]; cbn [apply].
  - apply sendWebhook_ledger.
  - apply fire_next_ledger.
  - unfold testWebhook. destruct (webhook_findUnique id (db s)); [|apply ledger_refl].
    destruct (axios_post _ _); apply ledger_same; reflexivity.
  - apply retryFailed_ledger.
  - apply ledger_same. reflexivity.
  - unfold deleteWebhook. destruct (webhook_findUnique id (db s)); [|apply ledger_refl].
    cbn [db with_db]. apply ledger_update. intros x. unfold counts_up. cbn.
    repeat split; lia.
Qed.

Lemma apply_quiet id s o :
  exhausted id (db s) ->
  quiet id s (apply endpoint JSON_stringify test_data store_order createdAt s o).
Proof.
  intros Hex. destruct o as [sid ev p| |wid|wid| |wid]; cbn [apply].
  - apply sendWebhook_quiet, Hex.
  - apply fire_next_quiet, Hex.
  - split; [apply (apply_ledger s (TestWebhook wid))|].
    unfold testWebhook. destruct (webhook_findUnique wid (db s)); [|auto].
    destruct (axios_post _ _); cbn; auto.
  - apply retryFailed_quiet, Hex.
  - split; [apply ledger_same; reflexivity|]. cbn [cleanup timers].
    intros t Ht _. apply filter_In in Ht. tauto.
  - split; [apply (apply_ledger s (DeleteWebhook wid))|].
    destruct (deleteWebhook wid (db s)); cbn; auto.
Qed.

Lemma run_ledger ops s : ledger_grows (db s) (db (run_all ops s)).
Proof.
  revert s. induction ops as [|o ops IH]; intros s; cbn [run_ops fold_left].
  - apply ledger_refl.
  - eapply ledger_trans; [apply apply_ledger|apply IH].
Qed.

Lemma run_quiet id ops s : exhausted id (db s) -> quiet id s (run_all ops s).
Proof.
  revert s. induction ops as [|o ops IH]; intros s Hex; cbn [run_ops fold_left].
  - apply quiet_refl.
  - pose proof (apply_quiet id s o Hex) as Hq.
    eapply quiet_trans; [exact Hq|]. apply IH.
    eapply exhausted_grows; [apply Hq|exact Hex].
Qed.

(** X3: whatever the service does (fan-out of events, retry timers firing,
    test deliveries, manual retries, cleanup, the owner's delete), the row
    of a webhook keeps its id, URL and bound [maxRetries], and its failure
    counter [retries] never goes down: in particular it never returns to
    zero after a success. *)
Theorem retries_never_decrease (ops : list Op) (s : State) (webhookId : string)
    (w : Webhook) :
  webhook_findUnique webhookId (db s) = Some w ->
  exists w',
    webhook_findUnique webhookId (db (run_all ops s)) = Some w'
    /\ wh_url w' = wh_url w
    /\ wh_maxRetries w' = wh_maxRetries w
    /\ wh_retries w <= wh_retries w'.
Proof.
  intros Hw.
  destruct (ledger_find webhookId _ _ w (run_ledger ops s) Hw)
    as (w' & Hw' & _ & Hurl & Hmax & Hret).
  exists w'. auto.
Qed.

(** X4: a webhook whose failure counter has reached [maxRetries] stays that
    way for good.  Through every later run of the service no new retry is
    scheduled for it (the timers pending for it are among those that were
    pending before), and [retryFailedDeliveries] on it returns 0 and leaves
    the state as it is. *)
Theorem exhausted_is_final (ops : list Op) (s : State) (webhookId : string) :
  exhausted webhookId (db s) ->
  exhausted webhookId (db (run_all ops s))
  /\ (forall t, In t (timers (run_all ops s)) -> timer_webhookId t = webhookId ->
        In t (timers s))
  /\ retryFailed webhookId (run_all ops s) = (run_all ops s, inr 0%nat).
Proof.
  intros Hex. destruct (run_quiet webhookId ops s Hex) as [Hg Ht].
  assert (Hex' : exhausted webhookId (db (run_all ops s)))
    by (eapply exhausted_grows; eassumption).
  split; [exact Hex'|]. split; [exact Ht|].
  apply retryFailed_exhausted, Hex'.
Qed.

End Ledger.

Section ManualRetry.
Import DatabaseService WebhookService.

Variable endpoint : nat -> HttpRequest -> PostResult.
Variable JSON_stringify : string -> Z -> string -> string.
Variable store_order : list WebhookDelivery -> list WebhookDelivery.

Abbreviation deliver := (deliverWebhook endpoint JSON_stringify).
Abbreviation retryFailed :=
  (retryFailedDeliveries endpoint JSON_stringify store_order).

Lemma resend_all (webhookId : string) (w : Webhook) (L : list WebhookDelivery) :
  forall (s : State) (n : nat),
  fresh_ids (db s) ->
  let result :=
    fold_left
      (fun acc delivery =>
         match acc with
         | (s', inl error) => (s', inl error)
         | (s', inr retriedCount) =>
             (deliver webhookId (wh_url w) (wd_event delivery)
                (wd_payload delivery) (wh_secret w) s',
              inr (S retriedCount))
         end) L ((s, inr n) : State * (Exn + nat)) in
  snd result = inr (n + length L)%nat
  /\ exists reqs rows,
       requests (fst result) = requests s ++ reqs
       /\ map req_event reqs = map wd_event L
       /\ Forall (fun r => req_webhookId r = webhookId /\ req_url r = wh_url w) reqs
       /\ deliveries (db (fst result)) = rows ++ deliveries (db s)
       /\ length rows = length L.
Proof.
  induction L as [|r L IH]; intros s n Hfresh; cbn [fold_left].
  - cbn. split; [f_equal; lia|]. exists [], []. rewrite app_nil_r.
    repeat split; constructor.
  - destruct (deliver_effect endpoint JSON_stringify webhookId (wh_url w) (wd_event r)
                (wd_payload r) (wh_secret w) s Hfresh)
      as (row & Hd & _ & _ & _ & _ & Hreq).
    pose proof (fresh_after_deliver endpoint JSON_stringify webhookId (wh_url w)
                  (wd_event r) (wd_payload r) (wh_secret w) s Hfresh) as Hfresh'.
    destruct (IH _ (S n) Hfresh') as (Hcount & reqs & rows & Hreqs & Hev & Hto & Hrows & Hlen).
    split; [rewrite Hcount; cbn [length]; f_equal; lia|].
    eexists (_ :: reqs), (rows ++ [row]).
    rewrite Hreqs, Hreq, Hrows, Hd, <- !app_assoc.
    split; [reflexivity|]. cbn [map req_event request_of].
    split; [f_equal; exact Hev|].
    split; [constructor; [split; reflexivity|exact Hto]|].
    split; [reflexivity|]. rewrite length_app. cbn. lia.
Qed.

Lemma failed_of_app (webhookId : string) (d d' : Database)
    (rows : list WebhookDelivery) :
  deliveries d' = rows ++ deliveries d ->
  failed_of webhookId d'
  = failed_of webhookId (with_deliveries rows d) ++ failed_of webhookId d.
Proof.
  intros H. unfold failed_of, webhookDelivery_findMany. rewrite H.
  apply List.filter_app.
Qed.

(** X5: the manual retry of a webhook that has retries left,
    [retries < maxRetries] when the rows are read.  It delivers again every
    FAILED delivery of the webhook, one request each, to the webhook's URL and
    for the event of the row, and returns their number.  Every retry makes a
    row of its own: the rows that were FAILED are left as they are, FAILED,
    so the next manual retry sends them once more. *)
Theorem manual_retry_resends (s : State) (webhookId : string) (w : Webhook) :
  (forall l, Permutation (store_order l) l) ->
  fresh_ids (db s) ->
  webhook_findUnique webhookId (db s) = Some w ->
  wh_retries w < wh_maxRetries w ->
  snd (retryFailed webhookId s) = inr (length (failed_of webhookId (db s)))
  /\ exists reqs rows,
       requests (fst (retryFailed webhookId s)) = requests s ++ reqs
       /\ length reqs = length (failed_of webhookId (db s))
       /\ Forall (fun r => req_webhookId r = webhookId /\ req_url r = wh_url w) reqs
       /\ Permutation (map req_event reqs)
                      (map wd_event (failed_of webhookId (db s)))
       /\ deliveries (db (fst (retryFailed webhookId s))) = rows ++ deliveries (db s)
       /\ length rows = length (failed_of webhookId (db s))
       /\ failed_of webhookId (db (fst (retryFailed webhookId s)))
          = failed_of webhookId (with_deliveries rows (db s))
            ++ failed_of webhookId (db s).
Proof.
  intros Horder Hfresh Hw Hlt. unfold retryFailedDeliveries. rewrite Hw.
  cbv beta iota. apply Z.ltb_lt in Hlt. rewrite Hlt. cbv beta iota.
  fold (failed_of webhookId (db s)).
  destruct (resend_all webhookId w (store_order (failed_of webhookId (db s))) s 0 Hfresh)
    as (Hcount & reqs & rows & Hreqs & Hev & Hto & Hrows & Hlen).
  rewrite (Permutation_length (Horder _)) in Hcount, Hlen.
  split; [exact Hcount|]. exists reqs, rows.
  split; [exact Hreqs|].
  split; [rewrite <- (length_map req_event), Hev, length_map;
          apply Permutation_length, Horder|].
  split; [exact Hto|].
  split; [rewrite Hev; apply Permutation_map, Horder|].
  split; [exact Hrows|]. split; [exact Hlen|].
  apply failed_of_app, Hrows.
Qed.

End ManualRetry.

Section Shutdown.
Import DatabaseService WebhookService.

Variable endpoint : nat -> HttpRequest -> PostResult.
Variable JSON_stringify : string -> Z -> string -> string.
Variable createdAt : WebhookDelivery -> Z.

Abbreviation deliver := (deliverWebhook endpoint JSON_stringify).

(** A failed delivery that schedules a retry: the timer and its entry in
    [retryQueue], which replaces the entry the webhook had. *)
Lemma deliver_schedules (webhookId url event payload : string)
    (secret : option string) (s : State) (w : Webhook) :
  fresh_ids (db s) ->
  webhook_findUnique webhookId (db s) = Some w ->
  failing (endpoint (length (requests s))
                    (request_of JSON_stringify webhookId url event payload secret s)) ->
  wh_retries w < wh_maxRetries w ->
  let s' := deliver webhookId url event payload secret s in
  (exists error, webhook_findUnique webhookId (db s') = Some (bump error w))
  /\ fresh_ids (db s')
  /\ timers s' =
       timers s ++
         [mkTimer (next_timer s) (calculateRetryDelay (wh_retries w))
                  (now s + calculateRetryDelay (wh_retries w))
                  webhookId url event payload secret]
  /\ retryQueue s' = <[webhookId := next_timer s]> (retryQueue s)
  /\ next_timer s' = S (next_timer s).
Proof.
  intros Hfresh Hfind Hfail Hlt. cbv zeta.
  destruct (deliver_failure endpoint JSON_stringify webhookId url event payload
              secret s w Hfresh Hfind Hfail)
    as (error & Hw & Hf & _ & _ & Hbranch).
  apply Z.ltb_lt in Hlt. rewrite Hlt in Hbranch. destruct Hbranch as [Ht _].
  split; [eauto|]. split; [exact Hf|]. split; [exact Ht|].
  apply failing_post in Hfail as [e He].
  unfold deliverWebhook. cbn. unfold request_of in He. cbn in He. rewrite He.
  unfold handleWebhookError. cbn [db with_db]. 
  change (webhook_findUnique webhookId _) with (webhook_findUnique webhookId (db s)).
  rewrite Hfind, Hlt. cbn. split; reflexivity.
Qed.

Lemma held_timer (q : gmap string nat) (id : nat) :
  existsb (Nat.eqb id) (map snd (map_to_list q)) = true
  <-> exists k, q !! k = Some id.
Proof.
  rewrite existsb_exists. split.
  - intros (x & Hin & Heq). apply Nat.eqb_eq in Heq. subst x.
    apply in_map_iff in Hin as ([k v] & Hv & Hin). cbn in Hv. subst v.
    exists k. apply elem_of_map_to_list. apply list_elem_of_In. exact Hin.
  - intros (k & Hk). exists id. split; [|apply Nat.eqb_refl].
    apply in_map_iff. exists (k, id). split; [reflexivity|].
    apply list_elem_of_In, elem_of_map_to_list. exact Hk.
Qed.

Lemma cleanup_fresh (s : State) :
  fresh_ids (db s) -> fresh_ids (db (cleanup createdAt s)).
Proof.
  unfold fresh_ids, cleanup. cbn. intros H.
  apply List.Forall_forall. intros r Hr. apply filter_In in Hr as [Hr _].
  rewrite List.Forall_forall in H. apply H, Hr.
Qed.

(** X6: [cleanup] cancels the timers [retryQueue] holds, and [retryQueue]
    holds one timer a webhook: the last one set.  When two deliveries to
    the same webhook fail and each schedules a retry, the first timer is no
    longer held; [cleanup] empties the queue and cancels the second timer
    only, the first one is still pending afterwards and, when it fires,
    the request for its event goes out. *)
Theorem cleanup_misses_replaced_timer (s : State) (w : Webhook)
    (event1 payload1 event2 payload2 : string) :
  fresh_ids (db s) ->
  queue_ok s ->
  timers s = [] ->
  webhook_findUnique (wh_id w) (db s) = Some w ->
  wh_retries w + 1 < wh_maxRetries w ->
  (forall n request, failing (endpoint n request)) ->
  let s2 :=
    deliver (wh_id w) (wh_url w) event2 payload2 (wh_secret w)
      (deliver (wh_id w) (wh_url w) event1 payload1 (wh_secret w) s) in
  let s3 := cleanup createdAt s2 in
  length (timers s2) = 2%nat
  /\ retryQueue s3 = ∅
  /\ exists t,
       timers s3 = [t]
       /\ timer_webhookId t = wh_id w
       /\ timer_event t = event1
       /\ timer_payload t = payload1
       /\ exists request,
            requests (fire_next endpoint JSON_stringify s3) = requests s3 ++ [request]
            /\ req_url request = wh_url w
            /\ req_event request = event1
            /\ req_data request = payload1.
Proof.
  intros Hfresh Hq Hidle Hw Hlt Hfail. cbv zeta.
  destruct (deliver_schedules (wh_id w) (wh_url w) event1 payload1 (wh_secret w) s w
              Hfresh Hw (Hfail _ _) ltac:(lia))
    as ((e1 & Hw1) & Hf1 & Ht1 & Hq1 & Hn1).
  set (s1 := deliver (wh_id w) (wh_url w) event1 payload1 (wh_secret w) s) in *.
  destruct (deliver_schedules (wh_id w) (wh_url w) event2 payload2 (wh_secret w) s1
              (bump e1 w) Hf1 Hw1 (Hfail _ _) ltac:(cbn; lia))
    as (_ & Hf2 & Ht2 & Hq2 & Hn2).
  set (s2 := deliver (wh_id w) (wh_url w) event2 payload2 (wh_secret w) s1) in *.
  rewrite Ht1, Hidle in Ht2. cbn [app] in Ht2. rewrite Hq1, Hn1 in Hq2.
  rewrite insert_insert_eq in Hq2.
  split; [rewrite Ht2; reflexivity|]. split; [reflexivity|].
  set (t1 := mkTimer (next_timer s) _ _ _ _ _ _ _) in Ht2.
  set (t2 := mkTimer (next_timer s1) _ _ _ _ _ _ _) in Ht2.
  assert (E1 : existsb (Nat.eqb (timer_id t1)) (map snd (map_to_list (retryQueue s2)))
               = false).
  { apply Bool.not_true_iff_false. intros H1.
    apply held_timer in H1 as (k & Hk). rewrite Hq2 in Hk.
    unfold t1 in Hk. cbn [timer_id] in Hk.
    destruct (decide (k = wh_id w)) as [->|Hne].
    - rewrite lookup_insert_eq in Hk. injection Hk as Hk. lia.
    - rewrite lookup_insert_ne in Hk by congruence.
      apply Hq in Hk. cbn beta in Hk. lia. }
  assert (E2 : existsb (Nat.eqb (timer_id t2)) (map snd (map_to_list (retryQueue s2)))
               = true).
  { apply held_timer. exists (wh_id w). rewrite Hq2, lookup_insert_eq.
    unfold t2. cbn [timer_id]. rewrite Hn1. reflexivity. }
  assert (Hkeep : timers (cleanup createdAt s2) = [t1]).
  { unfold cleanup. cbn [timers]. rewrite Ht2. cbn [List.filter].
    rewrite E1, E2. reflexivity. }
  exists t1. split; [exact Hkeep|]. repeat (split; [reflexivity|]).
  rewrite (fire_single endpoint JSON_stringify t1 _ Hkeep).
  match goal with
  | |- context [deliverWebhook _ _ ?i ?u ?e ?p ?k ?x] =>
      destruct (deliver_effect endpoint JSON_stringify i u e p k x)
        as (row & _ & _ & _ & _ & _ & Hreq)
  end.
  { apply (cleanup_fresh s2), Hf2. }
  rewrite Hreq. eexists. split; [reflexivity|]. repeat split.
Qed.

(** X7: deactivating a webhook takes it out of the fan-out and nothing more.
    After [deleteWebhook] no event is sent to it by [sendWebhook], for any
    session and event; the retries pending for it stay as they are, and the
    next of them to fire still posts to its URL. *)
Theorem deleted_webhook_still_retried (s : State) (webhookId : string) (d : Database) :
  fresh_ids (db s) ->
  deleteWebhook webhookId (db s) = inr d ->
  (forall sessionId event payload,
     exists reqs,
       requests (sendWebhook endpoint JSON_stringify sessionId event payload
                   (with_db d s))
       = requests s ++ reqs
       /\ Forall (fun r => req_webhookId r <> webhookId) reqs)
  /\ timers (with_db d s) = timers s
  /\ (forall t,
        earliest (timers s) = Some t ->
        exists request,
          requests (fire_next endpoint JSON_stringify (with_db d s))
          = requests s ++ [request]
          /\ req_webhookId request = timer_webhookId t
          /\ req_url request = timer_url t
          /\ req_event request = timer_event t).
Proof.
  intros Hfresh Hdel. unfold deleteWebhook in Hdel.
  destruct (webhook_findUnique webhookId (db s)); [|discriminate].
  injection Hdel as <-.
  assert (Hfresh' : fresh_ids (db (with_db (webhook_update webhookId set_webhook_inactive (db s)) s)))
    by exact Hfresh.
  split; [|split; [reflexivity|]].
  - intros sessionId event payload. unfold sendWebhook.
    destruct (getSession sessionId _) as [session|];
      [|exists []; rewrite app_nil_r; split; [reflexivity|constructor]].
    destruct (deliver_all endpoint JSON_stringify event payload
                (List.filter (relevant event)
                   (getUserWebhooks (row_userId session)
                      (db (with_db (webhook_update webhookId set_webhook_inactive (db s)) s))))
                _ Hfresh')
      as (reqs & rows & Hreqs & Hids & _).
    exists reqs. split; [exact Hreqs|].
    apply List.Forall_forall. intros r Hr Hid.
    assert (Hin : In webhookId (map req_webhookId reqs))
      by (rewrite <- Hid; apply in_map, Hr).
    rewrite Hids in Hin. apply in_map_iff in Hin as (x & Hx & Hin).
    apply filter_In in Hin as [Hin _]. unfold getUserWebhooks in Hin.
    apply filter_In in Hin as [Hin Hact].
    cbn in Hin. apply in_map_iff in Hin as (y & Hy & _).
    destruct (String.eqb (wh_id y) webhookId) eqn:E.
    + subst x. cbn in Hact. rewrite Bool.andb_false_r in Hact. discriminate.
    + subst x. apply String.eqb_neq in E. contradiction.
  - intros t Ht. unfold fire_next. cbn [timers with_db]. rewrite Ht. unfold fire.
    match goal with
    | |- context [deliverWebhook _ _ ?i ?u ?e ?p ?k ?x] =>
        destruct (deliver_effect endpoint JSON_stringify i u e p k x Hfresh)
          as (row & _ & _ & _ & _ & _ & Hreq)
    end.
    rewrite Hreq. eexists. split; [reflexivity|]. repeat split.
Qed.

(** X8: [getWebhookDeliveries] pages through the deliveries of one webhook:
    a page has at most [limit] rows, all of them of the webhook asked for;
    a page followed by the page that starts where it ends is the page of
    both lengths; and past the last row a page is empty. *)
Theorem delivery_pages (webhookId : string) (limit limit' offset : nat) (s : State) :
  (length (getWebhookDeliveries webhookId limit offset s) <= limit)%nat
  /\ Forall (fun r => wd_webhookId r = webhookId)
            (getWebhookDeliveries webhookId limit offset s)
  /\ getWebhookDeliveries webhookId limit offset s
     ++ getWebhookDeliveries webhookId limit' (offset + limit) s
     = getWebhookDeliveries webhookId (limit + limit') offset s
  /\ ((length (getWebhookDeliveries webhookId (length (deliveries (db s))) 0 s)
       <= offset)%nat ->
      getWebhookDeliveries webhookId limit offset s = []).
Proof.
  unfold getWebhookDeliveries, webhookDelivery_findMany.
  set (rows := List.filter _ (deliveries (db s))).
  assert (Hall : Forall (fun r => wd_webhookId r = webhookId) rows).
  { apply List.Forall_forall. intros r Hr. apply filter_In in Hr as [_ Hr].
    apply String.eqb_eq, Hr. }
  assert (Hlen : (length rows <= length (deliveries (db s)))%nat)
    by apply List.filter_length_le.
  split; [rewrite length_take; lia|].
  split; [apply Forall_take, Forall_drop, Hall|].
  split.
  - rewrite <- (drop_drop rows limit offset). apply take_take_drop.
  - cbn [drop skipn]. rewrite take_ge by exact Hlen. intros Hoff.
    rewrite drop_ge by exact Hoff. apply take_nil.
Qed.

End Shutdown.

(** ** The registry, the store and the routes *)

Section Shape.
Import WhatsAppService.

Variable loggedOut : Z.
Variable QRCode_toDataURL : string -> Exn + string.

Lemma shape_refl sv : same_shape sv sv.
Proof. split; intros; reflexivity. Qed.

Lemma shape_set_status sid status sv sv' :
  same_shape sv sv' -> same_shape sv (set_status sid status sv').
Proof.
  intros [Hs Hd]. split; [|exact Hd]. intros k. rewrite <- Hs.
  rewrite sessions_set_status. destruct (decide (sid = k)); [|reflexivity].
  rewrite fmap_is_Some. reflexivity.
Qed.

Lemma shape_modify sid f sv sv' :
  same_shape sv sv' -> same_shape sv (modify sid f sv').
Proof.
  intros [Hs Hd]. split; [|exact Hd]. intros k. rewrite <- Hs.
  unfold modify. cbn [sessions with_sessions].
  destruct (decide (sid = k)) as [->|Hne].
  - rewrite lookup_alter_eq, fmap_is_Some. reflexivity.
  - rewrite lookup_alter_ne by exact Hne. reflexivity.
Qed.

Lemma shape_updateSessionInDatabase sid data sv sv' :
  (forall r, DatabaseService.row_isActive (data r) = DatabaseService.row_isActive r) ->
  same_shape sv sv' -> same_shape sv (updateSessionInDatabase sid data sv').
Proof.
  intros Hdata [Hs Hd]. split.
  - intros k. rewrite sessions_updateSessionInDatabase. apply Hs.
  - intros k. rewrite <- Hd. unfold updateSessionInDatabase, DatabaseService.updateSession.
    destruct (DatabaseService.sessions (db sv') !! sid) as [r|] eqn:Hr; [|reflexivity].
    cbn. destruct (decide (sid = k)) as [->|Hne].
    + rewrite lookup_insert_eq, Hr. cbn. rewrite Hdata. reflexivity.
    + rewrite lookup_insert_ne by exact Hne. reflexivity.
Qed.

Lemma shape_emitSessionUpdate sid sv sv' :
  same_shape sv sv' -> same_shape sv (emitSessionUpdate sid sv').
Proof.
  intros [Hs Hd]. split; intros k.
  - rewrite sessions_emitSessionUpdate. apply Hs.
  - rewrite db_emitSessionUpdate. apply Hd.
Qed.

Lemma shape_with_reconnects l sv sv' :
  same_shape sv sv' -> same_shape sv (with_reconnects l sv').
Proof. intros H. exact H. Qed.

Lemma shape_socket_opened sv sv' :
  same_shape sv sv' ->
  same_shape sv
    (mkService (sessions sv') (db sv') (reconnects sv') (emitted sv') (history sv')
               (S (sockets_opened sv')) (sockets_ended sv') (now sv')).
Proof. intros H. exact H. Qed.

Ltac shape :=
  repeat first
    [ apply shape_refl
    | apply shape_emitSessionUpdate
    | apply shape_updateSessionInDatabase; [intros []; reflexivity|]
    | apply shape_set_status
    | apply shape_modify
    | apply shape_with_reconnects
    | apply shape_socket_opened ].

Lemma shape_handleConnectionUpdate sid update user sv :
  same_shape sv (handleConnectionUpdate loggedOut QRCode_toDataURL sid update user sv).
Proof.
  unfold handleConnectionUpdate.
  destruct (sessions sv !! sid); [|apply shape_refl].
  set (sv1 := match qr update with Some _ => _ | None => _ end).
  assert (H1 : same_shape sv sv1).
  { subst sv1. destruct (qr update) as [q|]; [|apply shape_refl].
    destruct (String.eqb q ""); [apply shape_refl|].
    destruct (QRCode_toDataURL q); [apply shape_refl|]. shape. }
  destruct (connection update) as [[| |]|]; try exact H1.
  - shape. exact H1.
  - destruct (shouldReconnect loggedOut update); shape; exact H1.
Qed.

Lemma shape_initialize sid pairing init sv :
  same_shape sv (fst (initializeWhatsAppConnection sid pairing init sv)).
Proof.
  unfold initializeWhatsAppConnection, initialize_body.
  destruct init as [e|registered].
  - destruct (sessions sv !! sid); cbn [fst]; shape.
  - cbn [sessions]. destruct (sessions sv !! sid) eqn:Hs.
    + destruct (pairing && negb registered); cbn [fst]; shape.
    + cbn [sessions]. rewrite Hs. cbn [fst]. shape.
Qed.

Lemma shape_requestPairingCode sid phone answer sv :
  same_shape sv (fst (requestPairingCode sid phone answer sv)).
Proof.
  unfold requestPairingCode.
  destruct (sessions sv !! sid ≫= ws_socket); [|apply shape_refl].
  destruct answer; cbn [fst]; shape.
Qed.

Lemma matches_shape sv sv' :
  same_shape sv sv' -> registry_matches_store sv -> registry_matches_store sv'.
Proof.
  intros [Hs Hd] Hm k. specialize (Hd k). split.
  - intros His. apply Hs, Hm in His as (r & Hr & Ha).
    rewrite Hr in Hd. cbn in Hd.
    destruct (DatabaseService.sessions (db sv') !! k) as [r'|]; [|discriminate].
    exists r'. split; [reflexivity|]. cbn in Hd. congruence.
  - intros (r & Hr & Ha). apply Hs, Hm.
    rewrite Hr in Hd. cbn in Hd.
    destruct (DatabaseService.sessions (db sv) !! k) as [r'|]; [|discriminate].
    exists r'. split; [reflexivity|]. cbn in Hd. congruence.
Qed.

Lemma matches_createSession sid uid pairing init sv :
  registry_matches_store sv ->
  registry_matches_store (fst (createSession sid uid pairing init sv)).
Proof.
  intros Hm. unfold createSession.
  destruct (sessions sv !! sid) eqn:Hs; [exact Hm|].
  unfold DatabaseService.createSession.
  destruct (DatabaseService.sessions (db sv) !! sid) eqn:Hr; [exact Hm|].
  set (sv1 := mkService _ _ _ _ _ _ _ _).
  assert (H1 : registry_matches_store sv1).
  { intros k. subst sv1. cbn [sessions db DatabaseService.sessions
                              DatabaseService.with_sessions].
    destruct (decide (sid = k)) as [->|Hne].
    - rewrite !lookup_insert_eq. split; [|eauto]. intros _. eexists. split; reflexivity.
    - rewrite !lookup_insert_ne by exact Hne. apply Hm. }
  pose proof (shape_initialize sid pairing init sv1) as H2.
  destruct (initializeWhatsAppConnection sid pairing init sv1) as [sv2 [e|[]]];
    cbn [fst] in *; eapply matches_shape; eassumption.
Qed.

Lemma matches_deleteSession sid sv :
  registry_matches_store sv -> registry_matches_store (fst (deleteSession sid sv)).
Proof.
  intros Hm k. unfold deleteSession, DatabaseService.deleteSession,
                      DatabaseService.updateSession. cbn [db].
  destruct (DatabaseService.sessions (db sv) !! sid) as [r|] eqn:Hr; cbn.
  - destruct (decide (sid = k)) as [->|Hne].
    + rewrite lookup_delete_eq, lookup_insert_eq. split.
      * intros [? H]. discriminate H.
      * intros (r' & [= <-] & Ha). discriminate Ha.
    + rewrite lookup_delete_ne, lookup_insert_ne by exact Hne. apply Hm.
  - destruct (decide (sid = k)) as [->|Hne].
    + rewrite lookup_delete_eq, Hr. split.
      * intros [? H]. discriminate H.
      * intros (r' & H & _). discriminate H.
    + rewrite lookup_delete_ne by exact Hne. apply Hm.
Qed.

Lemma matches_step sv a :
  registry_matches_store sv ->
  registry_matches_store (step loggedOut QRCode_toDataURL sv a).
Proof.
  intros Hm. destruct a as [s u p i|s upd usr|n i|s|s ph ans]; cbn [step].
  - apply matches_createSession, Hm.
  - eapply matches_shape; [apply shape_handleConnectionUpdate|exact Hm].
  - unfold fire_reconnect. destruct (reconnects sv !! n); [|exact Hm].
    eapply matches_shape; [apply shape_initialize|exact Hm].
  - apply matches_deleteSession, Hm.
  - eapply matches_shape; [apply shape_requestPairingCode|exact Hm].
Qed.

Lemma matches_run acts sv :
  registry_matches_store sv ->
  registry_matches_store (run loggedOut QRCode_toDataURL acts sv).
Proof.
  revert sv. induction acts as [|a acts IH]; intros sv Hm; cbn; [exact Hm|].
  apply IH, matches_step, Hm.
Qed.

Lemma matches_initial : registry_matches_store initial.
Proof.
  intros k. cbn. rewrite !lookup_empty. split.
  - intros [? H]. discriminate H.
  - intros (r & H & _). discriminate H.
Qed.

(** X9: in every state the service reaches from its start (sessions
    created, connection updates, reconnect timers firing, pairing codes
    requested, sessions deleted), the registry and the store agree: a
    session is live exactly when its row exists and is active.  So the
    check of [POST /api/sessions] on the store covers the check
    [createSession] makes on the registry: the route answers 400 when the id
    has a row, even a deactivated one, and otherwise creates the session,
    and the only error it hands on is the one the initialisation threw. *)
Theorem registry_agrees_with_store (acts : list Action) :
  registry_matches_store (run loggedOut QRCode_toDataURL acts initial)
  /\ forall sessionId userId usePairingCode init,
       match DatabaseService.getSession sessionId
               (db (run loggedOut QRCode_toDataURL acts initial)) with
       | Some _ =>
           snd (POST_sessions sessionId userId usePairingCode init
                  (run loggedOut QRCode_toDataURL acts initial))
           = Json 400 false (Some "Session already exists")
       | None =>
           snd (POST_sessions sessionId userId usePairingCode init
                  (run loggedOut QRCode_toDataURL acts initial))
           = match init with
             | InitThrows e => Thrown e
             | InitSocket _ => Json 201 true None
             end
       end.
Proof.
  pose proof (matches_run acts initial matches_initial) as Hm.
  split; [exact Hm|].
  set (sv := run loggedOut QRCode_toDataURL acts initial) in *.
  intros sid uid pairing init. unfold POST_sessions.
  destruct (DatabaseService.getSession sid (db sv)) as [r|] eqn:Hr; [reflexivity|].
  assert (Hlive : sessions sv !! sid = None).
  { destruct (sessions sv !! sid) eqn:Hs; [|reflexivity].
    assert (His : is_Some (sessions sv !! sid)) by (rewrite Hs; eauto).
    apply Hm in His as (r & Hr' & _).
    unfold DatabaseService.getSession in Hr. congruence. }
  destruct init as [e|registered].
  - destruct (createSession_init_throws sid uid pairing e sv Hlive Hr) as (sv' & -> & _).
    reflexivity.
  - destruct (createSession_init_ok sid uid pairing registered sv Hlive Hr)
      as (sv' & session & -> & _).
    reflexivity.
Qed.


End Shape.

Section Routes.
Import WhatsAppService.

Variable loggedOut : Z.
Variable QRCode_toDataURL : string -> Exn + string.

Ltac live_object :=
  repeat first
    [ apply acts_as_emitSessionUpdate
    | apply acts_as_updateSessionInDatabase
    | apply acts_as_with_reconnects
    | apply acts_as_set_status
    | apply acts_as_modify
    | apply acts_as_refl ].

(** X11: a deleted session keeps its id taken.  For a session that has a
    row of the caller, [DELETE /api/sessions/:sessionId] answers 200; after
    it [GET /api/sessions/:sessionId] still answers 200, with the row
    deactivated and the live status DISCONNECTED; a second DELETE answers
    200 again and changes nothing; and [POST /api/sessions] with the same id
    answers 400, whoever asks. *)
Theorem deleted_session_keeps_its_id (sv : Service) (sessionId userId : string)
    (r : DatabaseService.SessionRow) :
  DatabaseService.getSession sessionId (db sv) = Some r ->
  DatabaseService.row_userId r = userId ->
  snd (sessionMiddleware sessionId userId sv (DELETE_session sessionId sv))
  = Sent 200 tt
  /\ GET_session sessionId
       (fst (sessionMiddleware sessionId userId sv (DELETE_session sessionId sv)))
     = Sent 200 (mkView (DatabaseService.set_inactive r) DISCONNECTED None None)
  /\ sessionMiddleware sessionId userId
       (fst (sessionMiddleware sessionId userId sv (DELETE_session sessionId sv)))
       (DELETE_session sessionId
          (fst (sessionMiddleware sessionId userId sv (DELETE_session sessionId sv))))
     = (fst (sessionMiddleware sessionId userId sv (DELETE_session sessionId sv)),
        Sent 200 tt)
  /\ forall userId' usePairingCode init,
       POST_sessions sessionId userId' usePairingCode init
         (fst (sessionMiddleware sessionId userId sv (DELETE_session sessionId sv)))
       = (fst (sessionMiddleware sessionId userId sv (DELETE_session sessionId sv)),
          Json 400 false (Some "Session already exists")).
Proof.
  intros Hr Hu. unfold DatabaseService.getSession in Hr.
  assert (Hdel : exists sv1,
            sessionMiddleware sessionId userId sv (DELETE_session sessionId sv)
            = (sv1, Sent 200 tt)
            /\ DatabaseService.sessions (db sv1) !! sessionId
               = Some (DatabaseService.set_inactive r)
            /\ sessions sv1 !! sessionId = None
            /\ fst (deleteSession sessionId sv1) = sv1).
  { unfold sessionMiddleware. rewrite Hr, Hu, String.eqb_refl.
    unfold DELETE_session, deleteSession.
    unfold DatabaseService.deleteSession, DatabaseService.updateSession.
    cbn [db]. rewrite Hr. eexists. split; [reflexivity|].
    cbn [db with_db sessions DatabaseService.sessions DatabaseService.with_sessions].
    rewrite lookup_insert_eq, !lookup_delete_eq. split; [reflexivity|].
    split; [reflexivity|]. cbn [mbind option_bind fst].
    unfold with_db, DatabaseService.with_sessions. cbn.
    rewrite delete_delete_eq, insert_insert_eq. reflexivity. }
  destruct Hdel as (sv1 & -> & Hrow & Hlive & Hidem). cbn [fst snd].
  split; [reflexivity|].
  split.
  { unfold GET_session, DatabaseService.getSession, getSession, await.
    rewrite Hrow, Hlive. reflexivity. }
  split.
  { unfold sessionMiddleware. rewrite Hrow.
    cbn [DatabaseService.set_inactive DatabaseService.row_userId].
    rewrite Hu, String.eqb_refl. unfold DELETE_session.
    pose proof Hidem as Hidem'. unfold deleteSession in Hidem' |- *.
    unfold DatabaseService.deleteSession, DatabaseService.updateSession in Hidem' |- *.
    cbn [db] in Hidem' |- *. rewrite Hrow in Hidem' |- *. cbn [fst] in Hidem'.
    rewrite Hidem'. reflexivity. }
  intros userId' usePairingCode init. apply POST_sessions_stored.
  unfold DatabaseService.getSession. rewrite Hrow. eauto.
Qed.

(** What a connection update leaves of the live object: its socket, and
    the status an open or a close gives it. *)
Lemma connection_update_live sid update user sv s :
  sessions sv !! sid = Some s ->
  exists s',
    sessions (handleConnectionUpdate loggedOut QRCode_toDataURL sid update user sv)
      !! sid = Some s'
    /\ ws_socket s' = ws_socket s
    /\ (connection update = Some conn_open -> ws_status s' = CONNECTED)
    /\ (connection update = Some conn_close ->
        ws_status s' = if shouldReconnect loggedOut update
                       then CONNECTING else DISCONNECTED)
    /\ (qr update = None -> connection update <> Some conn_open ->
        ws_qrCode s' = ws_qrCode s).
Proof.
  intros Hs. unfold handleConnectionUpdate. rewrite Hs.
  set (sv1 := match qr update with Some _ => _ | None => _ end).
  assert (H1 : exists f, acts_as sid f sv sv1
                         /\ (forall x, ws_socket (f x) = ws_socket x)
                         /\ (qr update = None -> forall x, f x = x)).
  { subst sv1. destruct (qr update) as [q|];
      [|eexists; split; [apply acts_as_refl|split; [reflexivity|reflexivity]]].
    destruct (String.eqb q "");
      [eexists; split; [apply acts_as_refl|split; [reflexivity|discriminate]]|].
    destruct (QRCode_toDataURL q);
      [eexists; split; [apply acts_as_refl|split; [reflexivity|discriminate]]|].
    eexists. split; [live_object|split; [reflexivity|discriminate]]. }
  destruct H1 as (f & Hf & Hsock & Hid).
  destruct (connection update) as [[| |]|] eqn:Hc.
  - match goal with
    | |- exists s', sessions ?X !! sid = Some s' /\ _ =>
        eassert (Hlive : acts_as sid _ sv X) by (live_object; exact Hf)
    end.
    unfold acts_as in Hlive. rewrite Hlive, Hs.
    eexists. split; [reflexivity|]. cbn. rewrite Hsock.
    repeat split; try discriminate. intros _ H. contradiction.
  - destruct (shouldReconnect loggedOut update);
      match goal with
      | |- exists s', sessions ?X !! sid = Some s' /\ _ =>
          eassert (Hlive : acts_as sid _ sv X) by (live_object; exact Hf)
      end;
      unfold acts_as in Hlive; rewrite Hlive, Hs;
      (eexists; split; [reflexivity|]); cbn; rewrite Hsock;
      repeat split; try discriminate; intros Hq _; rewrite (Hid Hq); reflexivity.
  - unfold acts_as in Hf. rewrite Hf, Hs.
    eexists. split; [reflexivity|]. rewrite Hsock.
    repeat split; try discriminate. intros Hq _. rewrite (Hid Hq). reflexivity.
  - unfold acts_as in Hf. rewrite Hf, Hs.
    eexists. split; [reflexivity|]. rewrite Hsock.
    repeat split; try discriminate. intros Hq _. rewrite (Hid Hq). reflexivity.
Qed.

(** X12: [sendMessage] reaches the socket of a session only while its status
    is CONNECTED.  After a connection-open on a session that has a socket the
    message is handed to the socket; after a connection-close, whatever the
    reason, it is refused with 'Session not connected', and so it is on a
    session that was just created; after a delete, and for an id that was
    never created, it is refused with 'Session not found or not
    connected'. *)
Theorem sendMessage_needs_connected
    (socket_sendMessage : string -> string -> Exn + string)
    (sessionId to content : string) (sv : Service) :
  (forall update user s,
     sessions sv !! sessionId = Some s -> is_Some (ws_socket s) ->
     (connection update = Some conn_open ->
      sendMessage socket_sendMessage sessionId to content
        (handleConnectionUpdate loggedOut QRCode_toDataURL sessionId update user sv)
      = socket_sendMessage to content)
     /\ (connection update = Some conn_close ->
         sendMessage socket_sendMessage sessionId to content
           (handleConnectionUpdate loggedOut QRCode_toDataURL sessionId update user sv)
         = inl (JsError "Session not connected")))
  /\ (forall userId usePairingCode registered,
        sessions sv !! sessionId = None ->
        DatabaseService.getSession sessionId (db sv) = None ->
        sendMessage socket_sendMessage sessionId to content
          (fst (createSession sessionId userId usePairingCode
                  (InitSocket registered) sv))
        = inl (JsError "Session not connected"))
  /\ sendMessage socket_sendMessage sessionId to content
       (fst (deleteSession sessionId sv))
     = inl (JsError "Session not found or not connected")
  /\ (sessions sv !! sessionId = None ->
      sendMessage socket_sendMessage sessionId to content sv
      = inl (JsError "Session not found or not connected")).
Proof.
  split; [|split; [|split]].
  - intros update user s Hs [k Hk].
    destruct (connection_update_live sessionId update user sv s Hs)
      as (s' & Hs' & Hsock & Hopen & Hclose & _).
    unfold sendMessage. rewrite Hs', Hsock, Hk. split; intros Hc.
    + rewrite (Hopen Hc). reflexivity.
    + rewrite (Hclose Hc). destruct (shouldReconnect loggedOut update); reflexivity.
  - intros userId usePairingCode registered Hs Hr.
    destruct (createSession_init_ok sessionId userId usePairingCode registered sv Hs Hr)
      as (sv' & session & Hc & Hs' & Hst & [k Hk] & _).
    rewrite Hc. cbn [fst]. unfold sendMessage. rewrite Hs', Hk, Hst.
    destruct (usePairingCode && negb registered); reflexivity.
  - destruct (deleteSession_effect sessionId sv) as (Hs & _).
    unfold sendMessage. rewrite Hs. reflexivity.
  - intros Hs. unfold sendMessage. rewrite Hs. reflexivity.
Qed.

(** X13: [shutdown] ends every socket a session holds and empties the
    registry, and that is all it does: the rows of the store are as they
    were (a session that was CONNECTED and active is so still), and the
    pending reconnect timers are still pending.  One that fires afterwards
    makes a new socket, which no session holds and nothing ends; and every
    [sendMessage] is refused. *)
Theorem shutdown_forgets (sv : Service) :
  sessions (shutdown sv) = ∅
  /\ db (shutdown sv) = db sv
  /\ reconnects (shutdown sv) = reconnects sv
  /\ (forall socket,
        In socket (sockets_ended (shutdown sv))
        <-> In socket (sockets_ended sv)
            \/ exists k s, sessions sv !! k = Some s /\ ws_socket s = Some socket)
  /\ (forall n sessionId registered,
        reconnects sv !! n = Some sessionId ->
        sockets_opened (fire_reconnect n (InitSocket registered) (shutdown sv))
        = S (sockets_opened sv)
        /\ sessions (fire_reconnect n (InitSocket registered) (shutdown sv)) = ∅
        /\ sockets_ended (fire_reconnect n (InitSocket registered) (shutdown sv))
           = sockets_ended (shutdown sv))
  /\ (forall socket_sendMessage sessionId to content,
        sendMessage socket_sendMessage sessionId to content (shutdown sv)
        = inl (JsError "Session not found or not connected")).
Proof.
  split; [reflexivity|]. split; [reflexivity|]. split; [reflexivity|].
  split; [|split].
  - intros socket. unfold shutdown. cbn [sockets_ended]. rewrite in_app_iff.
    split; (intros [H|H]; [left; exact H|right]).
    + apply list_elem_of_In, list_elem_of_omap in H as (s & Hin & Hsock).
      apply list_elem_of_In, in_map_iff in Hin as ([k s'] & Heq & Hin).
      cbn in Heq. subst s'. exists k, s. split; [|exact Hsock].
      apply elem_of_map_to_list, list_elem_of_In, Hin.
    + destruct H as (k & s & Hs & Hsock).
      apply list_elem_of_In, list_elem_of_omap. exists s. split; [|exact Hsock].
      apply list_elem_of_In, in_map_iff. exists (k, s). split; [reflexivity|].
      apply list_elem_of_In, elem_of_map_to_list, Hs.
  - intros n sessionId registered Hn. unfold fire_reconnect, shutdown.
    cbn [reconnects]. rewrite Hn.
    unfold initializeWhatsAppConnection, initialize_body.
    cbn [sessions with_reconnects]. rewrite lookup_empty. cbn [sessions].
    rewrite lookup_empty. cbn. repeat split.
  - intros f sessionId to content. unfold sendMessage, shutdown. cbn [sessions].
    rewrite lookup_empty. reflexivity.
Qed.

Section Listing.

Variable by_lastSeen_desc
  : list DatabaseService.SessionRow -> list DatabaseService.SessionRow.

(** X14: [GET /api/sessions] never shows what the registry knows.  The
    handler reads [status], [qrCode] and [pairingCode] off the promise that
    [getSession] returns, without awaiting it, so every session of the list
    has the live status DISCONNECTED and no code, whatever its live object
    holds; [GET /api/sessions/:sessionId], which awaits, shows the live
    status and the codes of the same session. *)
Theorem session_list_ignores_registry (userId : string) (sv : Service) :
  (exists views,
     GET_sessions by_lastSeen_desc userId sv = Sent 200 views
     /\ map view_row views
        = DatabaseService.getUserSessions by_lastSeen_desc userId (db sv)
     /\ Forall (fun v => view_liveStatus v = DISCONNECTED
                         /\ view_qrCode v = None
                         /\ view_pairingCode v = None) views)
  /\ forall sessionId row s,
       DatabaseService.getSession sessionId (db sv) = Some row ->
       sessions sv !! sessionId = Some s ->
       GET_session sessionId sv
       = Sent 200 (mkView row (ws_status s) (ws_qrCode s) (ws_pairingCode s)).
Proof.
  split.
  - unfold GET_sessions. eexists. split; [reflexivity|]. split.
    + rewrite map_map. cbn. apply map_id.
    + apply Forall_map. apply List.Forall_forall. intros r _. cbn. auto.
  - intros sessionId row s Hrow Hs. unfold GET_session, getSession, await.
    rewrite Hrow, Hs. reflexivity.
Qed.

End Listing.

(** X15: the QR endpoint through the life of a session.  In every state the
    service reaches from its start, a session whose status is CONNECTED gets
    404 from [GET /api/sessions/:sessionId/qr].  After a QR update that the
    encoder turns into a data URL the endpoint serves that URL with the
    status QR_REQUIRED; and a connection-close does not take the code away:
    the endpoint goes on serving it, with the status the close gave. *)
Theorem qr_endpoint (sessionId : string) :
  (forall acts s,
     sessions (run loggedOut QRCode_toDataURL acts initial) !! sessionId = Some s ->
     ws_status s = CONNECTED ->
     GET_qr sessionId (run loggedOut QRCode_toDataURL acts initial)
     = Refused 404 "QR code not available")
  /\ (forall sv s update user q url,
        sessions sv !! sessionId = Some s ->
        qr update = Some q -> q <> "" -> QRCode_toDataURL q = inr url -> url <> "" ->
        connection update = None ->
        GET_qr sessionId
          (handleConnectionUpdate loggedOut QRCode_toDataURL sessionId update user sv)
        = Sent 200 (url, QR_REQUIRED))
  /\ (forall sv update user url status,
        GET_qr sessionId sv = Sent 200 (url, status) ->
        qr update = None -> connection update = Some conn_close ->
        GET_qr sessionId
          (handleConnectionUpdate loggedOut QRCode_toDataURL sessionId update user sv)
        = Sent 200 (url, if shouldReconnect loggedOut update
                         then CONNECTING else DISCONNECTED)).
Proof.
  split; [|split].
  - intros acts s Hs Hst.
    pose proof (registry_ok_run loggedOut QRCode_toDataURL acts initial
                  registry_ok_initial _ _ Hs) as [_ Hq].
    unfold GET_qr, getSession, await. rewrite Hs, (Hq Hst). reflexivity.
  - intros sv s update user q url Hs Hq Hne Hurl Hne' Hconn.
    destruct (qr_transition loggedOut QRCode_toDataURL sessionId update user sv s q url
                Hs Hq Hne Hurl Hconn) as (s' & Hs' & Hst & Hqr & _).
    unfold GET_qr, getSession, await. rewrite Hs', Hqr, Hst.
    apply String.eqb_neq in Hne'. rewrite Hne'. reflexivity.
  - intros sv update user url status Hget Hq Hc.
    unfold GET_qr, getSession, await in Hget.
    destruct (sessions sv !! sessionId) as [s|] eqn:Hs; [|discriminate].
    destruct (ws_qrCode s) as [code|] eqn:Hcode; [|discriminate].
    destruct (String.eqb code "") eqn:He; [discriminate|]. injection Hget as <- <-.
    destruct (connection_update_live sessionId update user sv s Hs)
      as (s' & Hs' & _ & _ & Hclose & Hkeep).
    unfold GET_qr, getSession, await.
    rewrite Hs', (Hkeep Hq), Hcode, He, (Hclose Hc); [reflexivity|].
    rewrite Hc. discriminate.
Qed.

End Routes.

Section Rows.
Import WhatsAppService.

Variable loggedOut : Z.
Variable QRCode_toDataURL : string -> Exn + string.

Lemma row_as_refl sid sv : row_as sid (fun r => r) sv sv.
Proof.
  unfold row_as. destruct (DatabaseService.sessions (db sv) !! sid); reflexivity.
Qed.

Lemma row_as_set_status sid status g sv sv' :
  row_as sid g sv sv' -> row_as sid g sv (set_status sid status sv').
Proof. intros H. exact H. Qed.

Lemma row_as_modify sid f g sv sv' :
  row_as sid g sv sv' -> row_as sid g sv (modify sid f sv').
Proof. intros H. exact H. Qed.

Lemma row_as_emitSessionUpdate sid g sv sv' :
  row_as sid g sv sv' -> row_as sid g sv (emitSessionUpdate sid sv').
Proof. unfold row_as. rewrite db_emitSessionUpdate. auto. Qed.

Lemma row_as_with_reconnects sid l g sv sv' :
  row_as sid g sv sv' -> row_as sid g sv (with_reconnects l sv').
Proof. intros H. exact H. Qed.

Lemma row_as_updateSessionInDatabase sid data g sv sv' :
  row_as sid g sv sv' ->
  row_as sid (fun r => data (g r)) sv (updateSessionInDatabase sid data sv').
Proof.
  unfold row_as, updateSessionInDatabase, DatabaseService.updateSession.
  intros H. destruct (DatabaseService.sessions (db sv') !! sid) as [r|] eqn:Hr.
  - cbn. rewrite lookup_insert_eq.
    destruct (DatabaseService.sessions (db sv) !! sid); [|discriminate].
    cbn in *. congruence.
  - rewrite Hr. destruct (DatabaseService.sessions (db sv) !! sid); [discriminate|].
    reflexivity.
Qed.

Ltac durable_row :=
  repeat first
    [ apply row_as_refl
    | apply row_as_emitSessionUpdate
    | apply row_as_updateSessionInDatabase
    | apply row_as_set_status
    | apply row_as_modify
    | apply row_as_with_reconnects ].

(** What a connection update does to the row of its session: the pairing
    code, the owner and the soft-delete flag are not written. *)
Lemma connection_update_row sid update user sv :
  exists g,
    row_as sid g sv
      (handleConnectionUpdate loggedOut QRCode_toDataURL sid update user sv)
    /\ (forall r, DatabaseService.row_pairingCode (g r) = DatabaseService.row_pairingCode r
                  /\ DatabaseService.row_userId (g r) = DatabaseService.row_userId r
                  /\ DatabaseService.row_isActive (g r) = DatabaseService.row_isActive r)
    /\ (is_Some (sessions sv !! sid) -> connection update = Some conn_open ->
        forall r, DatabaseService.row_status (g r) = Some CONNECTED
                  /\ DatabaseService.row_qrCode (g r) = None).
Proof.
  unfold handleConnectionUpdate.
  destruct (sessions sv !! sid) as [s|] eqn:Hs.
  2:{ exists (fun r => r). split; [apply row_as_refl|]. split; [auto|].
      intros [? H]. discriminate H. }
  set (sv1 := match qr update with Some _ => _ | None => _ end).
  assert (H1 : exists g, row_as sid g sv sv1
             /\ forall r, DatabaseService.row_pairingCode (g r) = DatabaseService.row_pairingCode r
                  /\ DatabaseService.row_userId (g r) = DatabaseService.row_userId r
                  /\ DatabaseService.row_isActive (g r) = DatabaseService.row_isActive r).
  { subst sv1. destruct (qr update) as [q|];
      [|eexists; split; [apply row_as_refl|auto]].
    destruct (String.eqb q ""); [eexists; split; [apply row_as_refl|auto]|].
    destruct (QRCode_toDataURL q); [eexists; split; [apply row_as_refl|auto]|].
    eexists. split; [durable_row|]. intros r. cbn. auto. }
  destruct H1 as (g & Hg & Hkeep).
  destruct (connection update) as [[| |]|] eqn:Hc.
  - eexists. split; [durable_row; exact Hg|].
    split; [intros r; cbn; apply Hkeep|]. intros _ _ r. cbn. auto.
  - destruct (shouldReconnect loggedOut update);
      (eexists; split; [durable_row; exact Hg|]);
      (split; [intros r; cbn; apply Hkeep|]); intros _ H; discriminate H.
  - exists g. split; [exact Hg|]. split; [exact Hkeep|]. intros _ H. discriminate H.
  - exists g. split; [exact Hg|]. split; [exact Hkeep|]. intros _ H. discriminate H.
Qed.

(** X16: the store keeps a pairing code that the registry has dropped.
    No connection update writes the [pairingCode] column of a row: when a
    session that asked for a pairing code gets connected, its live object
    has no pairing code any more, while its row, now CONNECTED and without
    a QR code, still has the code. *)
Theorem pairing_code_stays_in_row (sv : Service) (sessionId : string) :
  (forall update user,
     DatabaseService.row_pairingCode
       <$> DatabaseService.getSession sessionId
             (db (handleConnectionUpdate loggedOut QRCode_toDataURL sessionId
                    update user sv))
     = DatabaseService.row_pairingCode
         <$> DatabaseService.getSession sessionId (db sv))
  /\ forall s r phoneNumber code update user,
       sessions sv !! sessionId = Some s ->
       is_Some (ws_socket s) ->
       DatabaseService.getSession sessionId (db sv) = Some r ->
       connection update = Some conn_open ->
       (exists s',
          sessions
            (handleConnectionUpdate loggedOut QRCode_toDataURL sessionId update user
               (fst (requestPairingCode sessionId phoneNumber (inr code) sv)))
            !! sessionId = Some s'
          /\ ws_status s' = CONNECTED
          /\ ws_pairingCode s' = None)
       /\ (exists r',
             DatabaseService.getSession sessionId
               (db (handleConnectionUpdate loggedOut QRCode_toDataURL sessionId
                      update user
                      (fst (requestPairingCode sessionId phoneNumber (inr code) sv))))
             = Some r'
             /\ DatabaseService.row_status r' = Some CONNECTED
             /\ DatabaseService.row_qrCode r' = None
             /\ DatabaseService.row_pairingCode r' = Some code).
Proof.
  split.
  - intros update user.
    destruct (connection_update_row sessionId update user sv) as (g & Hg & Hkeep & _).
    unfold DatabaseService.getSession. unfold row_as in Hg. rewrite Hg.
    destruct (DatabaseService.sessions (db sv) !! sessionId) as [r|]; [|reflexivity].
    cbn. f_equal. apply Hkeep.
  - intros s r phoneNumber code update user Hs Hsock Hr Hopen.
    destruct (pairing_stored sessionId phoneNumber code sv s Hs Hsock)
      as (s1 & Hs1 & _).
    set (sv1 := fst (requestPairingCode sessionId phoneNumber (inr code) sv)) in *.
    assert (Hr1 : exists r1,
              DatabaseService.sessions (db sv1) !! sessionId = Some r1
              /\ DatabaseService.row_pairingCode r1 = Some code).
    { subst sv1. unfold requestPairingCode. rewrite Hs. cbn [mbind option_bind].
      destruct Hsock as [k ->]. cbn [fst].
      match goal with
      | |- exists r1, DatabaseService.sessions (db ?X) !! _ = Some r1 /\ _ =>
          eassert (Hrow : row_as sessionId _ sv X) by durable_row
      end.
      unfold row_as in Hrow. rewrite Hrow.
      unfold DatabaseService.getSession in Hr. rewrite Hr.
      eexists. split; [reflexivity|reflexivity]. }
    destruct Hr1 as (r1 & Hr1 & Hcode).
    split.
    + destruct (open_transition loggedOut QRCode_toDataURL sessionId update user sv1 s1
                  Hs1 Hopen) as (s' & Hs' & Hst & _ & Hp & _).
      exists s'. auto.
    + destruct (connection_update_row sessionId update user sv1)
        as (g & Hg & Hkeep & Hconn).
      unfold DatabaseService.getSession. unfold row_as in Hg. rewrite Hg, Hr1.
      exists (g r1). split; [reflexivity|].
      destruct (Hconn ltac:(rewrite Hs1; eauto) Hopen r1) as [Hst Hq].
      split; [exact Hst|]. split; [exact Hq|].
      destruct (Hkeep r1) as (-> & _). exact Hcode.
Qed.

End Rows.

(** ** The rate limiter *)

Section RateLimit.
Import AuthMiddleware.

Variables windowMs max : Z.

Lemma after_after (a b : Z) (l : list Z) :
  a <= b -> after b (after a l) = after b l.
Proof.
  intros Hab. unfold after. induction l as [|x l IH]; cbn; [reflexivity|].
  destruct (Z.ltb_spec a x); cbn; destruct (Z.ltb_spec b x); try lia;
    rewrite ?IH; reflexivity.
Qed.

Lemma after_app (a : Z) (l l' : list Z) : after a (l ++ l') = after a l ++ after a l'.
Proof. apply List.filter_app. Qed.

Lemma instants_of_app (key : string) (l l' : list (string * Z)) :
  instants_of key (l ++ l') = instants_of key l ++ instants_of key l'.
Proof. unfold instants_of. rewrite List.filter_app, map_app. reflexivity. Qed.

Lemma within_app (t : Z) (l l' : list Z) :
  within windowMs t (l ++ l') = within windowMs t l ++ within windowMs t l'.
Proof. apply List.filter_app. Qed.

Lemma instants_in (key : string) (l : list (string * Z)) (x : Z) :
  In x (instants_of key l) -> In (key, x) l.
Proof.
  unfold instants_of. intros H. apply in_map_iff in H as ([k y] & Hy & Hin).
  apply filter_In in Hin as [Hin Hk]. cbn in *. apply String.eqb_eq in Hk.
  subst. exact Hin.
Qed.

(** In a window that ends at or after the latest instant, the instants are
    among those after the start of the window that ends at [now]. *)
Lemma within_le_after (t now : Z) (l : list Z) :
  now <= t ->
  (length (within windowMs t l) <= length (after (now - windowMs) l))%nat.
Proof.
  intros Ht. unfold within, after. induction l as [|x l IH]; cbn; [lia|].
  destruct (Z.ltb_spec (t - windowMs) x); cbn.
  - destruct (Z.ltb_spec (now - windowMs) x); [|lia].
    destruct (x <=? t); cbn; lia.
  - destruct (now - windowMs <? x); cbn; lia.
Qed.

Lemma instants_of_one (k key : string) (now : Z) :
  instants_of k [(key, now)] = if String.eqb key k then [now] else [].
Proof. unfold instants_of. cbn. destruct (String.eqb key k); reflexivity. Qed.

Lemma within_one (t now : Z) :
  within windowMs t [now]
  = if (t - windowMs <? now) && (now <=? t) then [now] else [].
Proof. reflexivity. Qed.

Lemma limiter_ok_empty : limiter_ok windowMs max ∅ [].
Proof.
  split; [intros key start _; rewrite lookup_empty; reflexivity|].
  intros key t. cbn. lia.
Qed.

Lemma limiter_step (key : string) (now : Z) (requests : Requests)
    (passed : list (string * Z)) :
  limiter_ok windowMs max requests passed ->
  (forall c, In c passed -> snd c <= now) ->
  limiter_ok windowMs max (fst (rateLimit windowMs max key now requests))
    (passed ++ if snd (rateLimit windowMs max key now requests)
               then [(key, now)] else []).
Proof.
  intros [Hheld Hbound] Hpast. unfold rateLimit.
  fold (after (now - windowMs) (default [] (requests !! key))).
  rewrite (Hheld key (now - windowMs)) by (intros c Hc; specialize (Hpast c Hc); lia).
  destruct (Z.leb_spec max (Z.of_nat (length (after (now - windowMs)
                                                (instants_of key passed)))))
    as [Hfull|Hroom]; cbn [fst snd].
  - rewrite app_nil_r. split; assumption.
  - split.
    + intros k start Hstart.
      assert (Hnow : now - windowMs <= start)
        by (apply (Hstart (key, now)), in_or_app; right; left; reflexivity).
      assert (Hstart' : forall c, In c passed -> snd c - windowMs <= start)
        by (intros c Hc; apply Hstart, in_or_app; left; exact Hc).
      rewrite instants_of_app, after_app, instants_of_one.
      destruct (decide (key = k)) as [<-|Hne].
      * rewrite lookup_insert_eq. cbn [default from_option id].
        rewrite after_app, after_after by exact Hnow.
        rewrite String.eqb_refl. reflexivity.
      * rewrite lookup_insert_ne by exact Hne.
        rewrite (Hheld k start Hstart').
        destruct (String.eqb_spec key k); [contradiction|].
        rewrite app_nil_r. reflexivity.
    + intros k t. rewrite instants_of_app, within_app, length_app, instants_of_one.
      destruct (String.eqb_spec key k) as [<-|Hne];
        [|cbn; specialize (Hbound k t); lia].
      rewrite within_one.
      destruct (Z.ltb_spec (t - windowMs) now); cbn [andb];
        [|cbn; specialize (Hbound key t); lia].
      destruct (Z.leb_spec now t); [|cbn; specialize (Hbound key t); lia].
      pose proof (within_le_after t now (instants_of key passed) ltac:(lia)).
      cbn [length]. lia.
Qed.

Lemma serve_sub (calls : list (string * Z)) (requests : Requests) (c : string * Z) :
  In c (snd (serve windowMs max calls requests)) -> In c calls.
Proof.
  revert requests. induction calls as [|[key now] calls IH]; intros requests; cbn;
    [auto|].
  destruct (snd (rateLimit windowMs max key now requests)); cbn.
  - intros [<-|H]; [left; reflexivity|right; eapply IH, H].
  - intros H. right. eapply IH, H.
Qed.

Lemma limiter_run (calls : list (string * Z)) :
  forall (requests : Requests) (passed : list (string * Z)),
  limiter_ok windowMs max requests passed ->
  StronglySorted Z.le (map snd calls) ->
  (forall c c', In c passed -> In c' calls -> snd c <= snd c') ->
  limiter_ok windowMs max (fst (serve windowMs max calls requests))
    (passed ++ snd (serve windowMs max calls requests)).
Proof.
  induction calls as [|[key now] calls IH]; intros requests passed Hok Hsorted Hpast.
  - cbn. rewrite app_nil_r. exact Hok.
  - cbn [serve fst snd]. cbn [map snd] in Hsorted.
    apply StronglySorted_inv in Hsorted as [Hsorted Hhead].
    pose proof (limiter_step key now requests passed Hok
                  (fun c Hc => Hpast c (key, now) Hc (or_introl eq_refl))) as Hstep.
    set (ok := snd (rateLimit windowMs max key now requests)) in *.
    set (requests1 := fst (rateLimit windowMs max key now requests)) in *.
    assert (Hfinal := IH requests1 (passed ++ if ok then [(key, now)] else [])
                         Hstep Hsorted).
    rewrite <- app_assoc in Hfinal.
    assert (Heq : (if ok then [(key, now)] else [])
                  ++ snd (serve windowMs max calls requests1)
                  = if ok then (key, now) :: snd (serve windowMs max calls requests1)
                    else snd (serve windowMs max calls requests1))
      by (destruct ok; reflexivity).
    rewrite Heq in Hfinal. apply Hfinal.
    intros c c' Hc Hc'. apply in_app_or in Hc as [Hc|Hc].
    + apply (Hpast c c' Hc). right. exact Hc'.
    + destruct ok; [|destruct Hc]. destruct Hc as [<-|[]]. cbn.
      rewrite List.Forall_forall in Hhead. apply Hhead.
      apply in_map_iff. exists c'. split; [reflexivity|exact Hc'].
Qed.

(** X17: the limiter made by [createRateLimit(windowMs, max)], from its
    first call on, with a clock that does not go back: whatever the calls
    and the keys, in no window of [windowMs] milliseconds are more than [max]
    calls of the same key let through (none at all when [max] is not
    positive). *)
Theorem rate_limit_window (calls : list (string * Z)) (key : string) (t : Z) :
  Sorted Z.le (map snd calls) ->
  Z.of_nat
    (length (within windowMs t
               (instants_of key (snd (serve windowMs max calls ∅)))))
  <= Z.max 0 max.
Proof.
  intros Hsorted.
  apply Sorted_StronglySorted in Hsorted; [|intros x y z; apply Z.le_trans].
  destruct (limiter_run calls ∅ [] limiter_ok_empty Hsorted) as [_ Hbound].
  - intros c c' [].
  - apply Hbound.
Qed.

(** X18: a call that is refused leaves no trace, and the refusals do not
    add up: with [max] positive, a key of which no call was let through in
    the last [windowMs] milliseconds is let through, however many of its
    calls were refused in between. *)
Theorem rate_limit_recovers (calls : list (string * Z)) (key : string) (now : Z) :
  0 < max ->
  Sorted Z.le (map snd (calls ++ [(key, now)])) ->
  (forall time,
     In time (instants_of key (snd (serve windowMs max calls ∅))) ->
     time <= now - windowMs) ->
  snd (rateLimit windowMs max key now (fst (serve windowMs max calls ∅))) = true
  /\ forall key' now' requests,
       snd (rateLimit windowMs max key' now' requests) = false ->
       fst (rateLimit windowMs max key' now' requests) = requests.
Proof.
  intros Hmax Hsorted Hquiet. split.
  - apply Sorted_StronglySorted in Hsorted; [|intros x y z; apply Z.le_trans].
    rewrite map_app in Hsorted. cbn in Hsorted.
    assert (Hcalls : StronglySorted Z.le (map snd calls)).
    { clear -Hsorted. induction (map snd calls) as [|x l IH]; [constructor|].
      cbn in Hsorted. apply StronglySorted_inv in Hsorted as [H1 H2].
      constructor; [apply IH, H1|]. rewrite List.Forall_forall in *.
      intros y Hy. apply H2, in_or_app. left. exact Hy. }
    assert (Hlast : forall c, In c calls -> snd c <= now).
    { clear -Hsorted. intros c Hc. apply (in_map snd) in Hc.
      induction (map snd calls) as [|x l IH]; [destruct Hc|].
      cbn in Hsorted. apply StronglySorted_inv in Hsorted as [H1 H2].
      destruct Hc as [<-|Hc]; [|apply IH; assumption].
      rewrite List.Forall_forall in H2. apply H2, in_or_app. right. left. reflexivity. }
    destruct (limiter_run calls ∅ [] limiter_ok_empty Hcalls) as [Hheld _];
      [intros c c' []|].
    cbn [app] in Hheld. unfold rateLimit.
    fold (after (now - windowMs)
            (default [] (fst (serve windowMs max calls ∅) !! key))).
    rewrite (Hheld key (now - windowMs)).
    + assert (Hnone : after (now - windowMs)
                        (instants_of key (snd (serve windowMs max calls ∅))) = []).
      { unfold after. apply filter_none. apply List.Forall_forall. intros x Hx.
        apply Z.ltb_ge. apply Hquiet, Hx. }
      rewrite Hnone. cbn [length app]. change (Z.of_nat 0) with 0.
      destruct (Z.leb_spec max 0); [lia|reflexivity].
    + intros c Hc. apply serve_sub in Hc. specialize (Hlast c Hc). lia.
  - intros key' now' requests. unfold rateLimit.
    destruct (max <=? _); [reflexivity|discriminate].
Qed.

End RateLimit.

(** ** Concrete checks of the further properties *)

Section FurtherChecks.
Import DatabaseService WebhookService.

Lemma retry_delay_bounds_witness :
  0 <= 9
  /\ 1000 <= calculateRetryDelay 9 <= 300000
  /\ calculateRetryDelay 9 = 300000.
Proof.
  assert (H : 0 <= 9) by lia.
  split; [exact H|]. split; [exact (proj1 (retry_delay_bounds 9 H))|].
  apply (proj1 (proj2 (proj2 (proj2 (retry_delay_bounds 9 H))))). lia.
Defined.

Lemma retries_never_decrease_witness :
  webhook_findUnique "wh1" (db (Sample.state 0)) = Some (Sample.hook 0)
  /\ exists w',
       webhook_findUnique "wh1"
         (db (run_ops Sample.endpoint_down Sample.stringify Sample.test_data
                Sample.oldest_first Sample.created_at
                [SendWebhook "s1" "message.received" "{}"; TimerFires;
                 TestWebhook "wh1"; RetryFailedDeliveries "wh1"; Cleanup]
                (Sample.state 0)))
       = Some w'
       /\ 0 <= wh_retries w'.
Proof.
  assert (H : webhook_findUnique "wh1" (db (Sample.state 0)) = Some (Sample.hook 0))
    by reflexivity.
  split; [exact H|].
  destruct (retries_never_decrease Sample.endpoint_down Sample.stringify
              Sample.test_data Sample.oldest_first Sample.created_at
              [SendWebhook "s1" "message.received" "{}"; TimerFires;
               TestWebhook "wh1"; RetryFailedDeliveries "wh1"; Cleanup]
              (Sample.state 0) "wh1" (Sample.hook 0) H)
    as (w' & Hw' & _ & _ & Hle).
  exists w'. split; [exact Hw'|exact Hle].
Defined.

Lemma exhausted_is_final_witness :
  exhausted "wh1" (db (Sample.state 3))
  /\ retryFailedDeliveries Sample.endpoint_down Sample.stringify Sample.oldest_first
       "wh1"
       (run_ops Sample.endpoint_down Sample.stringify Sample.test_data
          Sample.oldest_first Sample.created_at
          [SendWebhook "s1" "message.received" "{}"; TimerFires]
          (Sample.state 3))
     = (run_ops Sample.endpoint_down Sample.stringify Sample.test_data
          Sample.oldest_first Sample.created_at
          [SendWebhook "s1" "message.received" "{}"; TimerFires]
          (Sample.state 3),
        inr 0%nat).
Proof.
  assert (H : exhausted "wh1" (db (Sample.state 3))).
  { exists (Sample.hook 3). split; [reflexivity|]. cbn. lia. }
  split; [exact H|].
  exact (proj2 (proj2
           (exhausted_is_final Sample.endpoint_down Sample.stringify Sample.test_data
              Sample.oldest_first Sample.created_at
              [SendWebhook "s1" "message.received" "{}"; TimerFires]
              (Sample.state 3) "wh1" H))).
Defined.

Lemma two_failed_fresh : fresh_ids (db Sample.two_failed).
Proof. unfold fresh_ids. vm_compute. repeat constructor. Defined.

Lemma manual_retry_resends_witness :
  (forall l, Permutation (Sample.oldest_first l) l)
  /\ fresh_ids (db Sample.two_failed)
  /\ webhook_findUnique "wh1" (db Sample.two_failed) = Some (Sample.hook 0)
  /\ length (failed_of "wh1" (db Sample.two_failed)) = 1%nat
  /\ snd (retryFailedDeliveries Sample.endpoint_gone Sample.stringify
            Sample.oldest_first "wh1" Sample.two_failed)
     = inr 1%nat.
Proof.
  assert (H1 : forall l, Permutation (Sample.oldest_first l) l)
    by (intros l; apply Permutation_sym, Permutation_rev).
  assert (H2 : webhook_findUnique "wh1" (db Sample.two_failed) = Some (Sample.hook 0))
    by (vm_compute; reflexivity).
  assert (H3 : wh_retries (Sample.hook 0) < wh_maxRetries (Sample.hook 0))
    by (cbn; lia).
  split; [exact H1|]. split; [exact two_failed_fresh|]. split; [exact H2|].
  split; [vm_compute; reflexivity|].
  exact (proj1
           (manual_retry_resends Sample.endpoint_gone Sample.stringify
              Sample.oldest_first Sample.two_failed "wh1" (Sample.hook 0)
              H1 two_failed_fresh H2 H3)).
Defined.

Lemma cleanup_misses_replaced_timer_witness :
  fresh_ids (db (Sample.state 0))
  /\ queue_ok (Sample.state 0)
  /\ (forall n request, failing (Sample.endpoint_down n request))
  /\ length
       (timers
          (deliverWebhook Sample.endpoint_down Sample.stringify "wh1"
             "https://example.org/hook" "message.updated" "{}" (Some "s3cret")
             (deliverWebhook Sample.endpoint_down Sample.stringify "wh1"
                "https://example.org/hook" "message.received" "{}" (Some "s3cret")
                (Sample.state 0))))
     = 2%nat
  /\ length
       (timers
          (cleanup Sample.created_at
             (deliverWebhook Sample.endpoint_down Sample.stringify "wh1"
                "https://example.org/hook" "message.updated" "{}" (Some "s3cret")
                (deliverWebhook Sample.endpoint_down Sample.stringify "wh1"
                   "https://example.org/hook" "message.received" "{}" (Some "s3cret")
                   (Sample.state 0)))))
     = 1%nat.
Proof.
  assert (H1 : fresh_ids (db (Sample.state 0))) by constructor.
  assert (H2 : queue_ok (Sample.state 0)) by apply map_Forall_empty.
  assert (H3 : forall n request, failing (Sample.endpoint_down n request))
    by (intros; exact I).
  assert (H4 : wh_retries (Sample.hook 0) + 1 < wh_maxRetries (Sample.hook 0))
    by (cbn; lia).
  split; [exact H1|]. split; [exact H2|]. split; [exact H3|].
  destruct (cleanup_misses_replaced_timer Sample.endpoint_down Sample.stringify
              Sample.created_at (Sample.state 0) (Sample.hook 0)
              "message.received" "{}" "message.updated" "{}"
              H1 H2 eq_refl eq_refl H4 H3)
    as (Htwo & _ & t & Ht & _).
  split; [exact Htwo|].
  change (wh_id (Sample.hook 0)) with "wh1" in Ht.
  change (wh_url (Sample.hook 0)) with "https://example.org/hook" in Ht.
  change (wh_secret (Sample.hook 0)) with (Some "s3cret") in Ht.
  rewrite Ht. reflexivity.
Defined.

Lemma deleted_webhook_still_retried_witness :
  fresh_ids (db (Sample.state 0))
  /\ deleteWebhook "wh1" (db (Sample.state 0))
     = inr (webhook_update "wh1" set_webhook_inactive (db (Sample.state 0)))
  /\ exists reqs,
       requests
         (sendWebhook Sample.endpoint_up Sample.stringify "s1" "message.received" "{}"
            (with_db (webhook_update "wh1" set_webhook_inactive (db (Sample.state 0)))
                     (Sample.state 0)))
       = requests (Sample.state 0) ++ reqs
       /\ Forall (fun r => req_webhookId r <> "wh1") reqs.
Proof.
  assert (H1 : fresh_ids (db (Sample.state 0))) by constructor.
  assert (H2 : deleteWebhook "wh1" (db (Sample.state 0))
               = inr (webhook_update "wh1" set_webhook_inactive (db (Sample.state 0))))
    by reflexivity.
  split; [exact H1|]. split; [exact H2|].
  exact (proj1
           (deleted_webhook_still_retried Sample.endpoint_up Sample.stringify
              (Sample.state 0) "wh1" _ H1 H2)
           "s1" "message.received" "{}").
Defined.

End FurtherChecks.

Section FurtherSessionChecks.
Import WhatsAppService.

Lemma deleted_session_keeps_its_id_witness :
  DatabaseService.getSession "s1" (db Sample.created)
  = Some (DatabaseService.mkSessionRow "s1" "u1" None None None None None None true)
  /\ snd (sessionMiddleware "s1" "u1" Sample.created
            (DELETE_session "s1" Sample.created))
     = Sent 200 tt
  /\ GET_session "s1"
       (fst (sessionMiddleware "s1" "u1" Sample.created
               (DELETE_session "s1" Sample.created)))
     = Sent 200
         (mkView
            (DatabaseService.mkSessionRow "s1" "u1" None None None None None None false)
            DISCONNECTED None None).
Proof.
  assert (H : DatabaseService.getSession "s1" (db Sample.created)
              = Some (DatabaseService.mkSessionRow "s1" "u1" None None None None
                        None None true))
    by (vm_compute; reflexivity).
  split; [exact H|].
  destruct (deleted_session_keeps_its_id Sample.created "s1" "u1" _ H eq_refl)
    as (Hdel & Hget & _).
  split; [exact Hdel|exact Hget].
Defined.

End FurtherSessionChecks.

Section LimiterChecks.
Import AuthMiddleware.

Lemma rate_limit_window_witness :
  Sorted Z.le (map snd [("u1", 0); ("u1", 10); ("u1", 20); ("u1", 1500)])
  /\ Z.of_nat
       (length
          (within 1000 20
             (instants_of "u1"
                (snd (serve 1000 2 [("u1", 0); ("u1", 10); ("u1", 20); ("u1", 1500)]
                        ∅)))))
     <= Z.max 0 2.
Proof.
  assert (H : Sorted Z.le (map snd [("u1", 0); ("u1", 10); ("u1", 20); ("u1", 1500)]))
    by (cbn; repeat constructor; lia).
  split; [exact H|].
  exact (rate_limit_window 1000 2 [("u1", 0); ("u1", 10); ("u1", 20); ("u1", 1500)]
           "u1" 20 H).
Defined.

Lemma rate_limit_recovers_witness :
  0 < 2
  /\ Sorted Z.le (map snd ([("u1", 0); ("u1", 10); ("u1", 20); ("u1", 30)]
                           ++ [("u1", 1500)]))
  /\ snd (serve 1000 2 [("u1", 0); ("u1", 10); ("u1", 20); ("u1", 30)] ∅)
     = [("u1", 0); ("u1", 10)]
  /\ snd (rateLimit 1000 2 "u1" 1500
            (fst (serve 1000 2 [("u1", 0); ("u1", 10); ("u1", 20); ("u1", 30)] ∅)))
     = true.
Proof.
  assert (H1 : 0 < 2) by lia.
  assert (H2 : Sorted Z.le (map snd ([("u1", 0); ("u1", 10); ("u1", 20); ("u1", 30)]
                                     ++ [("u1", 1500)])))
    by (cbn; repeat constructor; lia).
  assert (H3 : forall time,
             In time (instants_of "u1"
                        (snd (serve 1000 2
                                [("u1", 0); ("u1", 10); ("u1", 20); ("u1", 30)] ∅))) ->
             time <= 1500 - 1000).
  { intros time Hin. vm_compute in Hin. destruct Hin as [<-|[<-|[]]]; lia. }
  split; [exact H1|]. split; [exact H2|]. split; [vm_compute; reflexivity|].
  exact (proj1 (rate_limit_recovers 1000 2
                  [("u1", 0); ("u1", 10); ("u1", 20); ("u1", 30)] "u1" 1500 H1 H2 H3)).
Defined.

End LimiterChecks.

(** ** The error middleware *)

Section Errors.
Import ErrorHandler.

Lemma errorHandler_production (error : ErrorObject) (r : ErrorResponse) :
  errorHandler "production" error = inr r ->
  res_stack r = None
  /\ (res_status r = 500 ->
      res_error r = "Internal Server Error" /\ res_details r = None).
Proof.
  unfold errorHandler. cbv zeta.
  match goal with
  | |- match ?c with _ => _ end = _ -> _ =>
      destruct c as [e|[[[statusCode message] code] details]]
  end; [discriminate|].
  intros H. injection H as <-. cbn [res_stack res_status res_error res_details].
  change (String.eqb "production" "development") with false.
  change (String.eqb "production" "production") with true.
  split; [reflexivity|]. intros ->. cbn. split; reflexivity.
Qed.

(** X19.  With [NODE_ENV] set to [production], whatever the error is, an
    answer of the error middleware never carries a stack trace, and an
    answer with status 500 carries the fixed text "Internal Server Error"
    and no details; the code of a Boom error is still the one of its data,
    also at status 500. *)
Theorem production_masks_internal_errors
    (error : ErrorObject) (r : ErrorResponse) :
  errorHandler "production" error = inr r ->
  res_stack r = None
  /\ (res_status r = 500 ->
      res_error r = "Internal Server Error" /\ res_details r = None)
  /\ (forall statusCode data,
        err_boom error = Some (statusCode, data) ->
        res_status r = statusCode
        /\ res_code r = code_or "BOOM_ERROR" (data ≫= data_code)).
Proof.
  intros H. destruct (errorHandler_production error r H) as [Hstack Hmask].
  split; [exact Hstack|]. split; [exact Hmask|].
  intros statusCode data Hboom. unfold errorHandler in H. rewrite Hboom in H.
  cbv zeta in H. injection H as <-. split; reflexivity.
Qed.

(** X20.  An error made by [createApiError] with a status other than 0
    comes back from the error middleware with that status, its message, its
    code ("API_ERROR" when none or an empty one was given) and its details,
    unless the environment is production and the status 500; the stack is
    added in development only.  With status 0 the error is not taken for an
    API error: the answer has another status and no details. *)
Theorem api_error_round_trip (node_env stack message : string) (statusCode : Z)
    (code : option string) (details : option Details) :
  statusCode <> 0 ->
  ~ (node_env = "production" /\ statusCode = 500) ->
  errorHandler node_env (createApiError stack message statusCode code details)
  = inr (mkResponse statusCode message (code_or "API_ERROR" (CodeText <$> code))
           details
           (if String.eqb node_env "development" then Some stack else None))
  /\ exists r,
       errorHandler node_env (createApiError stack message 0 code details) = inr r
       /\ res_status r <> 0
       /\ res_details r = None.
Proof.
  intros Hnz Hmask. split.
  - unfold errorHandler, createApiError.
    cbn [err_boom err_statusCode err_message err_code err_details err_stack].
    destruct (Z.eqb_spec statusCode 0) as [|_]; [contradiction|].
    cbn [negb default from_option id]. cbv zeta beta iota.
    assert (Hm : String.eqb node_env "production" && (statusCode =? 500) = false).
    { destruct (String.eqb_spec node_env "production") as [->|]; [|reflexivity].
      destruct (Z.eqb_spec statusCode 500) as [->|]; [|reflexivity].
      exfalso. apply Hmask. split; reflexivity. }
    rewrite Hm. reflexivity.
  - unfold errorHandler, createApiError.
    cbn [err_boom err_statusCode err_message err_code err_details err_stack
         err_name err_errors err_keyValue].
    change (0 =? 0) with true. cbn [negb].
    change (String.eqb "Error" "ValidationError") with false.
    change (String.eqb "Error" "CastError") with false.
    change (String.eqb "Error" "MongoError") with false.
    change (String.eqb "Error" "JsonWebTokenError") with false.
    change (String.eqb "Error" "TokenExpiredError") with false.
    change (String.eqb "Error" "MulterError") with false.
    cbn [andb].
    repeat match goal with
           | |- context [if includes ?a ?b then _ else _] =>
               destruct (includes a b)
           | |- context [if (?a || ?b)%bool then _ else _] =>
               destruct (a || b)%bool
           end;
      cbv zeta beta iota;
      (eexists; split; [reflexivity|]);
      cbn [res_status res_details];
      (split; [discriminate|]);
      match goal with
      | |- (if ?b then _ else _) = None => destruct b; reflexivity
      end.
Qed.

(** X21.  In production, an error of the protocol library that is not a
    Boom error, passed through [handleWhatsAppError] and answered by the
    error middleware, shows one of four fixed answers, without details and
    without stack: the text of the error never reaches the client.  The
    answer is 401 exactly when the text contains "not-authorized", whatever
    else it contains. *)
Theorem whatsapp_errors_in_production (stack : string) (error : ErrorObject) :
  err_boom error = None ->
  exists r,
    errorHandler "production" (handleWhatsAppError stack error) = inr r
    /\ In (res_status r, res_error r, res_code r)
          [(401, "WhatsApp session not authorized",
            CodeText "SESSION_NOT_AUTHORIZED");
           (503, "WhatsApp connection error", CodeText "CONNECTION_ERROR");
           (429, "WhatsApp rate limit exceeded", CodeText "RATE_LIMIT_EXCEEDED");
           (500, "Internal Server Error", CodeText "WHATSAPP_ERROR")]
    /\ res_details r = None
    /\ res_stack r = None
    /\ (res_status r = 401 <->
        includes "not-authorized" (err_message error) = true).
Proof.
  intros Hboom. unfold handleWhatsAppError. rewrite Hboom.
  destruct (includes "not-authorized" (err_message error)).
  { eexists. split; [reflexivity|]. cbn. repeat split; auto. }
  destruct (includes "connection" (err_message error)).
  { eexists. split; [reflexivity|]. cbn.
    repeat split; auto; intros; discriminate. }
  destruct (includes "rate-limit" (err_message error)).
  { eexists. split; [reflexivity|]. cbn.
    repeat split; auto; intros; discriminate. }
  eexists. split; [reflexivity|]. cbn.
  repeat split; auto 6; intros; discriminate.
Qed.

End Errors.

Section ErrorChecks.
Import ErrorHandler.

Lemma production_masks_internal_errors_witness :
  errorHandler "production" Sample.boom_500 = inr Sample.boom_500_answer
  /\ res_stack Sample.boom_500_answer = None
  /\ (res_status Sample.boom_500_answer = 500 ->
      res_error Sample.boom_500_answer = "Internal Server Error"
      /\ res_details Sample.boom_500_answer = None).
Proof.
  assert (H : errorHandler "production" Sample.boom_500
              = inr Sample.boom_500_answer) by (vm_compute; reflexivity).
  split; [exact H|].
  pose proof (production_masks_internal_errors Sample.boom_500
                Sample.boom_500_answer H) as (Hs & Hm & _).
  split; [exact Hs|exact Hm].
Defined.

Lemma api_error_round_trip_witness :
  errorHandler "development"
    (createApiError "at route" "Webhook not found" 404 None (Some (Other "wh-1")))
  = inr (mkResponse 404 "Webhook not found" (CodeText "API_ERROR")
           (Some (Other "wh-1")) (Some "at route")).
Proof.
  refine (proj1 (api_error_round_trip "development" "at route" "Webhook not found"
                   404 None (Some (Other "wh-1")) _ _)).
  - discriminate.
  - intros [H _]. discriminate H.
Defined.

Lemma whatsapp_errors_in_production_witness :
  err_boom Sample.closed_not_authorized = None
  /\ exists r,
       errorHandler "production"
         (handleWhatsAppError "at send" Sample.closed_not_authorized) = inr r
       /\ res_status r = 401.
Proof.
  split; [reflexivity|].
  destruct (whatsapp_errors_in_production "at send" Sample.closed_not_authorized
              eq_refl)
    as (r & Hr & _ & _ & _ & H401).
  exists r. split; [exact Hr|]. apply H401. vm_compute. reflexivity.
Defined.

End ErrorChecks.

(** ** The handlers of [/api/chats] *)

Section Chats.
Import DatabaseService WhatsAppService ChatRoutes.

Variable socket_chatModify : nat -> Modification -> string -> Exn + unit.

Lemma same_fixed_refl (row : Chat) : same_fixed_columns row row.
Proof. repeat split. Qed.

Lemma same_fixed_trans (a b c : Chat) :
  same_fixed_columns a b -> same_fixed_columns b c -> same_fixed_columns a c.
Proof.
  unfold same_fixed_columns. intros (?&?&?&?&?&?&?) (?&?&?&?&?&?&?).
  repeat split; congruence.
Qed.

Lemma modify_chat_refused (m : Modification) (sessionId chatId : string)
    (sv : Service) (time : Z) (chats : Chats) (status : Z) (error : string) :
  snd (modify_chat socket_chatModify m sessionId chatId sv time chats)
  = Refused status error ->
  fst (modify_chat socket_chatModify m sessionId chatId sv time chats) = chats.
Proof.
  unfold modify_chat.
  destruct (await (getSession sessionId sv) ≫= ws_socket) as [socket|];
    [|reflexivity].
  destruct (socket_chatModify socket m chatId); [reflexivity|discriminate].
Qed.

Lemma modify_chat_other (m : Modification) (sessionId chatId : string)
    (sv : Service) (time : Z) (chats : Chats) (k : string * string) :
  k <> (sessionId, chatId) ->
  fst (modify_chat socket_chatModify m sessionId chatId sv time chats) !! k
  = chats !! k.
Proof.
  intros Hk. unfold modify_chat.
  destruct (await (getSession sessionId sv) ≫= ws_socket) as [socket|];
    [|reflexivity].
  destruct (socket_chatModify socket m chatId); [reflexivity|].
  cbn [fst]. destruct (chat_data m sessionId chatId) as [data|] eqn:Hd;
    [|reflexivity].
  assert (Hkey : (cd_sessionId data, cd_jid data) = (sessionId, chatId)).
  { destruct m; cbn in Hd; try discriminate; injection Hd as <-; reflexivity. }
  unfold upsertChat. rewrite Hkey.
  destruct (chats !! (sessionId, chatId));
    rewrite lookup_insert_ne by congruence; reflexivity.
Qed.

Lemma modify_chat_keeps (m : Modification) (sessionId chatId : string)
    (sv : Service) (time : Z) (chats : Chats) (k : string * string) (row : Chat) :
  chats !! k = Some row ->
  exists row',
    fst (modify_chat socket_chatModify m sessionId chatId sv time chats) !! k
    = Some row'
    /\ same_fixed_columns row row'.
Proof.
  intros Hrow.
  destruct (decide (k = (sessionId, chatId))) as [->|Hk].
  2: { exists row. rewrite modify_chat_other by exact Hk.
       split; [exact Hrow|apply same_fixed_refl]. }
  unfold modify_chat.
  destruct (await (getSession sessionId sv) ≫= ws_socket) as [socket|].
  2: { exists row. split; [exact Hrow|apply same_fixed_refl]. }
  destruct (socket_chatModify socket m chatId).
  { exists row. split; [exact Hrow|apply same_fixed_refl]. }
  cbn [fst]. destruct (chat_data m sessionId chatId) as [data|] eqn:Hd.
  2: { exists row. split; [exact Hrow|apply same_fixed_refl]. }
  assert (Hkey : (cd_sessionId data, cd_jid data) = (sessionId, chatId)
                 /\ cd_name data = None /\ cd_isMuted data = None
                 /\ cd_lastMessage data = None /\ cd_metadata data = None).
  { destruct m; cbn in Hd; try discriminate; injection Hd as <-;
      repeat split. }
  destruct Hkey as (Hkey & Hn & Hmu & Hl & Hme).
  unfold upsertChat. rewrite Hkey, Hrow, lookup_insert_eq.
  eexists. split; [reflexivity|].
  rewrite Hn, Hmu, Hl, Hme. repeat split.
Qed.

(** X22.  A request to one of the six handlers of a chat that the socket
    carries out changes the row of that chat only, and in it only the column
    of the request: [isArchived] for archive and unarchive, [isPinned] for
    pin and unpin, [unreadCount] (to 0) for mark-read, with [updatedAt] set
    to the time of the request; [isGroup] and the other columns stay.  When
    the chat has no row yet, the row is made with [isGroup] read off the
    ending "@g.us" of the chat id.  The handler of delete writes nothing. *)
Theorem chat_request_writes_one_column (m : Modification)
    (sessionId chatId : string) (sv : Service) (time : Z) (chats : Chats)
    (socket : nat) :
  await (getSession sessionId sv) ≫= ws_socket = Some socket ->
  socket_chatModify socket m chatId = inr tt ->
  let chats' :=
    fst (modify_chat socket_chatModify m sessionId chatId sv time chats) in
  snd (modify_chat socket_chatModify m sessionId chatId sv time chats)
  = Sent 200 (done_message m)
  /\ (forall k, k <> (sessionId, chatId) -> chats' !! k = chats !! k)
  /\ (m = Delete -> chats' = chats)
  /\ (m <> Delete ->
      exists row',
        chats' !! (sessionId, chatId) = Some row'
        /\ match chats !! (sessionId, chatId) with
           | Some row =>
               same_fixed_columns row row'
               /\ chat_updatedAt row' = Some time
               /\ chat_isArchived row'
                  = match m with
                    | Archive value => Some value
                    | _ => chat_isArchived row
                    end
               /\ chat_isPinned row'
                  = match m with
                    | Pin value => Some value
                    | _ => chat_isPinned row
                    end
               /\ chat_unreadCount row'
                  = match m with
                    | MarkRead => Some 0
                    | _ => chat_unreadCount row
                    end
           | None =>
               chat_sessionId row' = sessionId
               /\ chat_jid row' = chatId
               /\ chat_isGroup row' = endsWith chatId "@g.us"
               /\ chat_name row' = None
           end).
Proof.
  intros Hsock Hmod chats'.
  split; [|split; [|split]].
  - unfold modify_chat. rewrite Hsock, Hmod. reflexivity.
  - intros k Hk. apply modify_chat_other. exact Hk.
  - intros ->. subst chats'. unfold modify_chat. rewrite Hsock, Hmod.
    reflexivity.
  - intros Hm. subst chats'. unfold modify_chat. rewrite Hsock, Hmod.
    cbn [fst].
    destruct m as [value|value| |]; try contradiction;
      cbn [chat_data]; unfold upsertChat;
      cbn [cd_sessionId cd_jid cd_name cd_isGroup cd_isArchived cd_isPinned
           cd_isMuted cd_unreadCount cd_lastMessage cd_metadata];
      destruct (chats !! (sessionId, chatId)) as [row|];
      rewrite lookup_insert_eq; eexists; (split; [reflexivity|]);
      cbn; repeat split.
Qed.

(** X23.  Whatever requests the six handlers of [/api/chats] serve, a row
    of the chat table is never removed, and its key, [isGroup], name, mute
    flag, last message and metadata never change: the handler of delete
    answers "Chat deleted successfully" and leaves the table as it was, so
    that the list of chats still shows the chat; and a request that is
    refused leaves the table as it was. *)
Theorem chat_rows_are_never_removed
    (requests : list (Modification * string * string * Z)) (sv : Service)
    (chats : Chats) (k : string * string) (row : Chat) :
  chats !! k = Some row ->
  (exists row',
     serve socket_chatModify requests sv chats !! k = Some row'
     /\ same_fixed_columns row row')
  /\ (forall sessionId chatId time order,
        fst (DELETE_chat socket_chatModify sessionId chatId sv time chats) = chats
        /\ GET_chats order sessionId
             (fst (DELETE_chat socket_chatModify sessionId chatId sv time chats))
           = GET_chats order sessionId chats)
  /\ (forall m sessionId chatId time status error,
        snd (modify_chat socket_chatModify m sessionId chatId sv time chats)
        = Refused status error ->
        fst (modify_chat socket_chatModify m sessionId chatId sv time chats)
        = chats).
Proof.
  intros Hrow. split; [|split].
  - revert chats row Hrow.
    induction requests as [|[[[m sessionId] chatId] time] rest IH];
      intros chats row Hrow.
    + exists row. split; [exact Hrow|apply same_fixed_refl].
    + cbn [serve].
      destruct (modify_chat_keeps m sessionId chatId sv time chats k row Hrow)
        as (row1 & H1 & Hs1).
      destruct (IH _ row1 H1) as (row' & H' & Hs').
      exists row'. split; [exact H'|].
      apply same_fixed_trans with row1; assumption.
  - intros sessionId chatId time order.
    assert (H : fst (DELETE_chat socket_chatModify sessionId chatId sv time chats)
                = chats).
    { unfold DELETE_chat, modify_chat.
      destruct (await (getSession sessionId sv) ≫= ws_socket) as [socket|];
        [|reflexivity].
      destruct (socket_chatModify socket Delete chatId); reflexivity. }
    rewrite H. split; reflexivity.
  - intros m sessionId chatId time status error.
    apply modify_chat_refused.
Qed.

End Chats.

Section ChatChecks.
Import DatabaseService WhatsAppService ChatRoutes.

Lemma chat_request_writes_one_column_witness :
  await (getSession "s1" Sample.created) ≫= ws_socket = Some 0%nat
  /\ Sample.chatModify_ok 0 (Archive true) "123-456@g.us" = inr tt
  /\ fst (modify_chat Sample.chatModify_ok (Archive true) "s1" "123-456@g.us"
            Sample.created 77 Sample.one_chat)
     !! ("s1", "123-456@g.us")
     = Some (mkChat "s1" "123-456@g.us" (Some "Family") true (Some true)
               (Some true) None (Some 3) None None (Some 77))
  /\ snd (modify_chat Sample.chatModify_ok (Archive true) "s1" "123-456@g.us"
            Sample.created 77 Sample.one_chat)
     = Sent 200 "Chat archived successfully".
Proof.
  assert (H1 : await (getSession "s1" Sample.created) ≫= ws_socket = Some 0%nat)
    by (vm_compute; reflexivity).
  assert (H2 : Sample.chatModify_ok 0 (Archive true) "123-456@g.us" = inr tt)
    by reflexivity.
  split; [exact H1|]. split; [exact H2|]. split; [vm_compute; reflexivity|].
  exact (proj1 (chat_request_writes_one_column Sample.chatModify_ok (Archive true)
                  "s1" "123-456@g.us" Sample.created 77 Sample.one_chat 0%nat
                  H1 H2)).
Defined.

Lemma chat_rows_are_never_removed_witness :
  Sample.one_chat !! ("s1", "123-456@g.us") = Some Sample.group_chat
  /\ (exists row',
        serve Sample.chatModify_ok
          [(Delete, "s1", "123-456@g.us", 10); (MarkRead, "s1", "123-456@g.us", 20)]
          Sample.created Sample.one_chat !! ("s1", "123-456@g.us") = Some row'
        /\ same_fixed_columns Sample.group_chat row').
Proof.
  assert (H : Sample.one_chat !! ("s1", "123-456@g.us") = Some Sample.group_chat)
    by (vm_compute; reflexivity).
  split; [exact H|].
  exact (proj1 (chat_rows_are_never_removed Sample.chatModify_ok
                  [(Delete, "s1", "123-456@g.us", 10);
                   (MarkRead, "s1", "123-456@g.us", 20)]
                  Sample.created Sample.one_chat ("s1", "123-456@g.us")
                  Sample.group_chat H)).
Defined.

End ChatChecks.
